(** * Private-Coach scheduling engine: a shallow embedding

    The development follows [app/services/scheduler/cp_sat_solver.py]
    (class [CPSATScheduler]), [app/models/suggestion_session.py] and the
    session routes of [app/routes/schedule.py].

    Conventions of the embedding:
    - Python integers are [Z]; [%] with a positive modulus is [Z.modulo] and
      [//] is [Z.div].
    - A naive [datetime] is the number of microseconds since the midnight that
      starts proleptic-Gregorian ordinal day 0, so that [date()] is the
      ordinal day number and [weekday()] is [(ordinal + 6) mod 7]. The range
      limits of Python's [datetime] (years 1..9999) are left out.
    - Floats that hold confidences and workloads are exact rationals ([Q]).
    - [print] calls are dropped; everything else that a function writes to
      the scheduler object is threaded through the state of the monad [M].
    - Python exceptions are values of [exn]; [try]/[except] is [try_except].
    - The CP-SAT solver, the database and the clock are collaborators: they
      are Variables of the Section that holds the scheduler. *)

From Stdlib Require Import ZArith List Bool String Ascii QArith Qround Qabs Lia DecimalString.
From Stdlib Require Import DecimalPos DecimalZ Sorted Permutation.
Import ListNotations.

Local Open Scope list_scope.
Local Open Scope string_scope.
Local Open Scope Z_scope.

(** ** Python values that several modules share *)

(** [str(n)] for an integer. *)
Definition str (n : Z) : string := NilZero.string_of_int (Z.to_int n).

(** [sep.join(parts)] *)
Fixpoint join (sep : string) (parts : list string) : string :=
  match parts with
  | [] => ""
  | [p] => p
  | p :: rest => p ++ sep ++ join sep rest
  end.

(** [x in xs] for a list of integers. *)
Definition contains (x : Z) (xs : list Z) : bool := existsb (Z.eqb x) xs.

(** [enumerate(xs)] *)
Fixpoint enumerate_from {A : Type} (i : Z) (xs : list A) : list (Z * A) :=
  match xs with
  | [] => []
  | x :: rest => (i, x) :: enumerate_from (i + 1) rest
  end.
Definition enumerate {A : Type} (xs : list A) : list (Z * A) := enumerate_from 0 xs.

(** [xs.append(x)] *)
Definition list_append {A : Type} (xs : list A) (x : A) : list A := xs ++ [x].

(** [len(xs)] *)
Definition len {A : Type} (xs : list A) : Z := Z.of_nat (List.length xs).

(** ** Exceptions *)

Inductive exn : Type :=
| ValueError (msg : string)
| TypeError (msg : string)
| IndexError (msg : string)
| RuntimeError (msg : string).

(** [str(e)] *)
Definition exn_message (e : exn) : string :=
  match e with
  | ValueError m | TypeError m | IndexError m | RuntimeError m => m
  end.

Inductive outcome (A : Type) : Type :=
| Return (a : A)
| Raise (e : exn).
Arguments Return {A} a.
Arguments Raise {A} e.

(** Comparisons and sums that meet [None] raise [TypeError], as in Python. *)
Definition le_int_opt (a : Z) (b : option Z) : outcome bool :=
  match b with
  | Some b' => Return (a <=? b')
  | None => Raise (TypeError "'<=' not supported between instances of 'int' and 'NoneType'")
  end.

Definition add_opt_int (a : option Z) (b : Z) : outcome Z :=
  match a with
  | Some a' => Return (a' + b)
  | None => Raise (TypeError "unsupported operand type(s) for +: 'NoneType' and 'int'")
  end.

(** ** Dates and times *)

Module PyTime.

Definition datetime := Z.
Definition date := Z.
Definition timedelta := Z.

Definition us_per_hour : Z := 3600000000.
Definition us_per_day : Z := 86400000000.

(** [timedelta(days=d, hours=h)] *)
Definition delta (d h : Z) : timedelta := d * us_per_day + h * us_per_hour.

(** [dt.date()], as an ordinal *)
Definition date_of (dt : datetime) : date := dt / us_per_day.

(** [dt.weekday()]: Monday is 0 *)
Definition weekday (dt : datetime) : Z := (date_of dt + 6) mod 7.

(** [dt.hour] *)
Definition hour_of (dt : datetime) : Z := (dt mod us_per_day) / us_per_hour.

(** [datetime.combine(d, datetime.min.time())] *)
Definition combine_min (d : date) : datetime := d * us_per_day.

(** [dt.replace(hour=h, minute=0, second=0, microsecond=0)] *)
Definition replace_hour (dt : datetime) (h : Z) : outcome datetime :=
  if (0 <=? h) && (h <=? 23)
  then Return (combine_min (date_of dt) + h * us_per_hour)
  else Raise (ValueError "hour must be in 0..23").

(** [td.days] *)
Definition days_of (td : timedelta) : Z := td / us_per_day.

(** Year, month and day of an ordinal (proleptic Gregorian calendar). *)
Definition civil (d : date) : Z * Z * Z :=
  let z := d + 305 in
  let era := z / 146097 in
  let doe := z mod 146097 in
  let yoe := (doe - doe / 1460 + doe / 36524 - doe / 146096) / 365 in
  let doy := doe - (365 * yoe + yoe / 4 - yoe / 100) in
  let mp := (5 * doy + 2) / 153 in
  let dd := doy - (153 * mp + 2) / 5 + 1 in
  let mm := if mp <? 10 then mp + 3 else mp - 9 in
  let yy := yoe + era * 400 + (if mm <=? 2 then 1 else 0) in
  (yy, mm, dd).

Definition pad (width : nat) (n : Z) : string :=
  let s := str n in
  String.concat "" (repeat "0" (width - String.length s)) ++ s.

(** [d.isoformat()] *)
Definition isoformat (d : date) : string :=
  let '(yy, mm, dd) := civil d in
  pad 4 yy ++ "-" ++ pad 2 mm ++ "-" ++ pad 2 dd.

(** [dt.strftime('%Y-%m-%d %H:%M')] *)
Definition strftime_minutes (dt : datetime) : string :=
  isoformat (date_of dt) ++ " " ++ pad 2 (hour_of dt) ++ ":"
    ++ pad 2 ((dt mod us_per_hour) / 60000000).

(** [datetime(y, m, d, h, 0)] for the concrete scenarios below, through the
    ordinal of the day. *)
Definition at_hour (d : date) (h : Z) : datetime := combine_min d + h * us_per_hour.

End PyTime.
Import PyTime.

(** ** Domain records ([app/models]) *)

Module ScheduleSlot.
Record t : Type := mk
  { id : Z;
    day_of_week : Z;   (* 0 = Monday, 6 = Sunday *)
    start_hour : Z;
    coach_id : Z;
    capacity : Z }.
End ScheduleSlot.

Module ClientPlan.
(** [sessions_per_week = None] stands for an object without that attribute,
    the case [getattr(plan, 'sessions_per_week', 3)] provides for. No plan
    the engine reads is of that kind: the column is [nullable=False] and
    [create_client_plan], which alone makes the rows, sets it from the plan
    type. An attribute that holds [None] is not modelled. *)
Record t : Type := mk
  { client_id : Z;
    sessions_per_week : option Z;
    assigned_coach_id : Z }.
End ClientPlan.

Module ClientPreference.
Record t : Type := mk
  { preferred_start_hour : option Z;
    preferred_end_hour : option Z;
    is_flexible : bool }.
End ClientPreference.

Module Booking.
Record t : Type := mk
  { client_id : Z;
    coach_id : Z;
    date : datetime;
    status : string }.
End Booking.

Module User.
Record t : Type := mk
  { first_name : string;
    last_name : string }.
End User.

(** The read side of the database the scheduler queries. *)
Record Database : Type :=
  { (* schedule_crud.get_client_plan(db, client_id) *)
    get_client_plan : Z -> option ClientPlan.t;
    (* schedule_crud.get_client_preference(db, client_id) *)
    get_client_preference : Z -> option ClientPreference.t;
    (* schedule_crud.get_available_slots_for_client(db, client_id, week_start) *)
    get_available_slots_for_client : Z -> datetime -> list ScheduleSlot.t;
    (* the rows of the bookings table *)
    bookings : list Booking.t;
    (* db.query(User).filter(User.id == coach_id).first() *)
    get_user : Z -> option User.t }.

(** The instant [datetime.now()] returns during one call of the scheduler, and
    the elapsed time the call measures for [solve_time_ms]. All reads of the
    clock inside one call are taken at the same instant. *)
Record Clock : Type :=
  { now : datetime;
    (* datetime.utcnow(), read by the session routes *)
    utcnow : datetime;
    solve_time_ms : Z }.

(** ** The CP-SAT interface ([ortools.sat.python.cp_model]) *)

Inductive CpSolverStatus : Type :=
| UNKNOWN | MODEL_INVALID | FEASIBLE | INFEASIBLE | OPTIMAL.

Definition CpSolverStatus_eqb (a b : CpSolverStatus) : bool :=
  match a, b with
  | UNKNOWN, UNKNOWN | MODEL_INVALID, MODEL_INVALID | FEASIBLE, FEASIBLE
  | INFEASIBLE, INFEASIBLE | OPTIMAL, OPTIMAL => true
  | _, _ => false
  end.

(** A Boolean variable is named after its slot: [select_slot_{slot.id}]. The
    three shapes of linear constraint are the ones the scheduler adds. *)
Inductive LinearConstraint : Type :=
| SumEquals (vars : list Z) (n : Z)       (* sum(vars) == n *)
| VarIsZero (v : Z)                        (* v == 0 *)
| PairAtMostOne (v1 v2 : Z).               (* v1 + v2 <= 1 *)

Record CpModel : Type :=
  { variables : list Z;
    constraints : list LinearConstraint;
    (* Maximize(sum(coef * var)) *)
    objective : list (Z * Z) }.

Definition empty_model : CpModel :=
  {| variables := []; constraints := []; objective := [] |}.

Record SolverResponse : Type :=
  { status : CpSolverStatus;
    (* the values of the variables when a solution was found, else empty *)
    solution : list (Z * bool);
    (* solver.ObjectiveValue() *)
    objective_value : Z;
    (* solver.WallTime() *)
    wall_time : Q }.

(** [solver.Value(var)]: reading a variable the response has no value for
    fails. *)
Fixpoint lookup_value (v : Z) (sol : list (Z * bool)) : option bool :=
  match sol with
  | [] => None
  | (w, b) :: rest => if v =? w then Some b else lookup_value v rest
  end.

Definition solver_Value (r : SolverResponse) (v : Z) : outcome Z :=
  match lookup_value v (solution r) with
  | Some b => Return (if b then 1 else 0)
  | None => Raise (RuntimeError "no solution value for variable")
  end.

(** ** Results ([SchedulingResult], [SuggestionReason]) *)

Inductive SuggestionReason : Type :=
| PERFECT_PREFERENCE_MATCH
| GOOD_PREFERENCE_MATCH
| COACH_AVAILABILITY
| CAPACITY_AVAILABLE
| RECOVERY_COMPLIANT
| LOAD_BALANCING
| ONLY_OPTION.

Definition SuggestionReason_eqb (a b : SuggestionReason) : bool :=
  match a, b with
  | PERFECT_PREFERENCE_MATCH, PERFECT_PREFERENCE_MATCH
  | GOOD_PREFERENCE_MATCH, GOOD_PREFERENCE_MATCH
  | COACH_AVAILABILITY, COACH_AVAILABILITY
  | CAPACITY_AVAILABLE, CAPACITY_AVAILABLE
  | RECOVERY_COMPLIANT, RECOVERY_COMPLIANT
  | LOAD_BALANCING, LOAD_BALANCING
  | ONLY_OPTION, ONLY_OPTION => true
  | _, _ => false
  end.

Module Suggestion.
(** One entry of [suggested_slots]. [date_suggestion] is kept as the date
    whose [isoformat()] the source stores. *)
Record t : Type := mk
  { slot_id : Z;
    coach_id : Z;
    coach_name : string;
    day_of_week : Z;
    hour : Z;
    date_suggestion : date;
    confidence_score : Q;
    capacity_available : Z;
    optimization_score : Z }.

(** The date-time a suggestion stands for: the booking step parses
    [date_suggestion] and sets its hour to [hour]
    ([book_selected_suggestions]). *)
Definition resolved_datetime (s : t) : datetime :=
  at_hour (date_suggestion s) (hour s).
End Suggestion.

Record SchedulingResult : Type :=
  { client_id : Z;
    suggested_slots : list Suggestion.t;
    total_suggestions : Z;
    solver_status : string;
    result_solve_time_ms : Z;
    confidence_score : Q;
    constraints_satisfied : list string;
    reasons : list SuggestionReason }.

(** ** The scheduler object and its monad *)

(** The fields of a [CPSATScheduler] that its methods write. [model] holds
    [self.model] together with [self.variables]; [solved_models] is a ghost
    field that records, oldest first, every model handed to [solver.Solve]. *)
Record Scheduler : Type :=
  { model : CpModel;
    constraint_explanations : list string;
    solver : option SolverResponse;
    solved_models : list CpModel }.

(** [CPSATScheduler.__init__] *)
Definition new_scheduler : Scheduler :=
  {| model := empty_model;
     constraint_explanations := [];
     solver := None;
     solved_models := [] |}.

Definition min_recovery_hours : Z := 24.
Definition max_suggestions : nat := 5.
Definition planning_horizon_days : Z := 14.

(** [ConstraintWeights()] with its defaults: the fields the objective reads. *)
Definition weights_preference_match : Q := 10.
Definition weights_coach_load_balance : Q := 5.

(** A computation on the scheduler object that returns or raises; the object
    keeps what was written to it before an exception. *)
Definition M (A : Type) : Type := Scheduler -> outcome A * Scheduler.

Definition ret {A : Type} (a : A) : M A := fun s => (Return a, s).

Definition raise {A : Type} (e : exn) : M A := fun s => (Raise e, s).

Definition bind {A B : Type} (m : M A) (k : A -> M B) : M B :=
  fun s =>
    match m s with
    | (Return a, s') => k a s'
    | (Raise e, s') => (Raise e, s')
    end.

Definition try_except {A : Type} (m : M A) (handler : exn -> M A) : M A :=
  fun s =>
    match m s with
    | (Return a, s') => (Return a, s')
    | (Raise e, s') => handler e s'
    end.

Definition lift {A : Type} (o : outcome A) : M A :=
  match o with
  | Return a => ret a
  | Raise e => raise e
  end.

Definition get_self : M Scheduler := fun s => (Return s, s).

Definition set_self (f : Scheduler -> Scheduler) : M unit := fun s => (Return tt, f s).

Declare Scope py_scope.
Delimit Scope py_scope with py.
Notation "x <- m ;; k" := (bind m (fun x => k))
  (at level 61, m at next level, right associativity) : py_scope.
Notation "m ;; k" := (bind m (fun _ => k))
  (at level 61, right associativity) : py_scope.
Local Open Scope py_scope.

(** [for x in xs: body(x)] *)
Fixpoint for_each {A : Type} (xs : list A) (body : A -> M unit) : M unit :=
  match xs with
  | [] => ret tt
  | x :: rest => body x ;; for_each rest body
  end.

(** A [for] loop that carries a local variable. *)
Fixpoint for_fold {A B : Type} (xs : list A) (acc : B) (body : B -> A -> M B) : M B :=
  match xs with
  | [] => ret acc
  | x :: rest => acc' <- body acc x ;; for_fold rest acc' body
  end.

(** [self.model.Add(c)] *)
Definition model_Add (c : LinearConstraint) : M unit :=
  set_self (fun s =>
    {| model := {| variables := variables (model s);
                   constraints := constraints (model s) ++ [c];
                   objective := objective (model s) |};
       constraint_explanations := constraint_explanations s;
       solver := solver s;
       solved_models := solved_models s |}).

(** [self.model.Maximize(sum(terms))] *)
Definition model_Maximize (terms : list (Z * Z)) : M unit :=
  set_self (fun s =>
    {| model := {| variables := variables (model s);
                   constraints := constraints (model s);
                   objective := terms |};
       constraint_explanations := constraint_explanations s;
       solver := solver s;
       solved_models := solved_models s |}).

(** [self.constraint_explanations = msgs] *)
Definition set_explanations (msgs : list string) : M unit :=
  set_self (fun s =>
    {| model := model s;
       constraint_explanations := msgs;
       solver := solver s;
       solved_models := solved_models s |}).

(** [self.constraint_explanations.append(msg)] *)
Definition explain (msg : string) : M unit :=
  set_self (fun s =>
    {| model := model s;
       constraint_explanations := constraint_explanations s ++ [msg];
       solver := solver s;
       solved_models := solved_models s |}).

(** The dictionary [_gather_scheduling_data] returns. *)
Record SchedulingData : Type :=
  { sd_client_id : Z;
    client_plan : ClientPlan.t;
    client_preference : option ClientPreference.t;
    available_slots : list ScheduleSlot.t;
    existing_bookings : list Booking.t;
    coach_workload : list (Z * Q);
    time_window : datetime * datetime;
    planning_horizon : Z }.

(** [getattr(plan, 'sessions_per_week', 3)] *)
Definition getattr_sessions_per_week (plan : ClientPlan.t) (default : Z) : Z :=
  match ClientPlan.sessions_per_week plan with
  | Some n => n
  | None => default
  end.

(** [dict.get(key)] and [key in dict] on an association list. *)
Fixpoint workload_get (coach : Z) (w : list (Z * Q)) : option Q :=
  match w with
  | [] => None
  | (c, n) :: rest => if coach =? c then Some n else workload_get coach rest
  end.

Fixpoint workload_incr (coach : Z) (w : list (Z * Q)) : list (Z * Q) :=
  match w with
  | [] => [(coach, 1%Q)]
  | (c, n) :: rest =>
      if coach =? c then (c, (n + 1)%Q) :: rest else (c, n) :: workload_incr coach rest
  end.

Definition Qlt_bool (a b : Q) : bool := negb (Qle_bool b a).

(** The selection that the constraint builders, the objective and the
    extractor compute for a slot, each written where the source writes it. *)

(** [_add_recovery_constraints], first loop: lines 320-334. *)
Definition recovery_slot_datetime (current_time : datetime) (sd : SchedulingData)
    (slot : ScheduleSlot.t) : outcome datetime :=
  let start_date := fst (time_window sd) in
  let days_until_slot := (ScheduleSlot.day_of_week slot - weekday start_date) mod 7 in
  let rolled :=
    if days_until_slot =? 0 then
      match replace_hour start_date (ScheduleSlot.start_hour slot) with
      | Return slot_time_today =>
          Return (if slot_time_today <=? current_time then 7 else days_until_slot)
      | Raise e => Raise e
      end
    else Return days_until_slot in
  match rolled with
  | Return days_until_slot' =>
      let slot_date := date_of start_date + days_until_slot' in
      Return (combine_min slot_date + delta 0 (ScheduleSlot.start_hour slot))
  | Raise e => Raise e
  end.

(** [_add_recovery_constraints], second loop: lines 356-363. *)
Definition pair_slot_datetime (sd : SchedulingData) (slot : ScheduleSlot.t) : datetime :=
  fst (time_window sd)
  + delta (ScheduleSlot.day_of_week slot) (ScheduleSlot.start_hour slot).

(** [_add_current_time_constraints]: lines 394-407. *)
Definition current_time_slot_datetime (current_time : datetime) (sd : SchedulingData)
    (slot : ScheduleSlot.t) : outcome datetime :=
  let start_date := fst (time_window sd) in
  let days_until_slot := (ScheduleSlot.day_of_week slot - weekday start_date) mod 7 in
  let rolled :=
    if days_until_slot =? 0 then
      match replace_hour start_date (ScheduleSlot.start_hour slot) with
      | Return slot_time_today =>
          Return (if slot_time_today <=? current_time then 7 else days_until_slot)
      | Raise e => Raise e
      end
    else Return days_until_slot in
  match rolled with
  | Return days_until_slot' =>
      let slot_date := date_of start_date + days_until_slot' in
      Return (combine_min slot_date + delta 0 (ScheduleSlot.start_hour slot))
  | Raise e => Raise e
  end.

(** [_define_objective]: lines 532-538. *)
Definition objective_slot_date (current_time : datetime) (sd : SchedulingData)
    (slot : ScheduleSlot.t) : outcome date :=
  let start_date := fst (time_window sd) in
  let days_until_slot := (ScheduleSlot.day_of_week slot - weekday start_date) mod 7 in
  let rolled :=
    if days_until_slot =? 0 then
      match replace_hour start_date (ScheduleSlot.start_hour slot) with
      | Return slot_time_today =>
          Return (if slot_time_today <=? current_time then 7 else days_until_slot)
      | Raise e => Raise e
      end
    else Return days_until_slot in
  match rolled with
  | Return days_until_slot' => Return (date_of start_date + days_until_slot')
  | Raise e => Raise e
  end.

(** [_extract_suggestions]: lines 602-607. *)
Definition suggestion_date (sd : SchedulingData) (slot : ScheduleSlot.t) : date :=
  let base_date := fst (time_window sd) in
  let days_until_slot := (ScheduleSlot.day_of_week slot - weekday base_date) mod 7 in
  let days_until_slot' :=
    if (days_until_slot =? 0) && (hour_of base_date >? ScheduleSlot.start_hour slot)
    then 7 else days_until_slot in
  date_of base_date + days_until_slot'.

(** [td.total_seconds()] *)
Definition total_seconds (td : timedelta) : Q := inject_Z td / inject_Z 1000000.

(** [a <= x <= b] where [b] may be [None]: the second comparison is only
    evaluated when the first holds. *)
Definition chained_le (a x : Z) (b : option Z) : outcome bool :=
  if a <=? x then le_int_opt x b else Return false.

(** [x == a - 1 or x == b + 1] where [b] may be [None]. *)
Definition adjacent_hour (x a : Z) (b : option Z) : outcome bool :=
  if x =? a - 1 then Return true
  else match add_opt_int b 1 with
       | Return b1 => Return (x =? b1)
       | Raise e => Raise e
       end.

(** What [_solve_model] returns. *)
Record SolveResult : Type :=
  { sr_status : string;
    sr_confidence : Q;
    sr_objective_value : Z;
    sr_solve_time : Q }.

(** [status_map] of [_solve_model] *)
Definition status_map : list (CpSolverStatus * string) :=
  [ (OPTIMAL, "OPTIMAL");
    (FEASIBLE, "FEASIBLE");
    (INFEASIBLE, "NO_SOLUTION");
    (UNKNOWN, "TIMEOUT");
    (MODEL_INVALID, "INVALID") ].

(** [status_map.get(status, default)] *)
Fixpoint status_map_get (m : list (CpSolverStatus * string)) (st : CpSolverStatus)
    (default : string) : string :=
  match m with
  | [] => default
  | (k, v) :: rest => if CpSolverStatus_eqb st k then v else status_map_get rest st default
  end.

Section CPSATScheduler.

Variable db : Database.
Variable clock : Clock.
(** [CpSolver().Solve(model)] with [max_time_in_seconds = 10.0] *)
Variable cp_solve : CpModel -> SolverResponse.

(** [datetime.now()] *)
Definition datetime_now : datetime := now clock.

Definition _get_client_recent_bookings (client_id : Z) (since_date : datetime)
    : list Booking.t :=
  let cutoff_date := since_date - delta 7 0 in
  filter (fun b =>
            (Booking.client_id b =? client_id)
            && (Booking.date b >=? cutoff_date)
            && negb (String.eqb (Booking.status b) "cancelled"))
         (bookings db).

Definition _get_coach_workload_data (coach_id : Z) (start_date end_date : datetime)
    : list (Z * Q) :=
  let rows :=
    filter (fun b =>
              (Booking.date b >=? start_date)
              && (Booking.date b <=? end_date)
              && negb (String.eqb (Booking.status b) "cancelled"))
           (bookings db) in
  let workload_data :=
    fold_left (fun w b => workload_incr (Booking.coach_id b) w) rows [] in
  match workload_get coach_id workload_data with
  | Some _ => workload_data
  | None => workload_data ++ [(coach_id, 0%Q)]
  end.

Definition _gather_scheduling_data (client_id : Z) (preferred_date : option datetime)
    (days_flexibility : Z) : M SchedulingData :=
  let start_date := match preferred_date with
                    | Some d => d
                    | None => datetime_now
                    end in
  let end_date := start_date + delta days_flexibility 0 in
  let client_plan := get_client_plan db client_id in
  let client_preference := get_client_preference db client_id in
  match client_plan with
  | None => raise (ValueError ("No plan found for client " ++ str client_id))
  | Some client_plan =>
      let available_slots := get_available_slots_for_client db client_id start_date in
      let existing_bookings := _get_client_recent_bookings client_id start_date in
      let coach_workload :=
        _get_coach_workload_data (ClientPlan.assigned_coach_id client_plan)
                                 start_date end_date in
      ret {| sd_client_id := client_id;
             client_plan := client_plan;
             client_preference := client_preference;
             available_slots := available_slots;
             existing_bookings := existing_bookings;
             coach_workload := coach_workload;
             time_window := (start_date, end_date);
             planning_horizon := days_flexibility |}
  end.

(** Slot ids are primary keys, so the dictionary [self.variables] has one
    entry per candidate slot. *)
Definition _create_model (sd : SchedulingData) (num_sessions : Z) : M unit :=
  let ids := map ScheduleSlot.id (available_slots sd) in
  set_self (fun s =>
    {| model := {| variables := ids;
                   constraints := [SumEquals ids num_sessions];
                   objective := [] |};
       constraint_explanations := constraint_explanations s;
       solver := solver s;
       solved_models := solved_models s |}).

Definition _add_capacity_constraints (sd : SchedulingData) : M unit :=
  explain "Capacity constraints: Only considering slots with available space".

Definition _add_recovery_constraints (sd : SchedulingData) (client_id : Z) : M unit :=
  let available_slots := available_slots sd in
  let existing_bookings := existing_bookings sd in
  let current_time := datetime_now in
  for_each existing_bookings (fun booking =>
    let days_old := days_of (current_time - Booking.date booking) in
    if days_old >? 7 then ret tt
    else
      let booking_start := Booking.date booking in
      let booking_end := Booking.date booking + delta 0 1 in
      let forbidden_start := booking_start - delta 0 min_recovery_hours in
      let forbidden_end := booking_end + delta 0 min_recovery_hours in
      for_each available_slots (fun slot =>
        slot_datetime <- lift (recovery_slot_datetime datetime_now sd slot) ;;
        if (forbidden_start <=? slot_datetime) && (slot_datetime <=? forbidden_end)
        then model_Add (VarIsZero (ScheduleSlot.id slot))
        else ret tt)) ;;
  for_each (enumerate available_slots) (fun '(i, slot1) =>
    for_each (enumerate available_slots) (fun '(j, slot2) =>
      if i >=? j then ret tt
      else
        let slot1_datetime := pair_slot_datetime sd slot1 in
        let slot2_datetime := pair_slot_datetime sd slot2 in
        let time_diff :=
          Qabs (total_seconds (slot2_datetime - slot1_datetime) / inject_Z 3600) in
        if Qlt_bool time_diff (inject_Z min_recovery_hours)
        then model_Add (PairAtMostOne (ScheduleSlot.id slot1) (ScheduleSlot.id slot2))
        else ret tt)) ;;
  explain ("Recovery constraint: " ++ str min_recovery_hours
           ++ "h minimum between sessions (including newly scheduled sessions)").

Definition _add_coach_availability_constraints (sd : SchedulingData) : M unit :=
  explain "Coach availability: Only considering slots during coach shifts".

Definition _add_current_time_constraints (sd : SchedulingData) : M unit :=
  let available_slots := available_slots sd in
  let current_time := datetime_now in
  excluded_count <-
    for_fold available_slots 0 (fun excluded_count slot =>
      slot_datetime <- lift (current_time_slot_datetime current_time sd slot) ;;
      if slot_datetime <=? current_time
      then model_Add (VarIsZero (ScheduleSlot.id slot)) ;; ret (excluded_count + 1)
      else ret excluded_count) ;;
  explain ("Current time constraint: Excluded " ++ str excluded_count
           ++ " past time slots").

(** The loop that [_add_weekly_quota_constraints], [_count_current_week_bookings]
    and [_count_next_week_bookings] share: bookings dated in
    [week_start <= date < week_end]. *)
Definition count_between (week_start week_end : datetime) (bs : list Booking.t) : Z :=
  fold_left (fun n b =>
               if (week_start <=? Booking.date b) && (Booking.date b <? week_end)
               then n + 1 else n)
            bs 0.

Definition _add_weekly_quota_constraints (sd : SchedulingData) (client_id : Z) : M unit :=
  let available_slots := available_slots sd in
  let weekly_limit := getattr_sessions_per_week (client_plan sd) 3 in
  let start_date := fst (time_window sd) in
  let week_start := start_date - delta (weekday start_date) 0 in
  let week_end := week_start + delta 7 0 in
  let current_week_bookings := count_between week_start week_end (existing_bookings sd) in
  let remaining_quota := weekly_limit - current_week_bookings in
  if remaining_quota <=? 0 then
    for_each available_slots (fun slot => model_Add (VarIsZero (ScheduleSlot.id slot))) ;;
    explain ("Weekly quota constraint: Already used " ++ str current_week_bookings
             ++ "/" ++ str weekly_limit ++ " sessions this week")
  else
    explain ("Weekly quota constraint: " ++ str remaining_quota
             ++ " sessions remaining this week (" ++ str current_week_bookings
             ++ "/" ++ str weekly_limit ++ " used)").

Definition _add_excluded_slots_constraints (sd : SchedulingData)
    (excluded_slot_ids : list Z) : M unit :=
  match excluded_slot_ids with
  | [] => ret tt
  | _ =>
      excluded_count <-
        for_fold (available_slots sd) 0 (fun excluded_count slot =>
          if contains (ScheduleSlot.id slot) excluded_slot_ids
          then model_Add (VarIsZero (ScheduleSlot.id slot)) ;; ret (excluded_count + 1)
          else ret excluded_count) ;;
      if excluded_count >? 0
      then explain ("Re-suggestion constraint: Excluded " ++ str excluded_count
                    ++ " previously suggested time slots to find alternatives")
      else ret tt
  end.

Definition _add_preference_constraints (sd : SchedulingData) (client_id : Z) : M unit :=
  match client_preference sd with
  | None => ret tt
  | Some _ => explain "Preference optimization: Prioritizing preferred time slots"
  end.

(** The weights and the workloads are exact rationals, so [int(...)] is the
    floor of the exact product; the code multiplies floats first, and a
    product that rounds to just below an integer gives one less there. The
    coefficients reach the solver's choice and [optimization_score] only. *)
Definition _define_objective (sd : SchedulingData) (client_id : Z) : M unit :=
  let available_slots := available_slots sd in
  (* Preference matching score *)
  terms1 <-
    match client_preference sd with
    | Some pref =>
        match ClientPreference.preferred_start_hour pref with
        | Some pref_start =>
            let pref_end := ClientPreference.preferred_end_hour pref in
            for_fold available_slots ([] : list (Z * Z)) (fun terms slot =>
              let h := ScheduleSlot.start_hour slot in
              perfect <- lift (chained_le pref_start h pref_end) ;;
              if perfect
              then ret (list_append terms
                          (ScheduleSlot.id slot, Qfloor (weights_preference_match * 100)))
              else
                close <- lift (adjacent_hour h pref_start pref_end) ;;
                if close
                then ret (list_append terms
                            (ScheduleSlot.id slot, Qfloor (weights_preference_match * 50)))
                else ret terms)
        | None => ret []
        end
    | None => ret []
    end ;;
  (* Load balancing *)
  let coach_workload := coach_workload sd in
  let avg_workload :=
    match coach_workload with
    | [] => 0%Q
    | _ => (fold_left Qplus (map snd coach_workload) 0 / inject_Z (len coach_workload))%Q
    end in
  let terms2 :=
    fold_left (fun terms slot =>
                 match workload_get (ScheduleSlot.coach_id slot) coach_workload with
                 | Some w =>
                     let workload_diff := (avg_workload - w)%Q in
                     if Qlt_bool 0 workload_diff
                     then list_append terms
                            (ScheduleSlot.id slot,
                             Qfloor (weights_coach_load_balance * workload_diff * 10))
                     else terms
                 | None => terms
                 end)
              available_slots terms1 in
  (* Date preference *)
  let start_date := fst (time_window sd) in
  let current_time := datetime_now in
  objective_terms <-
    for_fold available_slots terms2 (fun terms slot =>
      slot_date <- lift (objective_slot_date current_time sd slot) ;;
      let days_from_start := slot_date - date_of start_date in
      let date_score := Z.max 0 (7 - days_from_start) * 20 in
      ret (list_append terms (ScheduleSlot.id slot, date_score))) ;;
  match objective_terms with
  | [] => model_Maximize (map (fun slot => (ScheduleSlot.id slot, 1)) available_slots)
  | _ => model_Maximize objective_terms
  end.

Definition _solve_model : M SolveResult :=
  s <- get_self ;;
  let response := cp_solve (model s) in
  set_self (fun s =>
    {| model := model s;
       constraint_explanations := constraint_explanations s;
       solver := Some response;
       solved_models := solved_models s ++ [model s] |}) ;;
  let st := status response in
  let confidence :=
    if CpSolverStatus_eqb st OPTIMAL then 1%Q
    else if CpSolverStatus_eqb st FEASIBLE then (8 # 10)%Q
    else 0%Q in
  ret {| sr_status := status_map_get status_map st "UNKNOWN";
         sr_confidence := confidence;
         sr_objective_value :=
           if CpSolverStatus_eqb st OPTIMAL || CpSolverStatus_eqb st FEASIBLE
           then objective_value response else 0;
         sr_solve_time := wall_time response |}.

(** [suggestions.sort(key=lambda x: (x['hour'], x['day_of_week']))]: a
    stable sort, as Python's is. *)
Definition suggestion_key_le (a b : Suggestion.t) : bool :=
  (Suggestion.hour a <? Suggestion.hour b)
  || ((Suggestion.hour a =? Suggestion.hour b)
      && (Suggestion.day_of_week a <=? Suggestion.day_of_week b)).

Fixpoint insert_suggestion (x : Suggestion.t) (sorted : list Suggestion.t)
    : list Suggestion.t :=
  match sorted with
  | [] => [x]
  | y :: rest =>
      if suggestion_key_le x y then x :: y :: rest
      else y :: insert_suggestion x rest
  end.

Definition sort_suggestions (l : list Suggestion.t) : list Suggestion.t :=
  fold_right insert_suggestion [] l.

Definition _extract_suggestions (sd : SchedulingData) (solver_result : SolveResult)
    : M (list Suggestion.t) :=
  if String.eqb (sr_status solver_result) "NO_SOLUTION"
     || String.eqb (sr_status solver_result) "INVALID"
  then ret []
  else
    suggestions <-
      for_fold (available_slots sd) ([] : list Suggestion.t) (fun suggestions slot =>
        s <- get_self ;;
        match solver s with
        | None => raise (RuntimeError "Solve() has not been called.")
        | Some response =>
            v <- lift (solver_Value response (ScheduleSlot.id slot)) ;;
            if v =? 1 then
              let coach := get_user db (ScheduleSlot.coach_id slot) in
              let suggestion :=
                {| Suggestion.slot_id := ScheduleSlot.id slot;
                   Suggestion.coach_id := ScheduleSlot.coach_id slot;
                   Suggestion.coach_name :=
                     match coach with
                     | Some c => User.first_name c ++ " " ++ User.last_name c
                     | None => "Unknown Coach"
                     end;
                   Suggestion.day_of_week := ScheduleSlot.day_of_week slot;
                   Suggestion.hour := ScheduleSlot.start_hour slot;
                   Suggestion.date_suggestion := suggestion_date sd slot;
                   Suggestion.confidence_score := (sr_confidence solver_result * 100)%Q;
                   Suggestion.capacity_available := ScheduleSlot.capacity slot;
                   Suggestion.optimization_score :=
                     if sr_objective_value solver_result =? 0 then 0
                     else objective_value response |} in
              ret (list_append suggestions suggestion)
            else ret suggestions
        end) ;;
    ret (firstn max_suggestions (sort_suggestions suggestions)).

(** Removal of duplicates that keeps the first occurrence. *)
Fixpoint unique_reasons (seen : list SuggestionReason) (rs : list SuggestionReason)
    : list SuggestionReason :=
  match rs with
  | [] => []
  | r :: rest =>
      if existsb (SuggestionReason_eqb r) seen then unique_reasons seen rest
      else r :: unique_reasons (r :: seen) rest
  end.

Definition _generate_reasons (suggestions : list Suggestion.t) (sd : SchedulingData)
    (client_id : Z) : M (list SuggestionReason) :=
  match suggestions with
  | [] => ret [ONLY_OPTION]
  | _ =>
      reasons <-
        for_fold suggestions ([] : list SuggestionReason) (fun reasons suggestion =>
          let hour := Suggestion.hour suggestion in
          reasons' <-
            match client_preference sd with
            | Some pref =>
                match ClientPreference.preferred_start_hour pref with
                | Some pref_start =>
                    let pref_end := ClientPreference.preferred_end_hour pref in
                    perfect <- lift (chained_le pref_start hour pref_end) ;;
                    if perfect then ret (list_append reasons PERFECT_PREFERENCE_MATCH)
                    else
                      close <- lift (adjacent_hour hour pref_start pref_end) ;;
                      if close then ret (list_append reasons GOOD_PREFERENCE_MATCH)
                      else ret reasons
                | None => ret reasons
                end
            | None => ret reasons
            end ;;
          ret (list_append (list_append reasons' COACH_AVAILABILITY) CAPACITY_AVAILABLE)) ;;
      ret (unique_reasons [] reasons)
  end.

Definition _count_current_week_bookings (sd : SchedulingData) : Z :=
  let existing_bookings := existing_bookings sd in
  let start_date := fst (time_window sd) in
  let week_start := start_date - delta (weekday start_date) 0 in
  let week_end := week_start + delta 7 0 in
  count_between week_start week_end existing_bookings.

Definition _count_next_week_bookings (client_id : Z) (sd : SchedulingData) : Z :=
  let start_date := fst (time_window sd) in
  let current_week_start := start_date - delta (weekday start_date) 0 in
  let next_week_start := current_week_start + delta 7 0 in
  let next_week_end := next_week_start + delta 7 0 in
  count_between next_week_start next_week_end (existing_bookings sd).

Definition _generate_week_status_message (client_id : Z) (sd : SchedulingData) : string :=
  let weekly_limit := getattr_sessions_per_week (client_plan sd) 3 in
  let current_week_bookings := _count_current_week_bookings sd in
  let current_week_remaining := weekly_limit - current_week_bookings in
  let next_week_bookings := _count_next_week_bookings client_id sd in
  let next_week_remaining := weekly_limit - next_week_bookings in
  let this_week :=
    if current_week_remaining >? 0
    then "📅 This Week: You have " ++ str current_week_remaining
         ++ " session(s) left to finish your weekly goal."
    else "📅 This Week: Complete! You've booked all " ++ str weekly_limit ++ "/"
         ++ str weekly_limit ++ " sessions for this week." in
  let next_week :=
    if next_week_bookings =? 0
    then "📅 Next Week: Available - you can book up to " ++ str weekly_limit
         ++ " sessions."
    else if next_week_remaining >? 0
    then "📅 Next Week: You have " ++ str next_week_bookings ++ "/" ++ str weekly_limit
         ++ " sessions booked, " ++ str next_week_remaining ++ " slot(s) remaining."
    else "📅 Next Week: Full - you already booked all " ++ str weekly_limit ++ "/"
         ++ str weekly_limit ++ " sessions." in
  join " " [this_week; next_week].

(** The source passes a dictionary with the keys [client_plan],
    [existing_bookings] and [time_window] only; the other fields are never
    read by [_generate_week_status_message]. *)
Definition _create_quota_exceeded_result (client_id : Z) (weekly_limit current_bookings : Z)
    : SchedulingResult :=
  let error_msg :=
    match get_client_plan db client_id with
    | None =>
        "❌ Weekly session limit reached: You've already booked "
        ++ str current_bookings ++ "/" ++ str weekly_limit ++ " sessions this week."
    | Some client_plan =>
        let today := datetime_now in
        let start_date := today - delta 14 0 in
        let bookings := _get_client_recent_bookings client_id start_date in
        let temp_scheduling_data :=
          {| sd_client_id := client_id;
             client_plan := client_plan;
             client_preference := None;
             available_slots := [];
             existing_bookings := bookings;
             coach_workload := [];
             time_window := (combine_min (date_of today), combine_min (date_of today));
             planning_horizon := 0 |} in
        let week_status_msg :=
          _generate_week_status_message client_id temp_scheduling_data in
        "❌ Cannot book more sessions this week. " ++ week_status_msg
    end in
  {| client_id := client_id;
     suggested_slots := [];
     total_suggestions := 0;
     solver_status := "WEEKLY_QUOTA_EXCEEDED";
     result_solve_time_ms := solve_time_ms clock;
     confidence_score := 0%Q;
     constraints_satisfied := [error_msg];
     reasons := [ONLY_OPTION] |}.

Definition _create_no_availability_result (client_id : Z) : SchedulingResult :=
  {| client_id := client_id;
     suggested_slots := [];
     total_suggestions := 0;
     solver_status := "NO_AVAILABILITY";
     result_solve_time_ms := solve_time_ms clock;
     confidence_score := 0%Q;
     constraints_satisfied := ["No available slots found"];
     reasons := [ONLY_OPTION] |}.

Definition _create_error_result (client_id : Z) (error_msg : string) (solve_time : Z)
    : SchedulingResult :=
  {| client_id := client_id;
     suggested_slots := [];
     total_suggestions := 0;
     solver_status := "ERROR: " ++ error_msg;
     result_solve_time_ms := solve_time;
     confidence_score := 0%Q;
     constraints_satisfied := ["Error: " ++ error_msg];
     reasons := [ONLY_OPTION] |}.

(** An optional integer inside an f-string. *)
Definition str_opt (x : option Z) : string :=
  match x with
  | Some n => str n
  | None => "None"
  end.

Definition newline : string := String (ascii_of_nat 10) EmptyString.

(** [min(bookings, key=lambda b: b.date)]: the first booking of least date. *)
Definition min_by_date (bs : list Booking.t) : option Booking.t :=
  match bs with
  | [] => None
  | b :: rest =>
      Some (fold_left (fun best x =>
                         if Booking.date x <? Booking.date best then x else best)
                      rest b)
  end.

Definition _analyze_constraint_failures (sd : SchedulingData) (requested found : Z)
    : M string :=
  let existing_bookings_count := len (existing_bookings sd) in
  let reasons0 :=
    if existing_bookings_count >? 0
    then ["Recovery constraints from " ++ str existing_bookings_count
          ++ " existing booking(s)"]
    else [] in
  reasons <-
    match client_preference sd with
    | Some pref =>
        match ClientPreference.preferred_start_hour pref with
        | Some pref_start =>
            let pref_end := ClientPreference.preferred_end_hour pref in
            let is_flexible := ClientPreference.is_flexible pref in
            matching_slots <-
              for_fold (available_slots sd) 0 (fun matching_slots slot =>
                let slot_hour := ScheduleSlot.start_hour slot in
                if is_flexible then
                  if pref_start - 1 <=? slot_hour then
                    upper <- lift (add_opt_int pref_end 1) ;;
                    if slot_hour <=? upper then ret (matching_slots + 1)
                    else ret matching_slots
                  else ret matching_slots
                else
                  inside <- lift (chained_le pref_start slot_hour pref_end) ;;
                  if inside then ret (matching_slots + 1) else ret matching_slots) ;;
            if matching_slots <? requested then
              let flexibility_text := if is_flexible then "flexible" else "strict" in
              ret (list_append reasons0
                     ("Preference constraints (" ++ flexibility_text ++ " hours "
                      ++ str pref_start ++ "-" ++ str_opt pref_end ++ "): only "
                      ++ str matching_slots ++ " matching slots"))
            else ret reasons0
        | None => ret reasons0
        end
    | None => ret reasons0
    end ;;
  match reasons with
  | [] => ret "Multiple constraints are limiting available combinations."
  | _ => ret ("Reasons: " ++ join "; " reasons ++ ".")
  end.

Definition _create_detailed_failure_analysis (client_id : Z) (sd : SchedulingData)
    (num_sessions : Z) : M SchedulingResult :=
  let available_slots_count := len (available_slots sd) in
  let existing_bookings_count := len (existing_bookings sd) in
  (* 1. no slots at all *)
  let error_messages0 :=
    if available_slots_count =? 0
    then ["❌ No available time slots found for your assigned coach."]
    else [] in
  (* 2. weekly quota, 3. recovery *)
  let weekly_limit := getattr_sessions_per_week (client_plan sd) 3 in
  let current_week_bookings := _count_current_week_bookings sd in
  let error_messages1 :=
    if current_week_bookings >=? weekly_limit then
      list_append error_messages0
        ("❌ Weekly quota reached. " ++ _generate_week_status_message client_id sd)
    else if current_week_bookings + num_sessions >? weekly_limit then
      list_append error_messages0
        ("❌ Weekly quota would be exceeded. "
         ++ _generate_week_status_message client_id sd)
    else if existing_bookings_count >? 0 then
      match min_by_date (existing_bookings sd) with
      | Some next_booking =>
          let recovery_date := Booking.date next_booking + delta 0 25 in
          list_append error_messages0
            ("❌ Recovery constraint: You have " ++ str existing_bookings_count
             ++ " recent booking(s). Next available time: "
             ++ strftime_minutes recovery_date
             ++ " (24-hour recovery required).")
      | None => error_messages0
      end
    else error_messages0 in
  (* 4. preferences against the coach's hours *)
  error_messages2 <-
    match client_preference sd with
    | Some pref =>
        match ClientPreference.preferred_start_hour pref with
        | Some pref_start =>
            let pref_end := ClientPreference.preferred_end_hour pref in
            let is_flexible := ClientPreference.is_flexible pref in
            let coach_hours := map ScheduleSlot.start_hour (available_slots sd) in
            match coach_hours with
            | [] => ret error_messages1
            | h0 :: hs =>
                let coach_min_hour := fold_left Z.min hs h0 in
                let coach_max_hour := fold_left Z.max hs h0 in
                if is_flexible then ret error_messages1
                else
                  match pref_end with
                  | None =>
                      raise (TypeError
                        "'<' not supported between instances of 'NoneType' and 'int'")
                  | Some pref_end =>
                      if (pref_end <? coach_min_hour) || (pref_start >? coach_max_hour)
                      then
                        ret (list_append error_messages1
                               ("❌ Preference mismatch: Your preferred hours ("
                                ++ str pref_start ++ "-" ++ str pref_end
                                ++ ") don't overlap with your coach's working hours ("
                                ++ str coach_min_hour ++ "-" ++ str coach_max_hour
                                ++ "). Consider making your preferences flexible."))
                      else
                        let overlap_start := Z.max pref_start coach_min_hour in
                        let overlap_end := Z.min pref_end coach_max_hour in
                        if overlap_end - overlap_start <? num_sessions
                        then
                          ret (list_append error_messages1
                                 ("❌ Insufficient overlap: Your strict preferences ("
                                  ++ str pref_start ++ "-" ++ str pref_end
                                  ++ ") have limited overlap with coach hours ("
                                  ++ str coach_min_hour ++ "-" ++ str coach_max_hour
                                  ++ "). Consider flexible preferences."))
                        else ret error_messages1
                  end
            end
        | None => ret error_messages1
        end
    | None => ret error_messages1
    end ;;
  let error_messages :=
    match error_messages2 with
    | [] => ["❌ Cannot find " ++ str num_sessions
             ++ " sessions that satisfy all scheduling constraints."]
    | _ => error_messages2
    end in
  let main_error := join newline error_messages in
  s <- get_self ;;
  ret {| client_id := client_id;
         suggested_slots := [];
         total_suggestions := 0;
         solver_status := "NO_SOLUTION_DETAILED";
         result_solve_time_ms := solve_time_ms clock;
         confidence_score := 0%Q;
         constraints_satisfied := main_error :: constraint_explanations s;
         reasons := [ONLY_OPTION] |}.

(** [range(hi, 0, -1)] *)
Definition range_down (hi : Z) : list Z :=
  map Z.of_nat (rev (seq 1 (Z.to_nat hi))).

(** One turn of the loop of [_try_partial_solutions]: [Some] is a [return]
    from inside the loop, [None] falls through to the next count. *)
Definition partial_attempt (client_id : Z) (sd : SchedulingData)
    (original_sessions num_sessions : Z) : M (option SchedulingResult) :=
  set_explanations [] ;;
  _create_model sd num_sessions ;;
  _add_capacity_constraints sd ;;
  _add_recovery_constraints sd client_id ;;
  _add_coach_availability_constraints sd ;;
  _add_current_time_constraints sd ;;
  _add_preference_constraints sd client_id ;;
  _define_objective sd client_id ;;
  solver_result <- _solve_model ;;
  if String.eqb (sr_status solver_result) "OPTIMAL"
     || String.eqb (sr_status solver_result) "FEASIBLE"
  then
    suggestions <- _extract_suggestions sd solver_result ;;
    analysis <- _analyze_constraint_failures sd original_sessions num_sessions ;;
    let warning_msg :=
      "⚠️ Could only find " ++ str num_sessions ++ " session(s) instead of "
      ++ str original_sessions ++ ". " ++ analysis in
    s <- get_self ;;
    reasons <- _generate_reasons suggestions sd client_id ;;
    ret (Some {| client_id := client_id;
                 suggested_slots := suggestions;
                 total_suggestions := len suggestions;
                 solver_status := "PARTIAL_SOLUTION_" ++ str num_sessions;
                 result_solve_time_ms := solve_time_ms clock;
                 confidence_score :=
                   (sr_confidence solver_result
                    * (inject_Z num_sessions / inject_Z original_sessions))%Q;
                 constraints_satisfied := warning_msg :: constraint_explanations s;
                 reasons := reasons |})
  else ret None.

Fixpoint partial_loop (client_id : Z) (sd : SchedulingData) (original_sessions : Z)
    (counts : list Z) : M (option SchedulingResult) :=
  match counts with
  | [] => ret None
  | num_sessions :: rest =>
      r <- try_except (partial_attempt client_id sd original_sessions num_sessions)
                      (fun _ => ret None) ;;
      match r with
      | Some result => ret (Some result)
      | None => partial_loop client_id sd original_sessions rest
      end
  end.

Definition _try_partial_solutions (client_id : Z) (sd : SchedulingData)
    (original_sessions : Z) : M SchedulingResult :=
  r <- partial_loop client_id sd original_sessions (range_down (original_sessions - 1)) ;;
  match r with
  | Some result => ret result
  | None => _create_detailed_failure_analysis client_id sd original_sessions
  end.

(** The debug listing of day names indexes a list of seven names with every
    [day_of_week]. *)
Definition available_day_names (sd : SchedulingData) : M unit :=
  if forallb (fun slot => (-7 <=? ScheduleSlot.day_of_week slot)
                          && (ScheduleSlot.day_of_week slot <=? 6))
             (available_slots sd)
  then ret tt
  else raise (IndexError "list index out of range").

Definition suggest_optimal_bookings (client_id num_sessions : Z)
    (preferred_date : option datetime) (days_flexibility : Z)
    (excluded_slot_ids : option (list Z)) : M SchedulingResult :=
  try_except
    ((* Step 1 *)
     sd <- _gather_scheduling_data client_id preferred_date days_flexibility ;;
     match available_slots sd with
     | [] => ret (_create_no_availability_result client_id)
     | _ =>
         let weekly_limit := getattr_sessions_per_week (client_plan sd) 3 in
         let current_week_bookings := _count_current_week_bookings sd in
         let remaining_quota := weekly_limit - current_week_bookings in
         if remaining_quota <=? 0 then
           ret (_create_quota_exceeded_result client_id weekly_limit current_week_bookings)
         else
           let week_status_msg := _generate_week_status_message client_id sd in
           set_explanations [week_status_msg] ;;
           let num_sessions :=
             if num_sessions >? remaining_quota then remaining_quota else num_sessions in
           available_day_names sd ;;
           (* Step 2 *)
           _create_model sd num_sessions ;;
           (* Step 3 *)
           _add_capacity_constraints sd ;;
           _add_recovery_constraints sd client_id ;;
           _add_coach_availability_constraints sd ;;
           _add_current_time_constraints sd ;;
           _add_weekly_quota_constraints sd client_id ;;
           _add_excluded_slots_constraints sd
             (match excluded_slot_ids with Some l => l | None => [] end) ;;
           _add_preference_constraints sd client_id ;;
           (* Step 4 *)
           _define_objective sd client_id ;;
           (* Step 5 *)
           solver_result <- _solve_model ;;
           (* Step 6 *)
           if String.eqb (sr_status solver_result) "NO_SOLUTION" then
             _try_partial_solutions client_id sd num_sessions
           else
             suggestions <- _extract_suggestions sd solver_result ;;
             s <- get_self ;;
             reasons <- _generate_reasons suggestions sd client_id ;;
             ret {| client_id := client_id;
                    suggested_slots := suggestions;
                    total_suggestions := len suggestions;
                    solver_status := sr_status solver_result;
                    result_solve_time_ms := solve_time_ms clock;
                    confidence_score := sr_confidence solver_result;
                    constraints_satisfied := constraint_explanations s;
                    reasons := reasons |}
     end)
    (fun e => ret (_create_error_result client_id (exn_message e) (solve_time_ms clock))).

End CPSATScheduler.

(** ** Suggestion sessions ([app/models/suggestion_session.py]) *)

Module SuggestionSession.

(** [suggestions_json] and [all_suggested_slots_json] hold JSON text in the
    source; here they hold the decoded value. [all_suggested_slots_json =
    None] stands for a column that is NULL, empty or not decodable, the
    cases in which the source falls back to the empty list. [preferred_date]
    is the date whose [%Y-%m-%d] text the source stores. *)
Record t : Type := mk
  { client_id : Z;
    session_token : string;
    preferred_date : option date;
    days_flexibility : Z;
    num_sessions : Z;
    suggestions_json : list Suggestion.t;
    all_suggested_slots_json : option (list Z);
    is_active : bool;
    expires_at : datetime }.

Definition get_all_suggested_slots (self : t) : list Z :=
  match all_suggested_slots_json self with
  | Some slots => slots
  | None => []
  end.

Definition add_to_suggested_history (self : t) (new_slot_ids : list Z) : t :=
  let existing_slots :=
    match all_suggested_slots_json self with
    | Some slots => slots
    | None => []
    end in
  let existing_slots' :=
    fold_left (fun existing_slots slot_id =>
                 if contains slot_id existing_slots then existing_slots
                 else list_append existing_slots slot_id)
              new_slot_ids existing_slots in
  {| client_id := client_id self;
     session_token := session_token self;
     preferred_date := preferred_date self;
     days_flexibility := days_flexibility self;
     num_sessions := num_sessions self;
     suggestions_json := suggestions_json self;
     all_suggested_slots_json := Some existing_slots';
     is_active := is_active self;
     expires_at := expires_at self |}.

(** [self.suggestions_json = json.dumps(suggestions)] *)
Definition set_suggestions (self : t) (suggestions : list Suggestion.t) : t :=
  {| client_id := client_id self;
     session_token := session_token self;
     preferred_date := preferred_date self;
     days_flexibility := days_flexibility self;
     num_sessions := num_sessions self;
     suggestions_json := suggestions;
     all_suggested_slots_json := all_suggested_slots_json self;
     is_active := is_active self;
     expires_at := expires_at self |}.

End SuggestionSession.

(** ** Session routes ([app/routes/schedule.py]) *)

Inductive http (A : Type) : Type :=
| HttpOk (body : A)
| HttpError (status_code : Z) (detail : string).
Arguments HttpOk {A} body.
Arguments HttpError {A} status_code detail.

Record SuggestionResponse : Type :=
  { resp_message : string;
    resp_algorithm : string;
    resp_suggestions : list Suggestion.t;
    resp_total_suggestions : Z;
    resp_client_id : Z;
    resp_solver_status : string;
    resp_solve_time_ms : Z;
    resp_confidence_score : Q;
    resp_session_token : string;
    resp_expires_at : datetime }.

Record IndividualResponse : Type :=
  { ind_message : string;
    ind_suggestion : Suggestion.t;
    ind_replaced_slot_id : Z;
    ind_new_slot_id : Z }.

(** The rows of the [suggestion_sessions] table. *)
Definition SessionTable : Type := list SuggestionSession.t.

(** [db.query(SuggestionSession).filter(session_token == token,
    is_active == True).first()] *)
Definition find_session (token : string) (table : SessionTable)
    : option SuggestionSession.t :=
  find (fun s => String.eqb (SuggestionSession.session_token s) token
                 && SuggestionSession.is_active s)
       table.

(** [db.commit()] after the session object found by [find_session] changed. *)
Fixpoint commit_session (token : string) (updated : SuggestionSession.t)
    (table : SessionTable) : SessionTable :=
  match table with
  | [] => []
  | s :: rest =>
      if String.eqb (SuggestionSession.session_token s) token
         && SuggestionSession.is_active s
      then updated :: rest
      else s :: commit_session token updated rest
  end.

(** [[sugg.get('slot_id') for sugg in suggestions if sugg.get('slot_id')]] *)
Definition truthy_slot_ids (suggestions : list Suggestion.t) : list Z :=
  filter (fun i => negb (i =? 0)) (map Suggestion.slot_id suggestions).

Section Routes.

Variable db : Database.
Variable clock : Clock.
Variable cp_solve : CpModel -> SolverResponse.

(** A route builds [CPSATScheduler(db)] and calls it once. *)
Definition run_scheduler (client_id num_sessions : Z) (preferred_date : option datetime)
    (days_flexibility : Z) (excluded_slot_ids : option (list Z)) : outcome SchedulingResult :=
  fst (suggest_optimal_bookings db clock cp_solve client_id num_sessions preferred_date
         days_flexibility excluded_slot_ids new_scheduler).

Definition algorithm_name : string := "CP-SAT (Constraint Programming Satisfiability)".

(** [POST /suggestions/booking]; [session_token] is the fresh [uuid4]. The
    bounds are the ones FastAPI enforces for the query parameters. *)
Definition suggest_optimal_booking (session_token : string) (client_id : Z)
    (preferred_date : option date) (days_flexibility num_sessions : Z)
    (table : SessionTable) : http SuggestionResponse * SessionTable :=
  if negb ((1 <=? days_flexibility) && (days_flexibility <=? 14)
           && (1 <=? num_sessions) && (num_sessions <=? 5))
  then (HttpError 422 "Unprocessable Entity", table)
  else
    let preferred_datetime := option_map combine_min preferred_date in
    match run_scheduler client_id num_sessions preferred_datetime days_flexibility None with
    | Raise e => (HttpError 500 ("AI scheduling failed: " ++ exn_message e), table)
    | Return scheduling_result =>
        let expires_at := now clock + delta 0 1 in
        let suggestion_session :=
          {| SuggestionSession.client_id := client_id;
             SuggestionSession.session_token := session_token;
             SuggestionSession.preferred_date := preferred_date;
             SuggestionSession.days_flexibility := days_flexibility;
             SuggestionSession.num_sessions := num_sessions;
             SuggestionSession.suggestions_json := suggested_slots scheduling_result;
             SuggestionSession.all_suggested_slots_json := None;
             SuggestionSession.is_active := true;
             SuggestionSession.expires_at := expires_at |} in
        let message :=
          match constraints_satisfied scheduling_result with
          | constraint_msg :: _ => constraint_msg
          | [] => if total_suggestions scheduling_result =? 0
                  then "No available suggestions found" else ""
          end in
        (HttpOk {| resp_message := message;
                   resp_algorithm := algorithm_name;
                   resp_suggestions := suggested_slots scheduling_result;
                   resp_total_suggestions := total_suggestions scheduling_result;
                   resp_client_id := client_id;
                   resp_solver_status := solver_status scheduling_result;
                   resp_solve_time_ms := result_solve_time_ms scheduling_result;
                   resp_confidence_score := confidence_score scheduling_result;
                   resp_session_token := session_token;
                   resp_expires_at := expires_at |},
         list_append table suggestion_session)
    end.

(** The three checks every session route starts with. Each failure is an
    [HTTPException] raised inside the route's [try], which the route's
    [except Exception] turns into a 500. *)
Definition checked_session (failed : string) (session_token : string)
    (current_user_id : Z) (table : SessionTable) : http SuggestionSession.t :=
  match find_session session_token table with
  | None => HttpError 500 (failed ++ "404: Session not found or expired")
  | Some session =>
      if negb (SuggestionSession.client_id session =? current_user_id)
      then HttpError 500 (failed ++ "403: Access denied")
      else if utcnow clock >? SuggestionSession.expires_at session
      then HttpError 500 (failed ++ "410: Session has expired")
      else HttpOk session
  end.

(** [GET /suggestions/re-suggest-session] *)
Definition re_suggest_session_based (session_token : string) (current_user_id : Z)
    (table : SessionTable) : http SuggestionResponse * SessionTable :=
  let failed := "Session re-suggestion failed: " in
  match checked_session failed session_token current_user_id table with
  | HttpError code detail => (HttpError code detail, table)
  | HttpOk session =>
      let preferred_datetime :=
        option_map combine_min (SuggestionSession.preferred_date session) in
      (* First, add current suggestions to history *)
      let current_slot_ids :=
        truthy_slot_ids (SuggestionSession.suggestions_json session) in
      let session := SuggestionSession.add_to_suggested_history session current_slot_ids in
      (* Get all historically suggested slots to exclude them ALL *)
      let excluded_slot_ids := SuggestionSession.get_all_suggested_slots session in
      match run_scheduler (SuggestionSession.client_id session)
              (SuggestionSession.num_sessions session) preferred_datetime
              (SuggestionSession.days_flexibility session) (Some excluded_slot_ids) with
      | Raise e => (HttpError 500 (failed ++ exn_message e), table)
      | Return scheduling_result =>
          (* Add the NEW suggestions to history for next time *)
          let session :=
            match suggested_slots scheduling_result with
            | [] => session
            | _ => SuggestionSession.add_to_suggested_history session
                     (truthy_slot_ids (suggested_slots scheduling_result))
            end in
          let session :=
            SuggestionSession.set_suggestions session (suggested_slots scheduling_result) in
          (HttpOk {| resp_message := "Session-based re-suggestion completed";
                     resp_algorithm := algorithm_name;
                     resp_suggestions := suggested_slots scheduling_result;
                     resp_total_suggestions := total_suggestions scheduling_result;
                     resp_client_id := SuggestionSession.client_id session;
                     resp_solver_status := solver_status scheduling_result;
                     resp_solve_time_ms := result_solve_time_ms scheduling_result;
                     resp_confidence_score := confidence_score scheduling_result;
                     resp_session_token := session_token;
                     resp_expires_at := SuggestionSession.expires_at session |},
           commit_session session_token session table)
      end
  end.

(** [POST /suggestions/re-suggest-individual] *)
Definition re_suggest_individual_slot (session_token : string) (slot_id : Z)
    (current_user_id : Z) (table : SessionTable) : http IndividualResponse * SessionTable :=
  let failed := "Individual re-suggestion failed: " in
  match checked_session failed session_token current_user_id table with
  | HttpError code detail => (HttpError code detail, table)
  | HttpOk session =>
      let current_suggestions := SuggestionSession.suggestions_json session in
      match find (fun sugg => Suggestion.slot_id sugg =? slot_id) current_suggestions with
      | None =>
          (HttpError 500 (failed ++ "404: Slot ID " ++ str slot_id
                          ++ " not found in current suggestions"), table)
      | Some target_suggestion =>
          let excluded_slot_ids := SuggestionSession.get_all_suggested_slots session in
          let excluded_slot_ids :=
            if contains slot_id excluded_slot_ids then excluded_slot_ids
            else list_append excluded_slot_ids slot_id in
          let preferred_datetime :=
            option_map combine_min (SuggestionSession.preferred_date session) in
          match run_scheduler (SuggestionSession.client_id session) 1 preferred_datetime
                  (SuggestionSession.days_flexibility session)
                  (Some excluded_slot_ids) with
          | Raise e => (HttpError 500 (failed ++ exn_message e), table)
          | Return scheduling_result =>
              match suggested_slots scheduling_result with
              | [] => (HttpError 500 (failed ++ "404: No alternative slots available"),
                       table)
              | new_suggestion :: _ =>
                  let new_slot_id := Suggestion.slot_id new_suggestion in
                  let updated_suggestions :=
                    map (fun sugg => if Suggestion.slot_id sugg =? slot_id
                                     then new_suggestion else sugg)
                        current_suggestions in
                  let session :=
                    SuggestionSession.add_to_suggested_history session [new_slot_id] in
                  let session :=
                    SuggestionSession.set_suggestions session updated_suggestions in
                  (HttpOk {| ind_message := "Individual slot re-suggestion completed";
                             ind_suggestion := new_suggestion;
                             ind_replaced_slot_id := slot_id;
                             ind_new_slot_id := new_slot_id |},
                   commit_session session_token session table)
              end
          end
      end
  end.

End Routes.

(** ** Tables ([app/models]) and queries ([app/crud/schedule.py]) *)

Inductive UserRole : Type := CLIENT | COACH | ACCOUNTANT.

Definition UserRole_eqb (a b : UserRole) : bool :=
  match a, b with
  | CLIENT, CLIENT | COACH, COACH | ACCOUNTANT, ACCOUNTANT => true
  | _, _ => false
  end.

(** A row of [schedule_slots]: the columns the scheduler reads, and
    [is_active]. *)
Module SlotRow.
Record t : Type := mk
  { slot : ScheduleSlot.t;
    is_active : bool }.
End SlotRow.

(** A row of [bookings]: the columns the scheduler reads, [slot_id]
    (nullable) and [ai_generated]. *)
Module BookingRow.
Record t : Type := mk
  { booking : Booking.t;
    slot_id : option Z;
    ai_generated : bool }.
End BookingRow.

(** A row of [users]: the names the extractor prints, the role and the shift
    hours (NULL for users who are not coaches). *)
Module UserRow.
Record t : Type := mk
  { id : Z;
    role : UserRole;
    names : User.t;
    shift_start_hour : option Z;
    shift_end_hour : option Z }.
End UserRow.

(** A row of [client_preferences]. *)
Module PreferenceRow.
Record t : Type := mk
  { client_id : Z;
    preference : ClientPreference.t }.
End PreferenceRow.

Record Tables : Type :=
  { schedule_slots : list SlotRow.t;
    booking_rows : list BookingRow.t;
    client_plans : list ClientPlan.t;
    client_preferences : list PreferenceRow.t;
    users : list UserRow.t }.

(** [list.sort(key=...)] and [ORDER BY]: an insertion sort that keeps the
    order of the elements it does not tell apart. The database leaves the
    order of rows with equal keys open; here they stay in table order. *)
Fixpoint insert_by {A : Type} (le : A -> A -> bool) (x : A) (sorted : list A) : list A :=
  match sorted with
  | [] => [x]
  | y :: rest => if le x y then x :: y :: rest else y :: insert_by le x rest
  end.

Definition sort_by {A : Type} (le : A -> A -> bool) (l : list A) : list A :=
  fold_right (insert_by le) [] l.

(** [column.isnot(None)] *)
Definition isnot_None {A : Type} (value : option A) : bool :=
  match value with
  | Some _ => true
  | None => false
  end.

(** [range(start, stop)] *)
Definition range (start stop : Z) : list Z :=
  map (fun n => start + Z.of_nat n) (seq 0 (Z.to_nat (stop - start))).

Definition with_schedule_slots (db : Tables) (rows : list SlotRow.t) : Tables :=
  {| schedule_slots := rows;
     booking_rows := booking_rows db;
     client_plans := client_plans db;
     client_preferences := client_preferences db;
     users := users db |}.

Module schedule_crud.

(** [db.query(ClientPlan).filter(ClientPlan.client_id == client_id).first()] *)
Definition get_client_plan (db : Tables) (client_id : Z) : option ClientPlan.t :=
  find (fun p => ClientPlan.client_id p =? client_id) (client_plans db).

Definition get_client_preference (db : Tables) (client_id : Z)
    : option ClientPreference.t :=
  option_map PreferenceRow.preference
    (find (fun r => PreferenceRow.client_id r =? client_id) (client_preferences db)).

(** [order_by(ScheduleSlot.day_of_week, ScheduleSlot.start_hour)] *)
Definition by_day_then_hour (a b : ScheduleSlot.t) : bool :=
  (ScheduleSlot.day_of_week a <? ScheduleSlot.day_of_week b)
  || ((ScheduleSlot.day_of_week a =? ScheduleSlot.day_of_week b)
      && (ScheduleSlot.start_hour a <=? ScheduleSlot.start_hour b)).

Definition get_schedule_slots (db : Tables) (day_of_week coach_id : option Z)
    (active_only : bool) : list ScheduleSlot.t :=
  let query := schedule_slots db in
  let query := if active_only then filter SlotRow.is_active query else query in
  let query :=
    match day_of_week with
    | Some d => filter (fun r => ScheduleSlot.day_of_week (SlotRow.slot r) =? d) query
    | None => query
    end in
  let query :=
    match coach_id with
    | Some c => filter (fun r => ScheduleSlot.coach_id (SlotRow.slot r) =? c) query
    | None => query
    end in
  sort_by by_day_then_hour (map SlotRow.slot query).

Definition get_slot_by_id (db : Tables) (slot_id : Z) : option ScheduleSlot.t :=
  option_map SlotRow.slot
    (find (fun r => ScheduleSlot.id (SlotRow.slot r) =? slot_id) (schedule_slots db)).

(** The count that [get_available_slots_for_client] and [get_slot_occupancy]
    both query: the bookings of the slot that start within the hour of
    [slot_datetime] and are not cancelled. *)
Definition booking_count (db : Tables) (slot_id : Z) (slot_datetime : datetime) : Z :=
  len (filter (fun r =>
                 match BookingRow.slot_id r with
                 | Some i => i =? slot_id
                 | None => false
                 end
                 && (Booking.date (BookingRow.booking r) >=? slot_datetime)
                 && (Booking.date (BookingRow.booking r) <? slot_datetime + delta 0 1)
                 && negb (String.eqb (Booking.status (BookingRow.booking r)) "cancelled"))
              (booking_rows db)).

(** The sort key of the flexible branch. *)
Definition preference_score (preferred_start preferred_end : Z) (slot : ScheduleSlot.t) : Z :=
  let h := ScheduleSlot.start_hour slot in
  if (h >=? preferred_start) && (h <=? preferred_end) then 0
  else if (h =? preferred_start - 1) || (h =? preferred_end + 1) then 1
  else 2.

Definition get_available_slots_for_client (db : Tables) (client_id : Z)
    (week_start : datetime) : list ScheduleSlot.t :=
  match get_client_plan db client_id with
  | None => []
  | Some client_plan =>
      let coach_id := ClientPlan.assigned_coach_id client_plan in
      let client_preference := get_client_preference db client_id in
      let slots := get_schedule_slots db None (Some coach_id) true in
      let week_end := week_start + delta 7 0 in
      (* the loop keeps the slots of the week that are not at capacity *)
      let available_slots :=
        filter (fun slot =>
                  let slot_datetime :=
                    week_start + delta (ScheduleSlot.day_of_week slot)
                                       (ScheduleSlot.start_hour slot) in
                  if (slot_datetime <? week_start) || (slot_datetime >=? week_end)
                  then false
                  else booking_count db (ScheduleSlot.id slot) slot_datetime
                       <? ScheduleSlot.capacity slot)
               slots in
      match client_preference with
      | Some pref =>
          match ClientPreference.preferred_start_hour pref,
                ClientPreference.preferred_end_hour pref with
          | Some preferred_start, Some preferred_end =>
              if ClientPreference.is_flexible pref then
                let filtered_slots :=
                  filter (fun slot =>
                            (ScheduleSlot.start_hour slot >=? preferred_start - 1)
                            && (ScheduleSlot.start_hour slot <=? preferred_end + 1))
                         available_slots in
                sort_by (fun a b => preference_score preferred_start preferred_end a
                                    <=? preference_score preferred_start preferred_end b)
                        filtered_slots
              else
                filter (fun slot =>
                          (ScheduleSlot.start_hour slot >=? preferred_start)
                          && (ScheduleSlot.start_hour slot <=? preferred_end))
                       available_slots
          | _, _ => available_slots
          end
      | None => available_slots
      end
  end.

Definition get_slot_occupancy (db : Tables) (slot_id : Z) (week_start : datetime) : Z :=
  let week_end := week_start + delta 7 0 in
  match get_slot_by_id db slot_id with
  | None => 0
  | Some slot =>
      let slot_datetime :=
        week_start + delta (ScheduleSlot.day_of_week slot) (ScheduleSlot.start_hour slot) in
      if (slot_datetime <? week_start) || (slot_datetime >=? week_end) then 0
      else booking_count db slot_id slot_datetime
  end.

Section Seeding.

(** The primary key the database gives a row added to [schedule_slots]
    that holds [rows]. *)
Variable new_slot_id : list SlotRow.t -> Z.

(** The slot is returned with the table it was added to; [is_active] takes
    its default. *)
Definition create_schedule_slot (rows : list SlotRow.t) (day_of_week start_hour coach_id : Z)
    : ScheduleSlot.t * list SlotRow.t :=
  let slot := {| ScheduleSlot.id := new_slot_id rows;
                 ScheduleSlot.day_of_week := day_of_week;
                 ScheduleSlot.start_hour := start_hour;
                 ScheduleSlot.coach_id := coach_id;
                 ScheduleSlot.capacity := 10 |} in
  (slot, list_append rows (SlotRow.mk slot true)).

(** The filter of the [existing] query. *)
Definition slot_at (day hour coach_id : Z) (r : SlotRow.t) : bool :=
  (ScheduleSlot.day_of_week (SlotRow.slot r) =? day)
  && (ScheduleSlot.start_hour (SlotRow.slot r) =? hour)
  && (ScheduleSlot.coach_id (SlotRow.slot r) =? coach_id).

(** The body of the innermost loop of [seed_weekly_schedule]. *)
Definition seed_hour (coach_id day : Z) (rows : list SlotRow.t) (hour : Z)
    : list SlotRow.t :=
  if (hour >=? 12) && (hour <=? 13) then rows
  else
    match find (slot_at day hour coach_id) rows with
    | Some _ => rows
    | None => snd (create_schedule_slot rows day hour coach_id)
    end.

(** The body of the loop over the coaches. The query keeps the coaches
    with both shift hours, so the last branch is not reached. *)
Definition seed_coach (rows : list SlotRow.t) (coach : UserRow.t) : list SlotRow.t :=
  match UserRow.shift_start_hour coach, UserRow.shift_end_hour coach with
  | Some shift_start, Some shift_end =>
      fold_left (fun rows day =>
                   fold_left (seed_hour (UserRow.id coach) day)
                             (range shift_start (shift_end + 1)) rows)
                (range 0 7) rows
  | _, _ => rows
  end.

(** The count [slots_created] is only printed and is left out. *)
Definition seed_weekly_schedule (db : Tables) : bool * Tables :=
  let coaches :=
    filter (fun u => UserRole_eqb (UserRow.role u) COACH
                     && isnot_None (UserRow.shift_start_hour u)
                     && isnot_None (UserRow.shift_end_hour u))
           (users db) in
  match coaches with
  | [] => (false, db)
  | _ => (true, with_schedule_slots db (fold_left seed_coach coaches (schedule_slots db)))
  end.

End Seeding.

End schedule_crud.

(** The database the scheduler reads, over the tables. *)
Definition database_of (db : Tables) : Database :=
  {| get_client_plan := schedule_crud.get_client_plan db;
     get_client_preference := schedule_crud.get_client_preference db;
     get_available_slots_for_client := schedule_crud.get_available_slots_for_client db;
     bookings := map BookingRow.booking (booking_rows db);
     get_user := fun user_id =>
                   option_map UserRow.names
                     (find (fun u => UserRow.id u =? user_id) (users db)) |}.

(** ** Booking the selected suggestions ([POST /bookings/book-selected]) *)

(** The authenticated user. *)
Record CurrentUser : Type :=
  { user_id : Z;
    user_role : UserRole }.

(** One entry of [successful_bookings]; the id the database gives the new
    row is left out. *)
Record BookedSuggestion : Type :=
  { booked_client_id : Z;
    booked_coach_id : Z;
    booked_slot_id : Z;
    booked_datetime : datetime;
    booked_date : date;
    booked_hour : Z;
    booked_coach_name : string;
    booked_status : string;
    booked_ai_generated : bool }.

Record FailedBooking : Type :=
  { failed_slot_id : Z;
    failed_reason : string }.

Record BookingResponse : Type :=
  { booking_message : string;
    successful_bookings : list BookedSuggestion;
    failed_bookings : list FailedBooking;
    total_requested : Z;
    total_successful : Z;
    total_failed : Z;
    booking_session_token : string }.

(** [Booking.status.in_(["pending", "confirmed"])] *)
Definition pending_or_confirmed (status : string) : bool :=
  String.eqb status "pending" || String.eqb status "confirmed".

(** [f"{ids}"] for a list of integers. *)
Definition repr_list (ids : list Z) : string := "[" ++ join ", " (map str ids) ++ "]".

(** What the loop of the route carries: the bookings table as the session
    sees it (every new row is flushed at once), and the two lists of the
    response. *)
Definition BookingLoop : Type :=
  (list BookingRow.t * list BookedSuggestion * list FailedBooking)%type.

(** One turn of the loop. A suggestion of the session always has a date and
    an hour, so the branch for a missing one is not there. *)
Definition book_one (session : SuggestionSession.t) (suggestions : list Suggestion.t)
    (slot_rows : list SlotRow.t) (state : BookingLoop) (slot_id : Z) : BookingLoop :=
  let '(rows, successful_bookings, failed_bookings) := state in
  let fail reason :=
    (rows, successful_bookings,
     list_append failed_bookings {| failed_slot_id := slot_id; failed_reason := reason |}) in
  match find (fun s => Suggestion.slot_id s =? slot_id) suggestions with
  | None => fail "Suggestion not found in session"
  | Some suggestion =>
      let booking_date := combine_min (Suggestion.date_suggestion suggestion) in
      match replace_hour booking_date (Suggestion.hour suggestion) with
      | Raise e => fail ("Booking error: " ++ exn_message e)
      | Return booking_datetime =>
          match find (fun r => ScheduleSlot.id (SlotRow.slot r) =? slot_id) slot_rows with
          | None => fail "Slot no longer exists"
          | Some _ =>
              let existing_booking :=
                find (fun r =>
                        match BookingRow.slot_id r with
                        | Some i => i =? slot_id
                        | None => false
                        end
                        && (Booking.date (BookingRow.booking r) =? booking_datetime)
                        && pending_or_confirmed (Booking.status (BookingRow.booking r)))
                     rows in
              match existing_booking with
              | Some _ => fail "Slot already booked"
              | None =>
                  let day := combine_min (date_of booking_datetime) in
                  let same_day_booking :=
                    find (fun r =>
                            (Booking.client_id (BookingRow.booking r)
                             =? SuggestionSession.client_id session)
                            && (Booking.date (BookingRow.booking r) >=? day)
                            && (Booking.date (BookingRow.booking r) <? day + delta 1 0)
                            && pending_or_confirmed (Booking.status (BookingRow.booking r)))
                         rows in
                  match same_day_booking with
                  | Some _ => fail "Client already has booking on this day"
                  | None =>
                      let new_booking :=
                        {| BookingRow.booking :=
                             {| Booking.client_id := SuggestionSession.client_id session;
                                Booking.coach_id := Suggestion.coach_id suggestion;
                                Booking.date := booking_datetime;
                                Booking.status := "pending" |};
                           BookingRow.slot_id := Some slot_id;
                           BookingRow.ai_generated := true |} in
                      (list_append rows new_booking,
                       list_append successful_bookings
                         {| booked_client_id := SuggestionSession.client_id session;
                            booked_coach_id := Suggestion.coach_id suggestion;
                            booked_slot_id := slot_id;
                            booked_datetime := booking_datetime;
                            booked_date := Suggestion.date_suggestion suggestion;
                            booked_hour := Suggestion.hour suggestion;
                            booked_coach_name := Suggestion.coach_name suggestion;
                            booked_status := "pending";
                            booked_ai_generated := true |},
                       failed_bookings)
                  end
              end
          end
      end
  end.

Definition with_booking_rows (db : Tables) (rows : list BookingRow.t) : Tables :=
  {| schedule_slots := schedule_slots db;
     booking_rows := rows;
     client_plans := client_plans db;
     client_preferences := client_preferences db;
     users := users db |}.

Definition book_selected_suggestions (clock : Clock) (session_token : string)
    (selected_slot_ids : list Z) (current_user : CurrentUser) (sessions : SessionTable)
    (db : Tables) : http BookingResponse * Tables :=
  match find_session session_token sessions with
  | None => (HttpError 404 "Session not found or expired", db)
  | Some session =>
      if UserRole_eqb (user_role current_user) CLIENT
         && negb (SuggestionSession.client_id session =? user_id current_user)
      then (HttpError 403 "Access denied: Session belongs to another user", db)
      else if utcnow clock >? SuggestionSession.expires_at session
      then (HttpError 410 "Session has expired", db)
      else
        let suggestions := SuggestionSession.suggestions_json session in
        let session_slot_ids := map Suggestion.slot_id suggestions in
        let invalid_slots :=
          filter (fun sid => negb (contains sid session_slot_ids)) selected_slot_ids in
        match invalid_slots with
        | _ :: _ =>
            (HttpError 400 ("Slot IDs " ++ repr_list invalid_slots
                            ++ " not found in session suggestions"), db)
        | [] =>
            let '(rows, successful_bookings, failed_bookings) :=
              fold_left (book_one session suggestions (schedule_slots db))
                        selected_slot_ids (booking_rows db, [], []) in
            (* commit when something was booked, roll back otherwise *)
            let rows :=
              match successful_bookings with
              | [] => booking_rows db
              | _ => rows
              end in
            (HttpOk {| booking_message := "Session-based booking completed";
                       successful_bookings := successful_bookings;
                       failed_bookings := failed_bookings;
                       total_requested := len selected_slot_ids;
                       total_successful := len successful_bookings;
                       total_failed := len failed_bookings;
                       booking_session_token := session_token |},
             with_booking_rows db rows)
        end
  end.

(** ** Meaning of a model, and a reference solver

    [reference_solve] enumerates every assignment of the Boolean variables
    and returns a best one: a solver that is sound, complete and optimal. It
    stands in for CP-SAT where a scenario is run on concrete data. *)

Definition value_in (a : list (Z * bool)) (v : Z) : Z :=
  match lookup_value v a with
  | Some true => 1
  | _ => 0
  end.

Definition sum_Z (l : list Z) : Z := fold_right Z.add 0 l.

Definition constraint_holds (a : list (Z * bool)) (c : LinearConstraint) : bool :=
  match c with
  | SumEquals vars n => sum_Z (map (value_in a) vars) =? n
  | VarIsZero v => value_in a v =? 0
  | PairAtMostOne v1 v2 => value_in a v1 + value_in a v2 <=? 1
  end.

Definition satisfies (a : list (Z * bool)) (m : CpModel) : bool :=
  forallb (constraint_holds a) (constraints m).

Definition objective_of (a : list (Z * bool)) (m : CpModel) : Z :=
  sum_Z (map (fun t => snd t * value_in a (fst t)) (objective m)).

Fixpoint all_assignments (vars : list Z) : list (list (Z * bool)) :=
  match vars with
  | [] => [[]]
  | v :: rest =>
      let tails := all_assignments rest in
      map (cons (v, false)) tails ++ map (cons (v, true)) tails
  end.

Fixpoint best_assignment (m : CpModel) (candidates : list (list (Z * bool)))
    : option (list (Z * bool)) :=
  match candidates with
  | [] => None
  | a :: rest =>
      match best_assignment m rest with
      | Some b => if objective_of a m <? objective_of b m then Some b else Some a
      | None => Some a
      end
  end.

Definition reference_solve (m : CpModel) : SolverResponse :=
  match best_assignment m (filter (fun a => satisfies a m) (all_assignments (variables m))) with
  | Some a =>
      {| status := OPTIMAL; solution := a; objective_value := objective_of a m;
         wall_time := 0%Q |}
  | None =>
      {| status := INFEASIBLE; solution := []; objective_value := 0; wall_time := 0%Q |}
  end.

(** * Vocabulary of the properties *)

Local Open Scope list_scope.

(** ** Program logic for computations in [M] *)

(** Every value the computation can return satisfies [Q]. *)
Definition returns {A : Type} (m : M A) (Q : A -> Prop) : Prop :=
  forall s a s', m s = (Return a, s') -> Q a.

(** Whatever the outcome, the object [m] leaves is related by [R] to the one
    it started from. *)
Definition always {A : Type} (R : Scheduler -> Scheduler -> Prop) (m : M A) : Prop :=
  forall s, R s (snd (m s)).

(** Whatever the outcome, [m] takes an object in [P] to an object in [Q]. *)
Definition step {A : Type} (P : Scheduler -> Prop) (m : M A) (Q : Scheduler -> Prop) : Prop :=
  forall s, P s -> Q (snd (m s)).

(** If [m] starts in [P] and returns [a], it ends in [Q a]. *)
Definition hoare {A : Type} (P : Scheduler -> Prop) (m : M A)
    (Q : A -> Scheduler -> Prop) : Prop :=
  forall s, P s ->
    match m s with
    | (Return a, s') => Q a s'
    | (Raise _, _) => True
    end.

(** ** Predicates on results, models and the scheduler object *)

(** The result carries at most [max_suggestions] suggestions. *)
Definition few (r : SchedulingResult) : Prop :=
  (List.length (suggested_slots r) <= max_suggestions)%nat.

(** The ids of [ids] that are not in [seen], each at its first occurrence. *)
Fixpoint first_seen (seen ids : list Z) : list Z :=
  match ids with
  | [] => []
  | x :: rest =>
      if contains x seen then first_seen seen rest
      else x :: first_seen (x :: seen) rest
  end.

(** The rule of the specification for the date-time of a slot: the next
    occurrence of the slot's day of the week on or after the start date, one
    week later when that occurrence is the start date itself and the slot's
    hour has already passed. *)
Definition resolved_by_rule (start_date current_time : datetime) (s : ScheduleSlot.t)
    : datetime :=
  let next_occurrence :=
    date_of start_date + (ScheduleSlot.day_of_week s - weekday start_date) mod 7 in
  if (next_occurrence =? date_of start_date)
     && (at_hour next_occurrence (ScheduleSlot.start_hour s) <=? current_time)
  then at_hour (next_occurrence + 7) (ScheduleSlot.start_hour s)
  else at_hour next_occurrence (ScheduleSlot.start_hour s).

(** The log of solved models only grows. *)
Definition log_extends (s s' : Scheduler) : Prop :=
  exists more, solved_models s' = solved_models s ++ more.

(** A constraint builder leaves the log alone and only adds constraints to
    the model. *)
Definition model_grows (s s' : Scheduler) : Prop :=
  solved_models s' = solved_models s
  /\ exists more, constraints (model s') = constraints (model s) ++ more.

(** The bookings of the calendar week of the start date, as the specification
    words it: the client's bookings that are not cancelled and fall between
    the Monday 00:00 of the week that holds the start date and the Monday
    after it. *)
Definition calendar_week_bookings (db : Database) (client_id : Z) (start_date : datetime)
    : Z :=
  let monday := combine_min (date_of start_date - weekday start_date) in
  len (filter (fun b =>
                 (Booking.client_id b =? client_id)
                 && negb (String.eqb (Booking.status b) "cancelled")
                 && (monday <=? Booking.date b)
                 && (Booking.date b <? monday + delta 7 0))
              (bookings db)).

(** The first model handed to the solver, if any, asks for exactly [k]
    selected slots. *)
Definition first_solve_demands (k : Z) (s : Scheduler) : Prop :=
  match solved_models s with
  | [] => True
  | m :: _ => exists ids rest, constraints m = SumEquals ids k :: rest
  end.

Definition log_empty (s : Scheduler) : Prop := solved_models s = [].

Definition model_demands (k : Z) (s : Scheduler) : Prop :=
  solved_models s = []
  /\ exists ids rest, constraints (model s) = SumEquals ids k :: rest.

Definition log_starts_with_demand (k : Z) (s : Scheduler) : Prop :=
  exists m others,
    solved_models s = m :: others
    /\ exists ids rest, constraints m = SumEquals ids k :: rest.

(** What is assumed of CP-SAT: an OPTIMAL or FEASIBLE answer carries values
    that satisfy every constraint of the model, any other answer carries no
    values. *)
Definition answers_correctly (cp_solve : CpModel -> SolverResponse) : Prop :=
  forall m,
    match status (cp_solve m) with
    | OPTIMAL | FEASIBLE => satisfies (solution (cp_solve m)) m = true
    | _ => solution (cp_solve m) = []
    end.

(** Every candidate of [slots] with the property [P] is forced to zero. *)
Definition forced_in (m : CpModel) (P : ScheduleSlot.t -> Prop)
    (slots : list ScheduleSlot.t) : Prop :=
  forall x, In x slots -> P x -> In (VarIsZero (ScheduleSlot.id x)) (constraints m).

Definition forced (P : ScheduleSlot.t -> Prop) (slots : list ScheduleSlot.t)
    (s : Scheduler) : Prop :=
  forced_in (model s) P slots.

(** The response in [self.solver] answers a model that forces [P] to zero. *)
Definition answered (cp_solve : CpModel -> SolverResponse) (P : ScheduleSlot.t -> Prop)
    (slots : list ScheduleSlot.t) (s : Scheduler) : Prop :=
  exists m, solver s = Some (cp_solve m) /\ forced_in m P slots.

(** [g] is the suggestion the extractor builds for the candidate [x]. *)
Definition suggestion_of (sd : SchedulingData) (x : ScheduleSlot.t) (g : Suggestion.t)
    : Prop :=
  Suggestion.slot_id g = ScheduleSlot.id x
  /\ Suggestion.day_of_week g = ScheduleSlot.day_of_week x
  /\ Suggestion.hour g = ScheduleSlot.start_hour x
  /\ Suggestion.date_suggestion g = suggestion_date sd x.

Definition selected_by (response : SolverResponse) (sd : SchedulingData)
    (g : Suggestion.t) : Prop :=
  exists x, In x (available_slots sd)
            /\ suggestion_of sd x g
            /\ lookup_value (ScheduleSlot.id x) (solution response) = Some true.

(** Every suggestion of the list was built for a candidate without [P]. *)
Definition chosen_outside (P : ScheduleSlot.t -> Prop) (sd : SchedulingData)
    (l : list Suggestion.t) : Prop :=
  forall g, In g l ->
    exists x, In x (available_slots sd) /\ suggestion_of sd x g /\ ~ P x.

(** The three reasons for which a builder forces a candidate to zero. *)
Definition is_excluded (excluded : list Z) (x : ScheduleSlot.t) : Prop :=
  contains (ScheduleSlot.id x) excluded = true.

Definition not_after (current_time : datetime) (sd : SchedulingData) (x : ScheduleSlot.t)
    : Prop :=
  match current_time_slot_datetime current_time sd x with
  | Return slot_datetime => slot_datetime <= current_time
  | Raise _ => True
  end.

Definition in_window_of (current_time : datetime) (sd : SchedulingData) (b : Booking.t)
    (x : ScheduleSlot.t) : Prop :=
  match recovery_slot_datetime current_time sd x with
  | Return slot_datetime =>
      Booking.date b - delta 0 min_recovery_hours <= slot_datetime
      /\ slot_datetime <= Booking.date b + delta 0 1 + delta 0 min_recovery_hours
  | Raise _ => True
  end.

Definition in_recovery_window (current_time : datetime) (sd : SchedulingData)
    (booked : list Booking.t) (x : ScheduleSlot.t) : Prop :=
  exists b, In b booked
            /\ days_of (current_time - Booking.date b) <= 7
            /\ in_window_of current_time sd b x.

(** A candidate the main path and the retries both rule out: it falls in the
    recovery window of a recent booking, or its time has passed. *)
Definition unavailable (current_time : datetime) (sd : SchedulingData) (x : ScheduleSlot.t)
    : Prop :=
  in_recovery_window current_time sd (existing_bookings sd) x
  \/ not_after current_time sd x.

(** What a request for [num_sessions] sessions rules out: the exclusion list
    counts when there is no retry. *)
Definition ruled_out (current_time : datetime) (excluded : list Z) (num_sessions : Z)
    (sd : SchedulingData) (x : ScheduleSlot.t) : Prop :=
  unavailable current_time sd x \/ (num_sessions <= 1 /\ is_excluded excluded x).

Definition suggestions_outside (P : SchedulingData -> ScheduleSlot.t -> Prop)
    (gathered : outcome SchedulingData) (l : list Suggestion.t) : Prop :=
  match gathered with
  | Return sd => chosen_outside (P sd) sd l
  | Raise _ => l = []
  end.

(** The date-time the rule gives a slot is later than the current time and
    outside the recovery window of every recent booking. *)
Definition bookable_by_rule (start_date current_time : datetime) (booked : list Booking.t)
    (x : ScheduleSlot.t) : Prop :=
  let slot_datetime := resolved_by_rule start_date current_time x in
  current_time < slot_datetime
  /\ forall b, In b booked -> days_of (current_time - Booking.date b) <= 7 ->
       slot_datetime < Booking.date b - delta 0 min_recovery_hours
       \/ Booking.date b + delta 0 1 + delta 0 min_recovery_hours < slot_datetime.

(** A partial result for [k] of [original] sessions. *)
Definition partial_result_for (original k : Z) (r : SchedulingResult) : Prop :=
  solver_status r = ("PARTIAL_SOLUTION_" ++ str k)%string
  /\ (exists base, (base = 1%Q \/ base = (8 # 10)%Q)
                   /\ confidence_score r
                      = (base * (inject_Z k / inject_Z original))%Q)
  /\ total_suggestions r = len (suggested_slots r)
  /\ exists analysis rest,
       constraints_satisfied r
       = ("⚠️ Could only find " ++ str k ++ " session(s) instead of "
          ++ str original ++ ". " ++ analysis)%string :: rest.

(** The result of the detailed failure analysis. *)
Definition failure_analysis_result (r : SchedulingResult) : Prop :=
  solver_status r = "NO_SOLUTION_DETAILED"
  /\ suggested_slots r = []
  /\ total_suggestions r = 0
  /\ confidence_score r = 0%Q.

(** The solver gave the value 1 to the variable of the candidate. *)
Definition is_selected (response : SolverResponse) (x : ScheduleSlot.t) : bool :=
  match lookup_value (ScheduleSlot.id x) (solution response) with
  | Some true => true
  | _ => false
  end.

(** [l] is what the extractor makes of [response]: one suggestion for each
    selected candidate, in the order of the candidates, then sorted and cut
    at [max_suggestions]. *)
Definition extracted_from (response : SolverResponse) (sd : SchedulingData)
    (l : list Suggestion.t) : Prop :=
  exists all,
    l = firstn max_suggestions (sort_suggestions all)
    /\ map Suggestion.slot_id all
       = map ScheduleSlot.id (filter (is_selected response) (available_slots sd)).

(** The model of the scheduler object asks for [k] of the candidates. *)
Definition asks_for (sd : SchedulingData) (k : Z) (m : CpModel) : Prop :=
  In (SumEquals (map ScheduleSlot.id (available_slots sd)) k) (constraints m).

(** [l] was extracted from an OPTIMAL or FEASIBLE answer to a model that asks
    for [k] candidates. *)
Definition solved_for (cp_solve : CpModel -> SolverResponse) (k : Z) (sd : SchedulingData)
    (l : list Suggestion.t) : Prop :=
  exists m,
    asks_for sd k m
    /\ (status (cp_solve m) = OPTIMAL \/ status (cp_solve m) = FEASIBLE)
    /\ extracted_from (cp_solve m) sd l.

(** The three kinds of result of [suggest_optimal_bookings] on data [sd]
    when [n] sessions are solved for: a full answer, a partial answer for
    some smaller [k], or a result of any other status, whose suggestions, if
    any, still come from an answer of the solver. *)
Definition provenance (cp_solve : CpModel -> SolverResponse) (n : Z) (sd : SchedulingData)
    (r : SchedulingResult) : Prop :=
  ((solver_status r = "OPTIMAL" \/ solver_status r = "FEASIBLE")
   /\ solved_for cp_solve n sd (suggested_slots r))
  \/ (exists k, 1 <= k < n
                /\ solver_status r = ("PARTIAL_SOLUTION_" ++ str k)%string
                /\ solved_for cp_solve k sd (suggested_slots r))
  \/ (solver_status r <> "OPTIMAL"
      /\ solver_status r <> "FEASIBLE"
      /\ (forall k, solver_status r <> ("PARTIAL_SOLUTION_" ++ str k)%string)
      /\ (suggested_slots r = []
          \/ exists response, extracted_from response sd (suggested_slots r))).

(** The number of sessions the engine solves for: the request, cut to what
    is left of the weekly quota. *)
Definition sessions_solved_for (num_sessions : Z) (sd : SchedulingData) : Z :=
  Z.min num_sessions
        (getattr_sessions_per_week (client_plan sd) 3 - _count_current_week_bookings sd).

Definition result_provenance (cp_solve : CpModel -> SolverResponse) (num_sessions : Z)
    (gathered : outcome SchedulingData) (r : SchedulingResult) : Prop :=
  match gathered with
  | Return sd => provenance cp_solve (sessions_solved_for num_sessions sd) sd r
  | Raise _ => suggested_slots r = []
  end.

(** Suggestions are listed by hour, and by day of the week within an hour. *)
Definition by_hour_then_day (a b : Suggestion.t) : Prop :=
  Suggestion.hour a < Suggestion.hour b
  \/ (Suggestion.hour a = Suggestion.hour b
      /\ Suggestion.day_of_week a <= Suggestion.day_of_week b).


(** The hours a preference lets through the candidate query: a strict
    window lets its own hours through, a flexible one an hour more on each
    side, and a preference without both bounds lets everything through. *)
Definition preference_admits (pref : option ClientPreference.t) (hour : Z) : Prop :=
  match pref with
  | Some p =>
      match ClientPreference.preferred_start_hour p, ClientPreference.preferred_end_hour p with
      | Some a, Some b =>
          if ClientPreference.is_flexible p then a - 1 <= hour <= b + 1
          else a <= hour <= b
      | _, _ => True
      end
  | None => True
  end.

(** The preference is flexible and has both bounds: the case in which the
    query reorders its result. *)
Definition flexible_window (pref : option ClientPreference.t) : option (Z * Z) :=
  match pref with
  | Some p =>
      match ClientPreference.preferred_start_hour p, ClientPreference.preferred_end_hour p with
      | Some a, Some b => if ClientPreference.is_flexible p then Some (a, b) else None
      | _, _ => None
      end
  | None => None
  end.

Definition day_then_hour (a b : ScheduleSlot.t) : Prop :=
  ScheduleSlot.day_of_week a < ScheduleSlot.day_of_week b
  \/ (ScheduleSlot.day_of_week a = ScheduleSlot.day_of_week b
      /\ ScheduleSlot.start_hour a <= ScheduleSlot.start_hour b).

(** First by [key], then by [R]. *)
Definition key_then {A : Type} (key : A -> Z) (R : A -> A -> Prop) (a b : A) : Prop :=
  key a < key b \/ (key a = key b /\ R a b).

(** [g] is the suggestion the extractor builds for the candidate [x], with
    the coach and the capacity of the slot. *)
Definition built_for (sd : SchedulingData) (x : ScheduleSlot.t) (g : Suggestion.t) : Prop :=
  suggestion_of sd x g
  /\ Suggestion.coach_id g = ScheduleSlot.coach_id x
  /\ Suggestion.capacity_available g = ScheduleSlot.capacity x.

(** A booking that counts against new bookings: pending or confirmed. *)
Definition active_row (r : BookingRow.t) : bool :=
  pending_or_confirmed (Booking.status (BookingRow.booking r)).

(** Two active bookings of the same slot at the same date-time. *)
Definition slot_clash (a b : BookingRow.t) : Prop :=
  active_row a = true /\ active_row b = true
  /\ (exists i, BookingRow.slot_id a = Some i /\ BookingRow.slot_id b = Some i)
  /\ Booking.date (BookingRow.booking a) = Booking.date (BookingRow.booking b).

(** Two active bookings of the client on the same day. *)
Definition day_clash (client : Z) (a b : BookingRow.t) : Prop :=
  Booking.client_id (BookingRow.booking a) = client
  /\ Booking.client_id (BookingRow.booking b) = client
  /\ active_row a = true /\ active_row b = true
  /\ date_of (Booking.date (BookingRow.booking a))
     = date_of (Booking.date (BookingRow.booking b)).

(** [new] and [entry] are the row and the response entry the route makes for
    [slot_id] when the bookings table holds [rows]: the first suggestion of
    the session with that slot id gives the coach, the date and the hour,
    the slot exists, and no row of [rows] clashes with the new one. *)
Definition books (session : SuggestionSession.t) (suggestions : list Suggestion.t)
    (slot_rows : list SlotRow.t) (rows : list BookingRow.t) (slot_id : Z)
    (new : BookingRow.t) (entry : BookedSuggestion) : Prop :=
  exists suggestion,
    In suggestion suggestions
    /\ Suggestion.slot_id suggestion = slot_id
    /\ 0 <= Suggestion.hour suggestion <= 23
    /\ (exists r, In r slot_rows /\ ScheduleSlot.id (SlotRow.slot r) = slot_id)
    /\ new = {| BookingRow.booking :=
                  {| Booking.client_id := SuggestionSession.client_id session;
                     Booking.coach_id := Suggestion.coach_id suggestion;
                     Booking.date := Suggestion.resolved_datetime suggestion;
                     Booking.status := "pending" |};
                BookingRow.slot_id := Some slot_id;
                BookingRow.ai_generated := true |}
    /\ booked_client_id entry = SuggestionSession.client_id session
    /\ booked_slot_id entry = slot_id
    /\ booked_datetime entry = Suggestion.resolved_datetime suggestion
    /\ booked_status entry = "pending"
    /\ Forall (fun r => ~ slot_clash r new) rows
    /\ Forall (fun r => ~ day_clash (SuggestionSession.client_id session) r new) rows.

(** The rows a call creates, in order, each against the table as it is when
    the row is made. *)
Inductive booked_all (session : SuggestionSession.t) (suggestions : list Suggestion.t)
    (slot_rows : list SlotRow.t)
    : list BookingRow.t -> list BookingRow.t -> list BookedSuggestion -> Prop :=
| booked_none : forall rows, booked_all session suggestions slot_rows rows [] []
| booked_next : forall rows slot_id new entry created entries,
    books session suggestions slot_rows rows slot_id new entry ->
    booked_all session suggestions slot_rows (rows ++ [new]) created entries ->
    booked_all session suggestions slot_rows rows (new :: created) (entry :: entries).

Definition no_slot_clash (rows : list BookingRow.t) : Prop :=
  ForallOrdPairs (fun a b => ~ slot_clash a b) rows.

Definition one_booking_a_day (client : Z) (rows : list BookingRow.t) : Prop :=
  ForallOrdPairs (fun a b => ~ day_clash client a b) rows.

(** The day, the hour and the coach of a slot: the columns of the
    [unique_slot] constraint. *)
Definition slot_key (r : SlotRow.t) : Z * Z * Z :=
  (ScheduleSlot.day_of_week (SlotRow.slot r),
   ScheduleSlot.start_hour (SlotRow.slot r),
   ScheduleSlot.coach_id (SlotRow.slot r)).

(** A coach of the [users] table with the shift [shift_start] to
    [shift_end]. *)
Definition has_shift (db : Tables) (coach shift_start shift_end : Z) : Prop :=
  exists u,
    In u (users db)
    /\ UserRow.id u = coach
    /\ UserRow.role u = COACH
    /\ UserRow.shift_start_hour u = Some shift_start
    /\ UserRow.shift_end_hour u = Some shift_end.

(** An hour of the shift outside the lunch break (12 and 13). *)
Definition open_hour (shift_start shift_end hour : Z) : Prop :=
  shift_start <= hour <= shift_end /\ ~ (12 <= hour <= 13).

(** A slot the seeding makes: active, of capacity 10, on a day of the week
    at an open hour of the shift of a coach. *)
Definition seeded_slot (db : Tables) (r : SlotRow.t) : Prop :=
  SlotRow.is_active r = true
  /\ ScheduleSlot.capacity (SlotRow.slot r) = 10
  /\ 0 <= ScheduleSlot.day_of_week (SlotRow.slot r) <= 6
  /\ exists shift_start shift_end,
       has_shift db (ScheduleSlot.coach_id (SlotRow.slot r)) shift_start shift_end
       /\ open_hour shift_start shift_end (ScheduleSlot.start_hour (SlotRow.slot r)).

(** A primary key one more than the largest in the table. *)
Definition next_id (rows : list SlotRow.t) : Z :=
  1 + fold_right Z.max 0 (map (fun r => ScheduleSlot.id (SlotRow.slot r)) rows).

(** ** Scenarios on concrete data

    One client (id 18) on a three-sessions plan with coach 7, no preference,
    and Wednesday 2025-10-22 as the day of the request. *)

(** 2025-10-22, a Wednesday. *)
Definition wednesday : date := 739546.

Definition plan_abc : ClientPlan.t :=
  {| ClientPlan.client_id := 18;
     ClientPlan.sessions_per_week := Some 3;
     ClientPlan.assigned_coach_id := 7 |}.

Definition studio (slots : list ScheduleSlot.t) (booked : list Booking.t) : Database :=
  {| get_client_plan := fun c => if c =? 18 then Some plan_abc else None;
     get_client_preference := fun _ => None;
     get_available_slots_for_client := fun c _ => if c =? 18 then slots else [];
     bookings := booked;
     get_user := fun u =>
       if u =? 7 then Some {| User.first_name := "Dana"; User.last_name := "Levi" |}
       else None |}.

(** The clock reads [h]:00 on that Wednesday. *)
Definition clock_at (h : Z) : Clock :=
  {| now := at_hour wednesday h; utcnow := at_hour wednesday h; solve_time_ms := 12 |}.

Definition slot (id day hour : Z) : ScheduleSlot.t :=
  {| ScheduleSlot.id := id;
     ScheduleSlot.day_of_week := day;
     ScheduleSlot.start_hour := hour;
     ScheduleSlot.coach_id := 7;
     ScheduleSlot.capacity := 10 |}.

Definition booked_at (d : date) (h : Z) : Booking.t :=
  {| Booking.client_id := 18;
     Booking.coach_id := 7;
     Booking.date := at_hour d h;
     Booking.status := "confirmed" |}.

(** Monday 10:00 and Sunday 20:00, in the order of the query (by day of the
    week). *)
Definition weekend_slots : list ScheduleSlot.t := [slot 1 0 10; slot 2 6 20].

(** Wednesday 10:00. *)
Definition wednesday_morning : ScheduleSlot.t := slot 1 2 10.

(** Thursday 10:00 and Saturday 10:00. *)
Definition two_slots : list ScheduleSlot.t := [slot 1 3 10; slot 2 5 10].

(** The scheduling data [_gather_scheduling_data] builds for the request of
    the Wednesday itself, made at 15:00 with that date preferred. *)
Definition afternoon_data : SchedulingData :=
  {| sd_client_id := 18;
     client_plan := plan_abc;
     client_preference := None;
     available_slots := [wednesday_morning];
     existing_bookings := [];
     coach_workload := [(7, 0%Q)];
     time_window := (combine_min wednesday, combine_min wednesday + delta 7 0);
     planning_horizon := 7 |}.

(** Three bookings of the week of Wednesday 2025-10-22: Monday, Tuesday and
    Wednesday at 10:00. *)
Definition three_bookings : list Booking.t :=
  [booked_at (wednesday - 2) 10; booked_at (wednesday - 1) 10; booked_at wednesday 10].

(** The tables of a gym: coach 7 (Dana Levi, shift 10 to 15), client 18 on
    the three-sessions plan, three slots of which the third is inactive, and
    one confirmed booking of client 18 on slot 2 on Saturday 2025-10-25. *)
Definition gym : Tables :=
  {| schedule_slots := [ SlotRow.mk (slot 1 3 10) true;
                         SlotRow.mk (slot 2 5 10) true;
                         SlotRow.mk (slot 3 3 18) false ];
     booking_rows := [ BookingRow.mk (booked_at (wednesday + 3) 10) (Some 2) true ];
     client_plans := [plan_abc];
     client_preferences := [];
     users := [ UserRow.mk 7 COACH {| User.first_name := "Dana"; User.last_name := "Levi" |}
                           (Some 10) (Some 15);
                UserRow.mk 18 CLIENT {| User.first_name := "Noa"; User.last_name := "Bar" |}
                           None None ] |}.

(** * Properties *)

(** ** Reasoning about computations in [M] *)

Lemma returns_ret {A : Type} (a : A) (Q : A -> Prop) : Q a -> returns (ret a) Q.
Proof. intros HQ s a' s' H. inversion H; subst; exact HQ. Qed.

Lemma returns_raise {A : Type} (e : exn) (Q : A -> Prop) : returns (raise e) Q.
Proof. intros s a s' H. discriminate H. Qed.

Lemma returns_bind_with {A B : Type} (m : M A) (k : A -> M B) (P : A -> Prop)
    (Q : B -> Prop) :
  returns m P -> (forall a, P a -> returns (k a) Q) -> returns (bind m k) Q.
Proof.
  intros Hm Hk s b s' H. unfold bind in H.
  destruct (m s) as [[a | e] s0] eqn:E.
  - eapply Hk; [eapply Hm; exact E | exact H].
  - discriminate H.
Qed.

Lemma returns_bind {A B : Type} (m : M A) (k : A -> M B) (Q : B -> Prop) :
  (forall a, returns (k a) Q) -> returns (bind m k) Q.
Proof.
  intros Hk. apply returns_bind_with with (P := fun _ => True).
  - intros s a s' _. exact I.
  - intros a _. apply Hk.
Qed.

Lemma returns_try_except {A : Type} (m : M A) (h : exn -> M A) (Q : A -> Prop) :
  returns m Q -> (forall e, returns (h e) Q) -> returns (try_except m h) Q.
Proof.
  intros Hm Hh s a s' H. unfold try_except in H.
  destruct (m s) as [[a0 | e] s0] eqn:E.
  - inversion H; subst. eapply Hm; exact E.
  - eapply Hh; exact H.
Qed.

(** Steps through binds whose intermediate values do not matter. *)
Ltac returns_steps :=
  repeat first
    [ apply returns_ret
    | apply returns_raise
    | apply returns_bind; intros ].

(** ** The extractor keeps at most [max_suggestions] entries *)

Section AtMostFive.

Variable db : Database.
Variable clock : Clock.
Variable cp_solve : CpModel -> SolverResponse.

Lemma extract_suggestions_few (sd : SchedulingData) (sr : SolveResult) :
  returns (_extract_suggestions db sd sr)
          (fun l => (List.length l <= max_suggestions)%nat).
Proof.
  unfold _extract_suggestions.
  destruct (_ || _).
  - apply returns_ret. simpl. lia.
  - apply returns_bind; intros suggestions. apply returns_ret.
    apply firstn_le_length.
Qed.

Lemma partial_attempt_few (client_id : Z) (sd : SchedulingData) (original k : Z) :
  returns (partial_attempt db clock cp_solve client_id sd original k)
          (fun r => match r with Some res => few res | None => True end).
Proof.
  unfold partial_attempt.
  do 9 (apply returns_bind; intros).
  destruct (_ || _); [| apply returns_ret; exact I].
  eapply returns_bind_with; [apply extract_suggestions_few |].
  intros suggestions Hfew.
  do 3 (apply returns_bind; intros).
  apply returns_ret. exact Hfew.
Qed.

Lemma partial_loop_few (client_id : Z) (sd : SchedulingData) (original : Z)
    (counts : list Z) :
  returns (partial_loop db clock cp_solve client_id sd original counts)
          (fun r => match r with Some res => few res | None => True end).
Proof.
  induction counts as [| k rest IH]; simpl.
  - apply returns_ret. exact I.
  - eapply returns_bind_with.
    + apply returns_try_except; [apply partial_attempt_few |].
      intros e. apply returns_ret. exact I.
    + intros [res |] H; [apply returns_ret; exact H | exact IH].
Qed.

Lemma detailed_failure_analysis_few (client_id : Z) (sd : SchedulingData) (n : Z) :
  returns (_create_detailed_failure_analysis clock client_id sd n) few.
Proof.
  unfold _create_detailed_failure_analysis.
  do 2 (apply returns_bind; intros).
  apply returns_ret. unfold few. simpl. lia.
Qed.

Lemma try_partial_solutions_few (client_id : Z) (sd : SchedulingData) (original : Z) :
  returns (_try_partial_solutions db clock cp_solve client_id sd original) few.
Proof.
  unfold _try_partial_solutions.
  eapply returns_bind_with; [apply partial_loop_few |].
  intros [res |] H; [apply returns_ret; exact H |].
  apply detailed_failure_analysis_few.
Qed.

Lemma suggest_optimal_bookings_few (client_id num_sessions : Z)
    (preferred_date : option datetime) (days_flexibility : Z)
    (excluded_slot_ids : option (list Z)) :
  returns (suggest_optimal_bookings db clock cp_solve client_id num_sessions
             preferred_date days_flexibility excluded_slot_ids) few.
Proof.
  unfold suggest_optimal_bookings.
  apply returns_try_except.
  - apply returns_bind; intros sd.
    destruct (available_slots sd) as [| slot0 slots].
    + apply returns_ret. unfold few. simpl. lia.
    + destruct (_ <=? 0).
      * apply returns_ret. unfold few. simpl. lia.
      * do 12 (apply returns_bind; intros).
        destruct (String.eqb _ _); [apply try_partial_solutions_few |].
        eapply returns_bind_with; [apply extract_suggestions_few |].
        intros suggestions Hfew.
        do 2 (apply returns_bind; intros).
        apply returns_ret. exact Hfew.
  - intros e. apply returns_ret. unfold few. simpl. lia.
Qed.

(** The outermost [try]/[except] turns every exception into a result. *)
Lemma suggest_optimal_bookings_total (client_id num_sessions : Z)
    (preferred_date : option datetime) (days_flexibility : Z)
    (excluded_slot_ids : option (list Z)) (s : Scheduler) :
  exists r s',
    suggest_optimal_bookings db clock cp_solve client_id num_sessions
      preferred_date days_flexibility excluded_slot_ids s = (Return r, s').
Proof.
  unfold suggest_optimal_bookings, try_except.
  match goal with |- context [match ?m s with _ => _ end] => destruct (m s) as [[r | e] s0] end.
  - exists r, s0. reflexivity.
  - eexists. eexists. reflexivity.
Qed.

End AtMostFive.

(** C8. Every call of [suggest_optimal_bookings] returns a result, and its
    [suggested_slots] has at most five entries, whatever the requested number
    of sessions, the exclusion list, the state of the scheduler object and the
    answers of the solver are. *)
Theorem suggested_slots_at_most_five :
  forall (db : Database) (clock : Clock) (cp_solve : CpModel -> SolverResponse)
         (client_id num_sessions : Z) (preferred_date : option datetime)
         (days_flexibility : Z) (excluded_slot_ids : option (list Z)) (s : Scheduler),
  exists r s',
    suggest_optimal_bookings db clock cp_solve client_id num_sessions
      preferred_date days_flexibility excluded_slot_ids s = (Return r, s')
    /\ (List.length (suggested_slots r) <= 5)%nat.
Proof.
  intros db clock cp_solve client_id num_sessions preferred_date days_flexibility
         excluded_slot_ids s.
  destruct (suggest_optimal_bookings_total db clock cp_solve client_id num_sessions
              preferred_date days_flexibility excluded_slot_ids s) as (r & s' & H).
  exists r, s'. split; [exact H |].
  exact (suggest_optimal_bookings_few db clock cp_solve client_id num_sessions
           preferred_date days_flexibility excluded_slot_ids s r s' H).
Qed.

(** ** Solver status and confidence *)

(** C7. [_solve_model] always returns, and what it reports is fixed by the
    solver's status alone: OPTIMAL is reported as "OPTIMAL" with confidence
    1.0, FEASIBLE as "FEASIBLE" with confidence 0.8, INFEASIBLE as
    "NO_SOLUTION", the solver's UNKNOWN (time limit reached without an answer)
    as "TIMEOUT" and MODEL_INVALID as "INVALID", the last three with
    confidence 0.0. The fallback text of the status table is never reported. *)
Theorem solve_model_status_and_confidence :
  forall (cp_solve : CpModel -> SolverResponse) (s : Scheduler),
  exists r s',
    _solve_model cp_solve s = (Return r, s')
    /\ (sr_status r, sr_confidence r)
       = match status (cp_solve (model s)) with
         | OPTIMAL => ("OPTIMAL", 1%Q)
         | FEASIBLE => ("FEASIBLE", (8 # 10)%Q)
         | INFEASIBLE => ("NO_SOLUTION", 0%Q)
         | UNKNOWN => ("TIMEOUT", 0%Q)
         | MODEL_INVALID => ("INVALID", 0%Q)
         end
    /\ (status (cp_solve (model s)) <> OPTIMAL ->
        status (cp_solve (model s)) <> FEASIBLE -> sr_confidence r = 0%Q)
    /\ sr_status r <> "UNKNOWN".
Proof.
  intros cp_solve s.
  unfold _solve_model, bind, get_self, set_self, ret. simpl.
  eexists. eexists. split; [reflexivity |]. simpl.
  destruct (status (cp_solve (model s))); simpl;
    (split; [reflexivity | split; [intros; congruence | discriminate]]).
Qed.

(** ** The history of a suggestion session *)

Lemma contains_In (x : Z) (l : list Z) : contains x l = true <-> In x l.
Proof.
  unfold contains. rewrite existsb_exists. split.
  - intros (y & Hy & E). apply Z.eqb_eq in E. subst. exact Hy.
  - intros H. exists x. split; [exact H | apply Z.eqb_refl].
Qed.

Lemma contains_app_single (x y : Z) (l : list Z) :
  contains x (l ++ [y]) = contains x (y :: l).
Proof.
  unfold contains. rewrite existsb_app. simpl.
  destruct (existsb (Z.eqb x) l), (x =? y); reflexivity.
Qed.

Lemma contains_same_members (x : Z) (l l' : list Z) :
  (forall y, In y l <-> In y l') -> contains x l = contains x l'.
Proof.
  intros H.
  destruct (contains x l) eqn:E, (contains x l') eqn:E'; try reflexivity.
  - apply contains_In, H, contains_In in E. congruence.
  - apply contains_In, H, contains_In in E'. congruence.
Qed.

Lemma first_seen_same_members (seen seen' ids : list Z) :
  (forall y, In y seen <-> In y seen') -> first_seen seen ids = first_seen seen' ids.
Proof.
  revert seen seen'. induction ids as [| x rest IH]; intros seen seen' H; simpl.
  - reflexivity.
  - rewrite (contains_same_members x seen seen' H).
    destruct (contains x seen'); [apply IH; exact H |].
    f_equal. apply IH. intros y. simpl. rewrite H. tauto.
Qed.

(** The loop of [add_to_suggested_history] appends [first_seen]. *)
Lemma history_loop (ids existing : list Z) :
  fold_left (fun existing_slots slot_id =>
               if contains slot_id existing_slots then existing_slots
               else list_append existing_slots slot_id)
            ids existing
  = existing ++ first_seen existing ids.
Proof.
  revert existing. induction ids as [| x rest IH]; intros existing; simpl.
  - rewrite app_nil_r. reflexivity.
  - destruct (contains x existing) eqn:E.
    + apply IH.
    + rewrite IH. unfold list_append. rewrite <- app_assoc. simpl.
      do 2 f_equal. apply first_seen_same_members.
      intros y. rewrite in_app_iff. simpl. tauto.
Qed.

Lemma first_seen_spec (seen ids : list Z) :
  NoDup (first_seen seen ids)
  /\ (forall x, In x (first_seen seen ids) <-> In x ids /\ ~ In x seen).
Proof.
  revert seen. induction ids as [| x rest IH]; intros seen; simpl.
  - split; [constructor | intros x; tauto].
  - destruct (contains x seen) eqn:E.
    + destruct (IH seen) as [Hnd Hin]. split; [exact Hnd |].
      intros y. rewrite Hin. apply contains_In in E.
      split; [tauto |]. intros [[-> | Hy] Hn]; tauto.
    + destruct (IH (x :: seen)) as [Hnd Hin].
      assert (Hx : ~ In x seen).
      { intros H. apply contains_In in H. congruence. }
      split.
      * constructor; [| exact Hnd]. rewrite Hin. simpl. tauto.
      * intros y. simpl. rewrite Hin. simpl.
        destruct (Z.eq_dec x y) as [-> | Hne]; [tauto |].
        split; [intros [H | H]; tauto |]. intros [[H | H] Hn]; tauto.
Qed.

Lemma first_seen_all_present (seen ids : list Z) :
  (forall x, In x ids -> In x seen) -> first_seen seen ids = [].
Proof.
  intros H. destruct (first_seen seen ids) as [| y l] eqn:E; [reflexivity |].
  assert (Hy : In y (first_seen seen ids)) by (rewrite E; left; reflexivity).
  apply first_seen_spec in Hy. destruct Hy as [Hy Hn]. elim Hn. apply H, Hy.
Qed.

(** C9. [add_to_suggested_history] only appends. The stored history after the
    call is the history before it followed by the new ids that were not in it,
    each once and in the order of their first occurrence; so every id stored
    before is still stored, a history without duplicates stays without
    duplicates, a call whose ids are all stored already leaves the history as
    it was, and a second call with the same ids changes nothing. *)
Theorem add_to_suggested_history_only_appends :
  forall (session : SuggestionSession.t) (new_slot_ids : list Z),
    let before := SuggestionSession.get_all_suggested_slots session in
    let session' := SuggestionSession.add_to_suggested_history session new_slot_ids in
    let after := SuggestionSession.get_all_suggested_slots session' in
    after = before ++ first_seen before new_slot_ids
    /\ NoDup (first_seen before new_slot_ids)
    /\ (forall x, In x (first_seen before new_slot_ids)
                  <-> In x new_slot_ids /\ ~ In x before)
    /\ (forall x, In x before -> In x after)
    /\ (forall x, In x new_slot_ids -> In x after)
    /\ (NoDup before -> NoDup after)
    /\ ((forall x, In x new_slot_ids -> In x before) -> after = before)
    /\ SuggestionSession.get_all_suggested_slots
         (SuggestionSession.add_to_suggested_history session' new_slot_ids) = after.
Proof.
  intros session new_slot_ids before session' after.
  assert (Hafter : after = before ++ first_seen before new_slot_ids).
  { unfold after, session', before, SuggestionSession.get_all_suggested_slots,
      SuggestionSession.add_to_suggested_history. simpl. apply history_loop. }
  destruct (first_seen_spec before new_slot_ids) as [Hnd Hin].
  assert (Hnew : forall x, In x new_slot_ids -> In x after).
  { intros x Hx. rewrite Hafter, in_app_iff.
    destruct (in_dec Z.eq_dec x before) as [Hb | Hb]; [left; exact Hb |].
    right. apply Hin. split; assumption. }
  split; [exact Hafter |].
  split; [exact Hnd |].
  split; [exact Hin |].
  split; [intros x Hx; rewrite Hafter; apply in_or_app; left; exact Hx |].
  split; [exact Hnew |].
  split.
  { intros Hb. rewrite Hafter. apply NoDup_app; [exact Hb | exact Hnd |].
    intros x Hx Hx'. apply Hin in Hx'. tauto. }
  split.
  { intros Hall. rewrite Hafter, (first_seen_all_present _ _ Hall). apply app_nil_r. }
  change (SuggestionSession.get_all_suggested_slots
            (SuggestionSession.add_to_suggested_history session' new_slot_ids))
    with (fold_left (fun existing_slots slot_id =>
                       if contains slot_id existing_slots then existing_slots
                       else list_append existing_slots slot_id)
                    new_slot_ids after).
  rewrite history_loop, (first_seen_all_present _ _ Hnew). apply app_nil_r.
Qed.

(** ** Where the code departs from the claims *)

(** C1 (the code departs from the claim). A session is opened for two
    sessions and gets slots 1 and 2. The first "re-suggest all" stores both
    ids in the history and still answers with slot 1; at the start of the
    second call the history is [1; 2], and the call answers with slot 1 again:
    the retry with fewer sessions is built without the exclusion list. *)
Theorem re_suggest_repeats_a_slot_of_the_history :
  let db := studio two_slots [] in
  let opened := suggest_optimal_booking db (clock_at 9) reference_solve "tok" 18 None 7 2 [] in
  let first := re_suggest_session_based db (clock_at 9) reference_solve "tok" 18 (snd opened) in
  let second := re_suggest_session_based db (clock_at 9) reference_solve "tok" 18 (snd first) in
  exists session response,
    find_session "tok" (snd first) = Some session
    /\ SuggestionSession.get_all_suggested_slots session = [1; 2]
    /\ fst second = HttpOk response
    /\ map Suggestion.slot_id (resp_suggestions response) = [1]
    /\ resp_solver_status response = "PARTIAL_SOLUTION_1"
    /\ In 1 (SuggestionSession.get_all_suggested_slots session).
Proof.
  cbv zeta. eexists. eexists.
  split; [vm_compute; reflexivity |].
  split; [vm_compute; reflexivity |].
  split; [vm_compute; reflexivity |].
  split; [vm_compute; reflexivity |].
  split; [vm_compute; reflexivity |].
  simpl. left. reflexivity.
Qed.

(** C2 (the code departs from the claim). With Sunday 20:00 and Monday 10:00
    as the candidates of a request for two sessions made on a Wednesday, both
    are suggested, for Sunday 2025-10-26 and Monday 2025-10-27: fourteen hours
    apart. The pairwise check had compared offsets from the start date (day of
    week as a number of days), which are 154 hours apart. *)
Theorem suggestions_fourteen_hours_apart :
  exists result a b,
    run_scheduler (studio weekend_slots []) (clock_at 9) reference_solve 18 2 None 7 None
    = Return result
    /\ suggested_slots result = [a; b]
    /\ Suggestion.slot_id a <> Suggestion.slot_id b
    /\ Suggestion.resolved_datetime a = at_hour (wednesday + 5) 10
    /\ Suggestion.resolved_datetime b = at_hour (wednesday + 4) 20
    /\ Z.abs (Suggestion.resolved_datetime a - Suggestion.resolved_datetime b)
       = delta 0 14
    /\ delta 0 14 < delta 0 min_recovery_hours.
Proof.
  eexists. eexists. eexists.
  split; [vm_compute; reflexivity |].
  split; [reflexivity |].
  split; [simpl; discriminate |].
  split; [vm_compute; reflexivity |].
  split; [vm_compute; reflexivity |].
  split; vm_compute; reflexivity.
Qed.

(** C3 (the code departs from the claim). For the Wednesday 10:00 slot, a
    start date of Wednesday 2025-10-22 00:00 and the clock at 15:00, the rule
    gives Wednesday 2025-10-29 10:00. The recovery check against bookings and
    the past-time check compute that value; the pairwise check computes Friday
    2025-10-24 10:00 and the extractor suggests Wednesday 2025-10-22. *)
Theorem slot_resolution_differs_between_places :
  let sd := afternoon_data in
  let current_time := now (clock_at 15) in
  let rule := resolved_by_rule (fst (time_window sd)) current_time wednesday_morning in
  rule = at_hour (wednesday + 7) 10
  /\ recovery_slot_datetime current_time sd wednesday_morning = Return rule
  /\ current_time_slot_datetime current_time sd wednesday_morning = Return rule
  /\ pair_slot_datetime sd wednesday_morning = at_hour (wednesday + 2) 10
  /\ at_hour (suggestion_date sd wednesday_morning)
             (ScheduleSlot.start_hour wednesday_morning)
     = at_hour wednesday 10
  /\ pair_slot_datetime sd wednesday_morning <> rule
  /\ at_hour (suggestion_date sd wednesday_morning)
             (ScheduleSlot.start_hour wednesday_morning) <> rule.
Proof.
  cbv zeta.
  split; [vm_compute; reflexivity |].
  split; [vm_compute; reflexivity |].
  split; [vm_compute; reflexivity |].
  split; [vm_compute; reflexivity |].
  split; [vm_compute; reflexivity |].
  split; vm_compute; discriminate.
Qed.

(** [afternoon_data] is what the scheduler gathers in that scenario. *)
Lemma afternoon_data_gathered :
  fst (_gather_scheduling_data (studio [wednesday_morning] []) (clock_at 15) 18
         (Some (combine_min wednesday)) 7 new_scheduler)
  = Return afternoon_data.
Proof. vm_compute. reflexivity. Qed.

(** C5 (the code departs from the claim). The request is for two sessions
    with slots 1 and 2 excluded. The first model carries the exclusions and is
    infeasible; the retry at one session is solved without them, and the
    partial result is slot 1. Its confidence is the solver's 1.0 times 1/2 and
    its diagnostics start with the warning. *)
Theorem retry_drops_the_exclusions :
  exists result s',
    suggest_optimal_bookings (studio two_slots []) (clock_at 9) reference_solve
      18 2 None 7 (Some [1; 2]) new_scheduler = (Return result, s')
    /\ map constraints (solved_models s')
       = [ [SumEquals [1; 2] 2; VarIsZero 1; VarIsZero 2];
           [SumEquals [1; 2] 1] ]
    /\ map (fun m => status (reference_solve m)) (solved_models s') = [INFEASIBLE; OPTIMAL]
    /\ solver_status result = "PARTIAL_SOLUTION_1"
    /\ map Suggestion.slot_id (suggested_slots result) = [1]
    /\ confidence_score result = (1 * (inject_Z 1 / inject_Z 2))%Q
    /\ hd_error (constraints_satisfied result)
       = Some ("⚠️ Could only find 1 session(s) instead of 2. "
               ++ "Multiple constraints are limiting available combinations.")%string.
Proof.
  eexists. eexists.
  split; [vm_compute; reflexivity |].
  split; [vm_compute; reflexivity |].
  split; [vm_compute; reflexivity |].
  split; [vm_compute; reflexivity |].
  split; [vm_compute; reflexivity |].
  split; vm_compute; reflexivity.
Qed.

(** C6 (the code departs from the claim). The request is made on Wednesday
    2025-10-22 at 15:00 with that date preferred, and the only candidate is
    Wednesday 10:00. The past-time check resolves the slot to the next week
    and keeps it; the extractor dates the suggestion on the 22nd, five hours
    before the request. *)
Theorem suggestion_dated_before_the_request :
  exists result s,
    run_scheduler (studio [wednesday_morning] []) (clock_at 15) reference_solve
      18 1 (Some (combine_min wednesday)) 7 None = Return result
    /\ suggested_slots result = [s]
    /\ solver_status result = "OPTIMAL"
    /\ Suggestion.resolved_datetime s = at_hour wednesday 10
    /\ Suggestion.resolved_datetime s < now (clock_at 15).
Proof.
  eexists. eexists.
  split; [vm_compute; reflexivity |].
  split; [reflexivity |].
  split; [reflexivity |].
  split; vm_compute; reflexivity.
Qed.

(** ** What a computation does to the scheduler object

    [always R m]: whatever [m] returns or raises, the object it leaves is
    related by [R] to the object it started from. *)

Section Always.

Variable R : Scheduler -> Scheduler -> Prop.
Hypothesis R_refl : forall s, R s s.
Hypothesis R_trans : forall s1 s2 s3, R s1 s2 -> R s2 s3 -> R s1 s3.

Lemma always_ret {A : Type} (a : A) : always R (ret a).
Proof. intros s. apply R_refl. Qed.

Lemma always_raise {A : Type} (e : exn) : always R (@raise A e).
Proof. intros s. apply R_refl. Qed.

Lemma always_lift {A : Type} (o : outcome A) : always R (lift o).
Proof. destruct o; [apply always_ret | apply always_raise]. Qed.

Lemma always_get_self : always R get_self.
Proof. intros s. apply R_refl. Qed.

Lemma always_set_self (f : Scheduler -> Scheduler) :
  (forall s, R s (f s)) -> always R (set_self f).
Proof. intros H s. apply H. Qed.

Lemma always_bind {A B : Type} (m : M A) (k : A -> M B) :
  always R m -> (forall a, always R (k a)) -> always R (bind m k).
Proof.
  intros Hm Hk s. unfold bind. specialize (Hm s).
  destruct (m s) as [[a | e] s0]; simpl in *.
  - eapply R_trans; [exact Hm | apply Hk].
  - exact Hm.
Qed.

Lemma always_try_except {A : Type} (m : M A) (h : exn -> M A) :
  always R m -> (forall e, always R (h e)) -> always R (try_except m h).
Proof.
  intros Hm Hh s. unfold try_except. specialize (Hm s).
  destruct (m s) as [[a | e] s0]; simpl in *.
  - exact Hm.
  - eapply R_trans; [exact Hm | apply Hh].
Qed.

Lemma always_for_each {A : Type} (xs : list A) (body : A -> M unit) :
  (forall x, always R (body x)) -> always R (for_each xs body).
Proof.
  intros Hb. induction xs as [| x rest IH]; simpl.
  - apply always_ret.
  - apply always_bind; [apply Hb | intros _; exact IH].
Qed.

Lemma always_for_fold {A B : Type} (xs : list A) (acc : B) (body : B -> A -> M B) :
  (forall b x, always R (body b x)) -> always R (for_fold xs acc body).
Proof.
  intros Hb. revert acc. induction xs as [| x rest IH]; intros acc; simpl.
  - apply always_ret.
  - apply always_bind; [apply Hb | intros acc'; apply IH].
Qed.

End Always.

(** Breaks a computation into its steps; what is left are the primitive
    writes to the object. *)
Ltac always_steps Hrefl Htrans :=
  repeat first
    [ apply (always_ret _ Hrefl)
    | apply (always_raise _ Hrefl)
    | apply (always_lift _ Hrefl)
    | apply (always_get_self _ Hrefl)
    | apply (always_bind _ Htrans); [| intros ]
    | apply (always_try_except _ Htrans); [| intros ]
    | apply (always_for_each _ Hrefl Htrans); intros
    | apply (always_for_fold _ Hrefl Htrans); intros
    | match goal with
      | |- always _ (match ?x with _ => _ end) => destruct x
      end
    | progress cbv zeta ].

Lemma log_extends_refl (s : Scheduler) : log_extends s s.
Proof. exists []. symmetry. apply app_nil_r. Qed.

Lemma log_extends_trans (s1 s2 s3 : Scheduler) :
  log_extends s1 s2 -> log_extends s2 s3 -> log_extends s1 s3.
Proof.
  intros [m1 H1] [m2 H2]. exists (m1 ++ m2). rewrite H2, H1. symmetry. apply app_assoc.
Qed.

Lemma model_grows_refl (s : Scheduler) : model_grows s s.
Proof. split; [reflexivity | exists []; symmetry; apply app_nil_r]. Qed.

Lemma model_grows_trans (s1 s2 s3 : Scheduler) :
  model_grows s1 s2 -> model_grows s2 s3 -> model_grows s1 s3.
Proof.
  intros [L1 [m1 H1]] [L2 [m2 H2]]. split; [congruence |].
  exists (m1 ++ m2). rewrite H2, H1. symmetry. apply app_assoc.
Qed.

Lemma model_grows_log_extends (s s' : Scheduler) : model_grows s s' -> log_extends s s'.
Proof. intros [H _]. exists []. rewrite H. symmetry. apply app_nil_r. Qed.

Ltac builder_steps :=
  always_steps model_grows_refl model_grows_trans;
  try (apply always_set_self; intros ?; split; simpl;
       [ reflexivity
       | first [ eexists; reflexivity | exists []; symmetry; apply app_nil_r ] ]).

Ltac log_steps :=
  always_steps log_extends_refl log_extends_trans;
  try (apply always_set_self; intros ?; simpl;
       first [ exists []; symmetry; apply app_nil_r | eexists; reflexivity ]).

Section SchedulerWrites.

Variable db : Database.
Variable clock : Clock.
Variable cp_solve : CpModel -> SolverResponse.

Lemma explain_grows (msg : string) : always model_grows (explain msg).
Proof. unfold explain. builder_steps. Qed.

Lemma set_explanations_grows (msgs : list string) : always model_grows (set_explanations msgs).
Proof. unfold set_explanations. builder_steps. Qed.

Lemma model_Add_grows (c : LinearConstraint) : always model_grows (model_Add c).
Proof. unfold model_Add. builder_steps. Qed.

Lemma model_Maximize_grows (terms : list (Z * Z)) : always model_grows (model_Maximize terms).
Proof. unfold model_Maximize. builder_steps. Qed.

Lemma recovery_constraints_grow (sd : SchedulingData) (c : Z) :
  always model_grows (_add_recovery_constraints clock sd c).
Proof.
  unfold _add_recovery_constraints.
  always_steps model_grows_refl model_grows_trans;
    first [apply explain_grows | apply model_Add_grows].
Qed.

Lemma current_time_constraints_grow (sd : SchedulingData) :
  always model_grows (_add_current_time_constraints clock sd).
Proof.
  unfold _add_current_time_constraints.
  always_steps model_grows_refl model_grows_trans;
    first [apply explain_grows | apply model_Add_grows].
Qed.

Lemma weekly_quota_constraints_grow (sd : SchedulingData) (c : Z) :
  always model_grows (_add_weekly_quota_constraints sd c).
Proof.
  unfold _add_weekly_quota_constraints.
  always_steps model_grows_refl model_grows_trans;
    first [apply explain_grows | apply model_Add_grows].
Qed.

Lemma excluded_slots_constraints_grow (sd : SchedulingData) (excluded : list Z) :
  always model_grows (_add_excluded_slots_constraints sd excluded).
Proof.
  unfold _add_excluded_slots_constraints.
  always_steps model_grows_refl model_grows_trans;
    first [apply explain_grows | apply model_Add_grows].
Qed.

Lemma preference_constraints_grow (sd : SchedulingData) (c : Z) :
  always model_grows (_add_preference_constraints sd c).
Proof.
  unfold _add_preference_constraints.
  always_steps model_grows_refl model_grows_trans; apply explain_grows.
Qed.

Lemma define_objective_grows (sd : SchedulingData) (c : Z) :
  always model_grows (_define_objective clock sd c).
Proof.
  unfold _define_objective.
  always_steps model_grows_refl model_grows_trans; apply model_Maximize_grows.
Qed.

End SchedulerWrites.

(** ** The weekly quota gate *)

Lemma step_bind {A B : Type} (P R Q : Scheduler -> Prop) (m : M A) (k : A -> M B) :
  step P m R -> (forall s, R s -> Q s) -> (forall a, step R (k a) Q) ->
  step P (bind m k) Q.
Proof.
  intros Hm HRQ Hk s HP. unfold bind. specialize (Hm s HP).
  destruct (m s) as [[a | e] s0]; simpl in *.
  - apply Hk, Hm.
  - apply HRQ, Hm.
Qed.

Lemma step_always {A : Type} (Rel : Scheduler -> Scheduler -> Prop)
    (P Q : Scheduler -> Prop) (m : M A) :
  always Rel m -> (forall s s', P s -> Rel s s' -> Q s') -> step P m Q.
Proof. intros Hm H s HP. eapply H; [exact HP | apply Hm]. Qed.

Lemma fold_count (p : Booking.t -> bool) (l : list Booking.t) (n : Z) :
  fold_left (fun n b => if p b then n + 1 else n) l n = n + len (filter p l).
Proof.
  revert n. induction l as [| b l IH]; intros n; simpl.
  - unfold len. simpl. lia.
  - rewrite IH. destruct (p b); unfold len; simpl; lia.
Qed.

Lemma count_between_filter (a b : datetime) (l : list Booking.t) :
  count_between a b l
  = len (filter (fun x => (a <=? Booking.date x) && (Booking.date x <? b)) l).
Proof. unfold count_between. rewrite fold_count. lia. Qed.

Lemma filter_twice {A : Type} (p q : A -> bool) (l : list A) :
  filter q (filter p l) = filter (fun x => p x && q x) l.
Proof.
  induction l as [| x l IH]; simpl; [reflexivity |].
  destruct (p x); simpl; [destruct (q x) |]; rewrite IH; reflexivity.
Qed.

Lemma weekday_range (dt : datetime) : 0 <= weekday dt < 7.
Proof. unfold weekday. apply Z.mod_pos_bound. lia. Qed.

(** When the start date is a midnight, the week the engine counts is the
    calendar week. *)
Lemma current_week_is_calendar_week (db : Database) (client_id : Z) (start_date : datetime) :
  start_date mod us_per_day = 0 ->
  count_between (start_date - delta (weekday start_date) 0)
                (start_date - delta (weekday start_date) 0 + delta 7 0)
                (_get_client_recent_bookings db client_id start_date)
  = calendar_week_bookings db client_id start_date.
Proof.
  intros Hmid.
  rewrite count_between_filter. unfold _get_client_recent_bookings, calendar_week_bookings.
  rewrite filter_twice. f_equal. apply filter_ext. intros b.
  pose proof (weekday_range start_date) as Hwd.
  pose proof (Z.div_mod start_date us_per_day ltac:(unfold us_per_day; lia)) as Hdm.
  rewrite Hmid in Hdm.
  unfold combine_min, date_of, delta in *.
  set (wd := weekday start_date) in *.
  set (q := start_date / us_per_day) in *.
  assert (Hday : us_per_day = 86400000000) by reflexivity.
  assert (Hhour : us_per_hour = 3600000000) by reflexivity.
  destruct (Booking.client_id b =? client_id); simpl; [| reflexivity].
  destruct (String.eqb (Booking.status b) "cancelled"); simpl;
    [rewrite andb_false_r; reflexivity |].
  rewrite andb_true_r.
  replace ((q - wd) * us_per_day) with (start_date - (wd * us_per_day + 0 * us_per_hour))
    by lia.
  destruct (Z.leb_spec (start_date - (wd * us_per_day + 0 * us_per_hour)) (Booking.date b));
    destruct (Z.geb_spec (Booking.date b) (start_date - (7 * us_per_day + 0 * us_per_hour)));
    simpl; try reflexivity; lia.
Qed.

Lemma bind_ret_l {A B : Type} (a : A) (k : A -> M B) : bind (ret a) k = k a.
Proof. reflexivity. Qed.

Lemma log_empty_first_solve (k : Z) (s : Scheduler) : log_empty s -> first_solve_demands k s.
Proof. unfold log_empty, first_solve_demands. intros ->. exact I. Qed.

Lemma model_demands_first_solve (k : Z) (s : Scheduler) :
  model_demands k s -> first_solve_demands k s.
Proof. intros [H _]. apply log_empty_first_solve, H. Qed.

Lemma log_starts_first_solve (k : Z) (s : Scheduler) :
  log_starts_with_demand k s -> first_solve_demands k s.
Proof.
  intros (m & others & Hs & H). unfold first_solve_demands. rewrite Hs. exact H.
Qed.

Lemma step_log_empty {A : Type} (m : M A) :
  always model_grows m -> step log_empty m log_empty.
Proof.
  intros H. eapply step_always; [exact H |].
  unfold log_empty. intros s s' Hs [Hl _]. congruence.
Qed.

Lemma step_model_demands {A : Type} (k : Z) (m : M A) :
  always model_grows m -> step (model_demands k) m (model_demands k).
Proof.
  intros H. eapply step_always; [exact H |].
  intros s s' [Hs (ids & rest & Hc)] [Hl [more Hm]]. split; [congruence |].
  exists ids, (rest ++ more). rewrite Hm, Hc. reflexivity.
Qed.

Lemma step_log_starts {A : Type} (k : Z) (m : M A) :
  always log_extends m -> step (log_starts_with_demand k) m (log_starts_with_demand k).
Proof.
  intros H. eapply step_always; [exact H |].
  intros s s' (m0 & others & Hs & Hd) [more Hm].
  exists m0, (others ++ more). split; [rewrite Hm, Hs; reflexivity | exact Hd].
Qed.

Lemma always_builder_log {A : Type} (m : M A) :
  always model_grows m -> always log_extends m.
Proof. intros H s. apply model_grows_log_extends, H. Qed.

Section QuotaGate.

Variable db : Database.
Variable clock : Clock.
Variable cp_solve : CpModel -> SolverResponse.

Lemma create_model_log (sd : SchedulingData) (k : Z) :
  always log_extends (_create_model sd k).
Proof. unfold _create_model. log_steps. Qed.

Lemma create_model_demands (sd : SchedulingData) (k : Z) :
  step log_empty (_create_model sd k) (model_demands k).
Proof.
  intros s Hs. unfold _create_model, set_self, model_demands. simpl.
  split; [exact Hs |]. eexists. exists []. reflexivity.
Qed.

Lemma solve_model_log : always log_extends (_solve_model cp_solve).
Proof. unfold _solve_model. log_steps. Qed.

Lemma solve_model_demands (k : Z) :
  step (model_demands k) (_solve_model cp_solve) (log_starts_with_demand k).
Proof.
  intros s [Hs Hd].
  unfold log_starts_with_demand, _solve_model, bind, get_self, set_self, ret. simpl.
  exists (model s), []. rewrite Hs. split; [reflexivity | exact Hd].
Qed.

Lemma extract_suggestions_log (sd : SchedulingData) (sr : SolveResult) :
  always log_extends (_extract_suggestions db sd sr).
Proof. unfold _extract_suggestions. log_steps. Qed.

Lemma generate_reasons_log (l : list Suggestion.t) (sd : SchedulingData) (c : Z) :
  always log_extends (_generate_reasons l sd c).
Proof. unfold _generate_reasons. log_steps. Qed.

Lemma analyze_constraint_failures_log (sd : SchedulingData) (a b : Z) :
  always log_extends (_analyze_constraint_failures sd a b).
Proof. unfold _analyze_constraint_failures. log_steps. Qed.

Lemma detailed_failure_analysis_log (c : Z) (sd : SchedulingData) (n : Z) :
  always log_extends (_create_detailed_failure_analysis clock c sd n).
Proof. unfold _create_detailed_failure_analysis. log_steps. Qed.

Lemma partial_attempt_log (c : Z) (sd : SchedulingData) (original k : Z) :
  always log_extends (partial_attempt db clock cp_solve c sd original k).
Proof.
  unfold partial_attempt.
  log_steps;
    first [ apply always_builder_log, preference_constraints_grow
          | apply extract_suggestions_log
          | apply generate_reasons_log ].
Qed.

Lemma partial_loop_log (c : Z) (sd : SchedulingData) (original : Z) (counts : list Z) :
  always log_extends (partial_loop db clock cp_solve c sd original counts).
Proof.
  induction counts as [| k rest IH]; simpl.
  - apply (always_ret _ log_extends_refl).
  - apply (always_bind _ log_extends_trans).
    + apply (always_try_except _ log_extends_trans); [apply partial_attempt_log |].
      intros e. apply (always_ret _ log_extends_refl).
    + intros [r |]; [apply (always_ret _ log_extends_refl) | exact IH].
Qed.

Lemma try_partial_solutions_log (c : Z) (sd : SchedulingData) (original : Z) :
  always log_extends (_try_partial_solutions db clock cp_solve c sd original).
Proof.
  unfold _try_partial_solutions.
  apply (always_bind _ log_extends_trans); [apply partial_loop_log |].
  intros [r |]; [apply (always_ret _ log_extends_refl) | apply detailed_failure_analysis_log].
Qed.

Lemma available_day_names_grows (sd : SchedulingData) :
  always model_grows (available_day_names sd).
Proof. unfold available_day_names. builder_steps. Qed.

End QuotaGate.

(** C4 as stated fails in two ways. With no candidate slot the engine answers
    NO_AVAILABILITY before it looks at the quota. And when the start date is
    not a midnight the engine counts a week that starts on Monday at the start
    date's time of day: asked on Wednesday at 15:00 with bookings on Monday,
    Tuesday and Wednesday at 10:00 of that week and a quota of three, it counts
    two of them, solves, and suggests a fourth session for Saturday. *)
Lemma quota_gate_counterexamples :
  (getattr_sessions_per_week plan_abc 3
   - calendar_week_bookings (studio [] three_bookings) 18 (combine_min wednesday) <= 0
   /\ exists result,
        suggest_optimal_bookings (studio [] three_bookings) (clock_at 15) reference_solve
          18 1 (Some (combine_min wednesday)) 7 None new_scheduler
        = (Return result, new_scheduler)
        /\ solver_status result = "NO_AVAILABILITY")
  /\ (getattr_sessions_per_week plan_abc 3
      - calendar_week_bookings (studio [slot 1 5 10] three_bookings) 18 (now (clock_at 15))
      <= 0
      /\ exists result s',
           suggest_optimal_bookings (studio [slot 1 5 10] three_bookings) (clock_at 15)
             reference_solve 18 1 None 7 None new_scheduler
           = (Return result, s')
           /\ solver_status result = "OPTIMAL"
           /\ map Suggestion.resolved_datetime (suggested_slots result)
              = [at_hour (wednesday + 3) 10]
           /\ List.length (solved_models s') = 1%nat).
Proof.
  split.
  - split; [vm_compute; discriminate |].
    eexists. split; vm_compute; reflexivity.
  - split; [vm_compute; discriminate |].
    eexists. eexists.
    split; [vm_compute; reflexivity |].
    split; [reflexivity |].
    split; vm_compute; reflexivity.
Qed.

(** C4, amended. Let the client have a plan and at least one candidate slot,
    and let the start date be a midnight (a preferred date was given), so that
    the week the engine counts is the calendar week. If the remaining quota is
    at most zero, the call returns the quota-exceeded result with no
    suggestion and leaves the scheduler object as it was: no model is built or
    solved. If the remaining quota is positive and smaller than the requested
    number of sessions, the call behaves exactly as a request for the
    remaining quota, and the first model handed to the solver asks for that
    many slots. *)
Theorem weekly_quota_gate :
  forall (db : Database) (clock : Clock) (cp_solve : CpModel -> SolverResponse)
         (client_id num_sessions : Z) (preferred_date : option datetime)
         (days_flexibility : Z) (excluded_slot_ids : option (list Z))
         (plan : ClientPlan.t) (s : Scheduler),
    let start_date := match preferred_date with Some d => d | None => now clock end in
    let remaining_quota :=
      getattr_sessions_per_week plan 3 - calendar_week_bookings db client_id start_date in
    let run := fun n =>
      suggest_optimal_bookings db clock cp_solve client_id n preferred_date
        days_flexibility excluded_slot_ids s in
    get_client_plan db client_id = Some plan ->
    get_available_slots_for_client db client_id start_date <> [] ->
    start_date mod us_per_day = 0 ->
    (remaining_quota <= 0 ->
     exists result,
       run num_sessions = (Return result, s)
       /\ solver_status result = "WEEKLY_QUOTA_EXCEEDED"
       /\ suggested_slots result = []
       /\ total_suggestions result = 0)
    /\ (0 < remaining_quota < num_sessions ->
        run num_sessions = run remaining_quota
        /\ (solved_models s = [] ->
            first_solve_demands remaining_quota (snd (run num_sessions)))).
Proof.
  intros db clock cp_solve client_id num_sessions preferred_date days_flexibility
         excluded_slot_ids plan s start_date remaining_quota run Hplan Hslots Hmid.
  assert (Hcount : forall sd,
            existing_bookings sd = _get_client_recent_bookings db client_id start_date ->
            fst (time_window sd) = start_date ->
            _count_current_week_bookings sd = calendar_week_bookings db client_id start_date).
  { intros sd Hb Ht. unfold _count_current_week_bookings. rewrite Hb, Ht.
    apply current_week_is_calendar_week, Hmid. }
  assert (Hrun : forall n,
            run n
            = try_except
                (match get_available_slots_for_client db client_id start_date with
                 | [] => ret (_create_no_availability_result clock client_id)
                 | _ =>
                     if remaining_quota <=? 0
                     then ret (_create_quota_exceeded_result db clock client_id
                                 (getattr_sessions_per_week plan 3)
                                 (calendar_week_bookings db client_id start_date))
                     else
                       let sd :=
                         {| sd_client_id := client_id;
                            client_plan := plan;
                            client_preference := get_client_preference db client_id;
                            available_slots :=
                              get_available_slots_for_client db client_id start_date;
                            existing_bookings :=
                              _get_client_recent_bookings db client_id start_date;
                            coach_workload :=
                              _get_coach_workload_data db
                                (ClientPlan.assigned_coach_id plan) start_date
                                (start_date + delta days_flexibility 0);
                            time_window :=
                              (start_date, start_date + delta days_flexibility 0);
                            planning_horizon := days_flexibility |} in
                       let n' := if n >? remaining_quota then remaining_quota else n in
                       (set_explanations [_generate_week_status_message client_id sd] ;;
                        available_day_names sd ;;
                        _create_model sd n' ;;
                        _add_capacity_constraints sd ;;
                        _add_recovery_constraints clock sd client_id ;;
                        _add_coach_availability_constraints sd ;;
                        _add_current_time_constraints clock sd ;;
                        _add_weekly_quota_constraints sd client_id ;;
                        _add_excluded_slots_constraints sd
                          (match excluded_slot_ids with Some l => l | None => [] end) ;;
                        _add_preference_constraints sd client_id ;;
                        _define_objective clock sd client_id ;;
                        solver_result <- _solve_model cp_solve ;;
                        if String.eqb (sr_status solver_result) "NO_SOLUTION"
                        then _try_partial_solutions db clock cp_solve client_id sd n'
                        else
                          suggestions <- _extract_suggestions db sd solver_result ;;
                          s0 <- get_self ;;
                          reasons <- _generate_reasons suggestions sd client_id ;;
                          ret {| client_id := client_id;
                                 suggested_slots := suggestions;
                                 total_suggestions := len suggestions;
                                 solver_status := sr_status solver_result;
                                 result_solve_time_ms := solve_time_ms clock;
                                 confidence_score := sr_confidence solver_result;
                                 constraints_satisfied := constraint_explanations s0;
                                 reasons := reasons |})%py
                 end)
                (fun e => ret (_create_error_result client_id (exn_message e)
                                 (solve_time_ms clock)))
                s).
  { intros n. unfold run, suggest_optimal_bookings, _gather_scheduling_data, datetime_now.
    fold start_date. rewrite Hplan, bind_ret_l. cbv zeta.
    cbn [available_slots client_plan].
    rewrite Hcount by reflexivity. fold remaining_quota.
    destruct (get_available_slots_for_client db client_id start_date); reflexivity. }
  split.
  - intros Hquota. rewrite Hrun.
    destruct (get_available_slots_for_client db client_id start_date) as [| slot0 slots];
      [contradiction |].
    apply Z.leb_le in Hquota. rewrite Hquota.
    eexists. split; [reflexivity |]. repeat split.
  - intros [Hpos Hless]. split.
    + rewrite !Hrun.
      destruct (get_available_slots_for_client db client_id start_date); [reflexivity |].
      destruct (remaining_quota <=? 0); [reflexivity |].
      assert (E1 : (num_sessions >? remaining_quota) = true) by (apply Z.gtb_lt; lia).
      assert (E2 : (remaining_quota >? remaining_quota) = false)
        by (rewrite Z.gtb_ltb; apply Z.ltb_irrefl).
      rewrite E1, E2. reflexivity.
    + intros Hlog. rewrite Hrun.
      destruct (get_available_slots_for_client db client_id start_date) as [| slot0 slots];
        [contradiction |].
      assert (E0 : (remaining_quota <=? 0) = false) by (apply Z.leb_gt; lia).
      assert (E1 : (num_sessions >? remaining_quota) = true) by (apply Z.gtb_lt; lia).
      rewrite E0, E1. cbv zeta.
      match goal with
      | |- first_solve_demands _ (snd (try_except ?m ?h s)) =>
          assert (Hm : step log_empty m (first_solve_demands remaining_quota))
      end.
      { apply step_bind with (R := log_empty);
          [apply step_log_empty, set_explanations_grows
          | apply log_empty_first_solve | intros _].
        apply step_bind with (R := log_empty);
          [apply step_log_empty, available_day_names_grows
          | apply log_empty_first_solve | intros _].
        apply step_bind with (R := model_demands remaining_quota);
          [apply create_model_demands | apply model_demands_first_solve | intros _].
        apply step_bind with (R := model_demands remaining_quota);
          [apply step_model_demands, explain_grows
          | apply model_demands_first_solve | intros _].
        apply step_bind with (R := model_demands remaining_quota);
          [apply step_model_demands, recovery_constraints_grow
          | apply model_demands_first_solve | intros _].
        apply step_bind with (R := model_demands remaining_quota);
          [apply step_model_demands, explain_grows
          | apply model_demands_first_solve | intros _].
        apply step_bind with (R := model_demands remaining_quota);
          [apply step_model_demands, current_time_constraints_grow
          | apply model_demands_first_solve | intros _].
        apply step_bind with (R := model_demands remaining_quota);
          [apply step_model_demands, weekly_quota_constraints_grow
          | apply model_demands_first_solve | intros _].
        apply step_bind with (R := model_demands remaining_quota);
          [apply step_model_demands, excluded_slots_constraints_grow
          | apply model_demands_first_solve | intros _].
        apply step_bind with (R := model_demands remaining_quota);
          [apply step_model_demands, preference_constraints_grow
          | apply model_demands_first_solve | intros _].
        apply step_bind with (R := model_demands remaining_quota);
          [apply step_model_demands, define_objective_grows
          | apply model_demands_first_solve | intros _].
        apply step_bind with (R := log_starts_with_demand remaining_quota);
          [apply solve_model_demands | apply log_starts_first_solve | intros solver_result].
        intros s1 Hs1. apply log_starts_first_solve. revert s1 Hs1.
        apply step_log_starts.
        destruct (String.eqb _ _); [apply try_partial_solutions_log |].
        apply (always_bind _ log_extends_trans); [apply extract_suggestions_log |].
        intros suggestions.
        apply (always_bind _ log_extends_trans);
          [apply (always_get_self _ log_extends_refl) |].
        intros s0.
        apply (always_bind _ log_extends_trans); [apply generate_reasons_log |].
        intros reasons. apply (always_ret _ log_extends_refl). }
      specialize (Hm s Hlog). unfold try_except.
      match goal with
      | H : first_solve_demands _ (snd (?m s)) |- _ =>
          destruct (m s) as [[r | e] s1]; simpl in *; exact H
      end.
Qed.

(** The quota gate at work: with the three bookings of the week the request made
    for Wednesday 2025-10-22 is refused; with two of them a request for three
    sessions is solved as a request for one. *)
Lemma weekly_quota_gate_witness :
  let exhausted := studio [slot 1 5 10] three_bookings in
  let one_left :=
    studio [slot 1 5 10] [booked_at (wednesday - 2) 10; booked_at (wednesday - 1) 10] in
  let run := fun db n =>
    suggest_optimal_bookings db (clock_at 15) reference_solve 18 n
      (Some (combine_min wednesday)) 7 None new_scheduler in
  (exists result,
     run exhausted 1 = (Return result, new_scheduler)
     /\ solver_status result = "WEEKLY_QUOTA_EXCEEDED"
     /\ suggested_slots result = []
     /\ total_suggestions result = 0)
  /\ run one_left 3 = run one_left 1
  /\ first_solve_demands 1 (snd (run one_left 3)).
Proof.
  cbv zeta. split.
  - destruct (weekly_quota_gate (studio [slot 1 5 10] three_bookings) (clock_at 15)
                reference_solve 18 1 (Some (combine_min wednesday)) 7 None plan_abc
                new_scheduler) as [Hgate _].
    + reflexivity.
    + discriminate.
    + reflexivity.
    + apply Hgate. vm_compute. discriminate.
  - destruct (weekly_quota_gate
                (studio [slot 1 5 10]
                   [booked_at (wednesday - 2) 10; booked_at (wednesday - 1) 10])
                (clock_at 15) reference_solve 18 3 (Some (combine_min wednesday)) 7 None
                plan_abc new_scheduler) as [_ Hcap].
    + reflexivity.
    + discriminate.
    + reflexivity.
    + destruct Hcap as [Hsame Hfirst]; [split; reflexivity |].
      split; [exact Hsame | apply Hfirst; reflexivity].
Defined.

(** ** What a correct answer cannot select *)

Lemma hoare_ret {A : Type} (P : Scheduler -> Prop) (a : A) (Q : A -> Scheduler -> Prop) :
  (forall s, P s -> Q a s) -> hoare P (ret a) Q.
Proof. intros H s HP. apply H, HP. Qed.

Lemma hoare_bind {A B : Type} (P : Scheduler -> Prop) (R : A -> Scheduler -> Prop)
    (Q : B -> Scheduler -> Prop) (m : M A) (k : A -> M B) :
  hoare P m R -> (forall a, hoare (R a) (k a) Q) -> hoare P (bind m k) Q.
Proof.
  intros Hm Hk s HP. unfold bind. specialize (Hm s HP).
  destruct (m s) as [[a | e] s0]; [apply Hk, Hm | exact I].
Qed.

Lemma hoare_any {A : Type} (P : Scheduler -> Prop) (m : M A) :
  hoare P m (fun _ _ => True).
Proof. intros s _. destruct (m s) as [[a | e] s0]; exact I. Qed.

Lemma hoare_always {A : Type} (Rel : Scheduler -> Scheduler -> Prop)
    (P Q : Scheduler -> Prop) (m : M A) :
  always Rel m -> (forall s s', P s -> Rel s s' -> Q s') -> hoare P m (fun _ => Q).
Proof.
  intros Hm H s HP. specialize (Hm s).
  destruct (m s) as [[a | e] s0]; [| exact I]. eapply H; [exact HP | exact Hm].
Qed.

Lemma hoare_returns {A : Type} (P : Scheduler -> Prop) (m : M A) (Q : A -> Prop) :
  returns m Q -> hoare P m (fun a _ => Q a).
Proof.
  intros H s _. destruct (m s) as [[a | e] s0] eqn:E; [| exact I]. eapply H; exact E.
Qed.

Lemma hoare_weaken {A : Type} (P P' : Scheduler -> Prop) (Q Q' : A -> Scheduler -> Prop)
    (m : M A) :
  (forall s, P' s -> P s) -> hoare P m Q -> (forall a s, Q a s -> Q' a s) ->
  hoare P' m Q'.
Proof.
  intros HP Hm HQ s Hs. specialize (Hm s (HP s Hs)).
  destruct (m s) as [[a | e] s0]; [apply HQ, Hm | exact I].
Qed.

Lemma hoare_and {A : Type} (P1 P2 : Scheduler -> Prop) (Q1 Q2 : A -> Scheduler -> Prop)
    (m : M A) :
  hoare P1 m Q1 -> hoare P2 m Q2 ->
  hoare (fun s => P1 s /\ P2 s) m (fun a s => Q1 a s /\ Q2 a s).
Proof.
  intros H1 H2 s [HP1 HP2]. specialize (H1 s HP1). specialize (H2 s HP2).
  destruct (m s) as [[a | e] s0]; [split; assumption | exact I].
Qed.

Lemma hoare_get_self (P : Scheduler -> Prop) :
  hoare P get_self (fun a s => a = s /\ P s).
Proof. intros s HP. split; [reflexivity | exact HP]. Qed.

Lemma hoare_try_except {A : Type} (P : Scheduler -> Prop) (Q : A -> Scheduler -> Prop)
    (m : M A) (h : exn -> M A) :
  hoare P m Q -> (forall e, hoare (fun _ => True) (h e) Q) -> hoare P (try_except m h) Q.
Proof.
  intros Hm Hh s HP. unfold try_except. specialize (Hm s HP).
  destruct (m s) as [[a | e] s0]; [exact Hm | apply (Hh e s0 I)].
Qed.

Lemma hoare_pure {A : Type} (F : Prop) (Q : A -> Scheduler -> Prop) (m : M A) :
  (F -> hoare (fun _ => True) m Q) -> hoare (fun _ => F) m Q.
Proof. intros H s HF. apply (H HF s I). Qed.

Lemma hoare_pure_and {A : Type} (F : Prop) (P : Scheduler -> Prop)
    (Q : A -> Scheduler -> Prop) (m : M A) :
  (F -> hoare P m Q) -> hoare (fun s => P s /\ F) m Q.
Proof. intros H s [HP HF]. apply (H HF s HP). Qed.

Lemma hoare_exists {A X : Type} (P : X -> Scheduler -> Prop) (Q : A -> Scheduler -> Prop)
    (m : M A) :
  (forall x, hoare (P x) m Q) -> hoare (fun s => exists x, P x s) m Q.
Proof. intros H s [x Hx]. apply (H x s Hx). Qed.

(** A [for] loop with an invariant on the elements done, the local variable
    and the object. *)
Lemma hoare_for_fold {A B : Type} (xs : list A) (body : B -> A -> M B)
    (Inv : list A -> B -> Scheduler -> Prop) :
  (forall done x acc, In x xs ->
     hoare (Inv done acc) (body acc x) (fun acc' => Inv (done ++ [x]) acc')) ->
  forall acc0, hoare (Inv [] acc0) (for_fold xs acc0 body) (fun acc => Inv xs acc).
Proof.
  intros Hbody.
  assert (H : forall rest done acc0, incl rest xs ->
            hoare (Inv done acc0) (for_fold rest acc0 body)
                  (fun acc => Inv (done ++ rest) acc)).
  { induction rest as [| x rest IH]; intros done acc0 Hincl; simpl.
    - apply hoare_ret. intros s Hs. rewrite app_nil_r. exact Hs.
    - eapply hoare_bind; [apply Hbody, Hincl; left; reflexivity |].
      intros acc'. eapply hoare_weaken; [| apply (IH (done ++ [x]) acc') |].
      + intros s Hs. exact Hs.
      + intros y Hy. apply Hincl. right. exact Hy.
      + intros a s Hs. rewrite <- app_assoc in Hs. exact Hs. }
  intros acc0. apply (H xs [] acc0), incl_refl.
Qed.

Lemma hoare_for_each {A : Type} (xs : list A) (body : A -> M unit)
    (Inv : list A -> Scheduler -> Prop) :
  (forall done x, In x xs -> hoare (Inv done) (body x) (fun _ => Inv (done ++ [x]))) ->
  hoare (Inv []) (for_each xs body) (fun _ => Inv xs).
Proof.
  intros Hbody.
  assert (H : forall rest done, incl rest xs ->
            hoare (Inv done) (for_each rest body) (fun _ => Inv (done ++ rest))).
  { induction rest as [| x rest IH]; intros done Hincl; simpl.
    - apply hoare_ret. intros s Hs. rewrite app_nil_r. exact Hs.
    - eapply hoare_bind; [apply Hbody, Hincl; left; reflexivity |].
      intros u. eapply hoare_weaken; [| apply (IH (done ++ [x])) |].
      + intros s Hs. exact Hs.
      + intros y Hy. apply Hincl. right. exact Hy.
      + intros a s Hs. rewrite <- app_assoc in Hs. exact Hs. }
  apply (H xs []), incl_refl.
Qed.

Lemma forced_grows (P : ScheduleSlot.t -> Prop) (slots : list ScheduleSlot.t)
    (s s' : Scheduler) :
  forced P slots s -> model_grows s s' -> forced P slots s'.
Proof.
  intros H [_ [more Hm]] x Hx HP. rewrite Hm. apply in_or_app. left. apply H; assumption.
Qed.

Lemma forced_added (P : ScheduleSlot.t -> Prop) (slots : list ScheduleSlot.t)
    (c : LinearConstraint) (s : Scheduler) :
  forced P slots s -> forced P slots (snd (model_Add c s)).
Proof.
  intros H. eapply forced_grows; [exact H | apply model_Add_grows].
Qed.

Lemma forced_or (P Q : ScheduleSlot.t -> Prop) (slots : list ScheduleSlot.t) (s : Scheduler) :
  forced P slots s -> forced Q slots s -> forced (fun x => P x \/ Q x) slots s.
Proof. intros HP HQ x Hx [H | H]; [apply HP | apply HQ]; assumption. Qed.

Lemma forced_weaken (P Q : ScheduleSlot.t -> Prop) (slots : list ScheduleSlot.t)
    (s : Scheduler) :
  (forall x, Q x -> P x) -> forced P slots s -> forced Q slots s.
Proof. intros H HP x Hx HQ. apply HP; [exact Hx | apply H, HQ]. Qed.

(** A builder that establishes [Q] keeps what was forced before it. *)
Lemma hoare_builder {A : Type} (P Q : ScheduleSlot.t -> Prop) (slots : list ScheduleSlot.t)
    (m : M A) :
  always model_grows m ->
  hoare (fun _ => True) m (fun _ => forced Q slots) ->
  hoare (forced P slots) m (fun _ => forced (fun x => P x \/ Q x) slots).
Proof.
  intros Hgrow HQ s HP. specialize (Hgrow s). specialize (HQ s I).
  destruct (m s) as [[a | e] s0]; [| exact I]. simpl in Hgrow.
  apply forced_or; [eapply forced_grows; eassumption | exact HQ].
Qed.

(** A builder that establishes nothing keeps what was forced before it. *)
Lemma hoare_keeps {A : Type} (P : ScheduleSlot.t -> Prop) (slots : list ScheduleSlot.t)
    (m : M A) :
  always model_grows m -> hoare (forced P slots) m (fun _ => forced P slots).
Proof.
  intros Hgrow. eapply hoare_always; [exact Hgrow |].
  intros s s' HP Hg. eapply forced_grows; eassumption.
Qed.

Lemma In_firstn {A : Type} (n : nat) (l : list A) (x : A) : In x (firstn n l) -> In x l.
Proof.
  revert l. induction n as [| n IH]; intros [| y l]; simpl; try tauto.
  intros [H | H]; [left; exact H | right; apply IH, H].
Qed.

Lemma In_insert_suggestion (x y : Suggestion.t) (l : list Suggestion.t) :
  In x (insert_suggestion y l) -> x = y \/ In x l.
Proof.
  induction l as [| z l IH]; simpl.
  - intros [H | []]. left. symmetry. exact H.
  - destruct (suggestion_key_le y z); simpl.
    + intros [H | H]; [left; symmetry; exact H | right; exact H].
    + intros [H | H]; [right; left; exact H |].
      destruct (IH H) as [E | Hin]; [left; exact E | right; right; exact Hin].
Qed.

Lemma In_sort_suggestions (x : Suggestion.t) (l : list Suggestion.t) :
  In x (sort_suggestions l) -> In x l.
Proof.
  induction l as [| y l IH]; simpl; [tauto |].
  intros H. apply In_insert_suggestion in H. destruct H as [-> | H]; [left; reflexivity |].
  right. apply IH, H.
Qed.

Section Builders.

Variable db : Database.
Variable clock : Clock.
Variable cp_solve : CpModel -> SolverResponse.

Lemma excluded_slots_constraints_force (sd : SchedulingData) (excluded : list Z) :
  hoare (fun _ => True) (_add_excluded_slots_constraints sd excluded)
        (fun _ => forced (is_excluded excluded) (available_slots sd)).
Proof.
  unfold _add_excluded_slots_constraints.
  destruct excluded as [| e0 excluded'].
  - apply hoare_ret. intros s _ x _ H. discriminate H.
  - set (excluded := e0 :: excluded').
    eapply hoare_bind with
      (R := fun _ => forced (is_excluded excluded) (available_slots sd)).
    + eapply hoare_weaken;
        [| apply hoare_for_fold with
             (Inv := fun done (_ : Z) s => forced (is_excluded excluded) done s) |].
      * intros s _ x [].
      * intros done x count Hx s Hinv.
        destruct (contains (ScheduleSlot.id x) excluded) eqn:E.
        -- unfold bind, ret. simpl. intros y Hy HPy. simpl.
           apply in_app_or in Hy. destruct Hy as [Hy | [<- | []]].
           ++ apply in_or_app. left. apply Hinv; assumption.
           ++ apply in_or_app. right. left. reflexivity.
        -- simpl. intros y Hy HPy. apply in_app_or in Hy.
           destruct Hy as [Hy | [<- | []]]; [apply Hinv; assumption |].
           unfold is_excluded in HPy. congruence.
      * intros count s H. exact H.
    + intros count. destruct (count >? 0).
      * apply hoare_keeps, explain_grows.
      * apply hoare_ret. intros s H. exact H.
Qed.

Lemma current_time_constraints_force (sd : SchedulingData) :
  hoare (fun _ => True) (_add_current_time_constraints clock sd)
        (fun _ => forced (not_after (now clock) sd) (available_slots sd)).
Proof.
  unfold _add_current_time_constraints, datetime_now. cbv zeta.
  eapply hoare_bind with
    (R := fun _ => forced (not_after (now clock) sd) (available_slots sd)).
  - eapply hoare_weaken;
      [| apply hoare_for_fold with
           (Inv := fun done (_ : Z) s => forced (not_after (now clock) sd) done s) |].
    + intros s _ x [].
    + intros done x count Hx s Hinv. unfold bind at 1, lift.
      destruct (current_time_slot_datetime (now clock) sd x) as [dt | e] eqn:E;
        [| exact I].
      simpl. destruct (dt <=? now clock) eqn:Ecmp.
      * unfold bind, ret. simpl. intros y Hy HPy. simpl.
        apply in_app_or in Hy. destruct Hy as [Hy | [<- | []]].
        -- apply in_or_app. left. apply Hinv; assumption.
        -- apply in_or_app. right. left. reflexivity.
      * simpl. intros y Hy HPy. apply in_app_or in Hy.
        destruct Hy as [Hy | [<- | []]]; [apply Hinv; assumption |].
        unfold not_after in HPy. rewrite E in HPy. apply Z.leb_gt in Ecmp. lia.
    + intros count s H. exact H.
  - intros count. apply hoare_keeps, explain_grows.
Qed.

Lemma recovery_constraints_force (sd : SchedulingData) (client_id : Z) :
  hoare (fun _ => True) (_add_recovery_constraints clock sd client_id)
        (fun _ => forced (in_recovery_window (now clock) sd (existing_bookings sd))
                         (available_slots sd)).
Proof.
  unfold _add_recovery_constraints, datetime_now. cbv zeta.
  eapply hoare_bind with
    (R := fun _ => forced (in_recovery_window (now clock) sd (existing_bookings sd))
                          (available_slots sd)).
  - eapply hoare_weaken;
      [| apply hoare_for_each with
           (Inv := fun done s =>
                     forced (in_recovery_window (now clock) sd done) (available_slots sd) s)
       |].
    + intros s _ x _ (b & [] & _).
    + intros done b Hb.
      destruct (days_of (now clock - Booking.date b) >? 7) eqn:Eold.
      * apply hoare_ret. intros s Hinv x Hx (b' & Hb' & Hrecent & Hwin).
        apply in_app_or in Hb'. destruct Hb' as [Hb' | [<- | []]].
        -- apply Hinv; [exact Hx | exists b'; auto].
        -- apply Z.gtb_lt in Eold. lia.
      * eapply hoare_weaken;
          [| apply hoare_for_each with
               (Inv := fun done_slots s =>
                         forced (in_recovery_window (now clock) sd done)
                                (available_slots sd) s
                         /\ forced (in_window_of (now clock) sd b) done_slots s)
           |].
        -- intros s Hs. split; [exact Hs | intros x []].
        -- intros done_slots x Hx s [Houter Hinner]. unfold bind at 1, lift.
           destruct (recovery_slot_datetime (now clock) sd x) as [dt | e] eqn:E;
             [| exact I].
           simpl. destruct (_ && _) eqn:Ecmp.
           ++ split.
              ** apply forced_added, Houter.
              ** intros y Hy HPy. simpl. apply in_app_or in Hy.
                 destruct Hy as [Hy | [<- | []]].
                 --- apply in_or_app. left. apply Hinner; assumption.
                 --- apply in_or_app. right. left. reflexivity.
           ++ split; [exact Houter |].
              intros y Hy HPy. apply in_app_or in Hy.
              destruct Hy as [Hy | [<- | []]]; [apply Hinner; assumption |].
              unfold in_window_of in HPy. rewrite E in HPy.
              apply andb_false_iff in Ecmp. destruct Ecmp as [Ec | Ec];
                apply Z.leb_gt in Ec; lia.
        -- intros u s [Houter Hinner] x Hx (b' & Hb' & Hrecent & Hwin).
           apply in_app_or in Hb'. destruct Hb' as [Hb' | [<- | []]].
           ++ apply Houter; [exact Hx | exists b'; auto].
           ++ apply Hinner; assumption.
    + intros u s H. exact H.
  - intros u. apply hoare_keeps.
    always_steps model_grows_refl model_grows_trans;
      first [apply explain_grows | apply model_Add_grows].
Qed.

Lemma solve_model_answered (P : ScheduleSlot.t -> Prop) (slots : list ScheduleSlot.t) :
  hoare (forced P slots) (_solve_model cp_solve) (fun _ => answered cp_solve P slots).
Proof.
  intros s Hs. unfold _solve_model, bind, get_self, set_self, ret. simpl.
  exists (model s). split; [reflexivity | exact Hs].
Qed.

Lemma extract_suggestions_selected (sd : SchedulingData) (sr : SolveResult)
    (response : SolverResponse) :
  hoare (fun s => solver s = Some response) (_extract_suggestions db sd sr)
        (fun l _ => forall g, In g l -> selected_by response sd g).
Proof.
  unfold _extract_suggestions.
  destruct (_ || _); [apply hoare_ret; intros s _ g [] |].
  eapply hoare_bind with (R := fun l s => forall g, In g l -> selected_by response sd g).
  - eapply hoare_weaken;
      [| apply hoare_for_fold with
           (Inv := fun (_ : list ScheduleSlot.t) acc s =>
                     solver s = Some response
                     /\ forall g, In g acc -> selected_by response sd g)
       |].
    + intros s Hs. split; [exact Hs | intros g []].
    + intros done x acc Hx.
      eapply hoare_bind; [apply hoare_get_self |]. intros s0. cbv beta.
      intros s [-> [Hsolver Hacc]]. rewrite Hsolver.
      unfold bind, lift, solver_Value.
      destruct (lookup_value (ScheduleSlot.id x) (solution response)) as [b |] eqn:E;
        [| exact I].
      destruct b; simpl; (split; [exact Hsolver |]); [| exact Hacc].
      intros g Hg. unfold list_append in Hg. apply in_app_or in Hg.
      destruct Hg as [Hg | [<- | []]]; [apply Hacc, Hg |].
      exists x. split; [exact Hx |]. split; [| exact E].
      repeat split.
    + intros l s [_ H]. exact H.
  - intros l. apply hoare_ret. intros s Hl g Hg.
    apply Hl, In_sort_suggestions, (In_firstn _ _ _ Hg).
Qed.

Hypothesis solver_ok : answers_correctly cp_solve.

(** A candidate that the model forces to zero is not selected by a correct
    answer. *)
Lemma forced_not_selected (m : CpModel) (P : ScheduleSlot.t -> Prop) (sd : SchedulingData)
    (g : Suggestion.t) :
  forced_in m P (available_slots sd) ->
  selected_by (cp_solve m) sd g ->
  exists x, In x (available_slots sd) /\ suggestion_of sd x g /\ ~ P x.
Proof.
  intros Hforced (x & Hx & Hof & Hsel). exists x. split; [exact Hx |]. split; [exact Hof |].
  intros HP. specialize (Hforced x Hx HP). specialize (solver_ok m).
  assert (Hsat : satisfies (solution (cp_solve m)) m = true -> False).
  { intros Hsat. unfold satisfies in Hsat. rewrite forallb_forall in Hsat.
    specialize (Hsat _ Hforced). simpl in Hsat. unfold value_in in Hsat.
    rewrite Hsel in Hsat. discriminate Hsat. }
  destruct (status (cp_solve m));
    first [ exact (Hsat solver_ok) | rewrite solver_ok in Hsel; discriminate Hsel ].
Qed.

Lemma extract_suggestions_outside (P : ScheduleSlot.t -> Prop) (sd : SchedulingData)
    (sr : SolveResult) :
  hoare (answered cp_solve P (available_slots sd)) (_extract_suggestions db sd sr)
        (fun l _ => chosen_outside P sd l).
Proof.
  unfold answered. apply hoare_exists. intros m. apply hoare_pure_and. intros Hforced.
  eapply hoare_weaken; [| apply (extract_suggestions_selected sd sr) |].
  - intros s Hs. exact Hs.
  - cbv beta. intros l s Hl g Hg. exact (forced_not_selected m P sd g Hforced (Hl g Hg)).
Qed.

End Builders.

Lemma chosen_outside_nil (P : ScheduleSlot.t -> Prop) (sd : SchedulingData) :
  chosen_outside P sd [].
Proof. intros g []. Qed.

Lemma chosen_outside_weaken (P Q : ScheduleSlot.t -> Prop) (sd : SchedulingData)
    (l : list Suggestion.t) :
  (forall x, Q x -> P x) -> chosen_outside P sd l -> chosen_outside Q sd l.
Proof.
  intros H Hl g Hg. destruct (Hl g Hg) as (x & Hx & Hof & Hn).
  exists x. split; [exact Hx |]. split; [exact Hof |]. intros HQ. apply Hn, H, HQ.
Qed.

Lemma suggestions_outside_nil (P : SchedulingData -> ScheduleSlot.t -> Prop)
    (gathered : outcome SchedulingData) :
  suggestions_outside P gathered [].
Proof. destruct gathered; [apply chosen_outside_nil | reflexivity]. Qed.

Lemma range_down_nil (n : Z) : n <= 0 -> range_down n = [].
Proof.
  intros H. unfold range_down. replace (Z.to_nat n) with 0%nat by lia. reflexivity.
Qed.

Section Paths.

Variable db : Database.
Variable clock : Clock.
Variable cp_solve : CpModel -> SolverResponse.
Hypothesis solver_ok : answers_correctly cp_solve.

Lemma detailed_failure_analysis_empty (client_id : Z) (sd : SchedulingData) (n : Z) :
  returns (_create_detailed_failure_analysis clock client_id sd n)
          (fun r => suggested_slots r = []).
Proof.
  unfold _create_detailed_failure_analysis.
  do 2 (apply returns_bind; intros). apply returns_ret. reflexivity.
Qed.

Lemma gather_scheduling_data_pure (client_id : Z) (preferred_date : option datetime)
    (days_flexibility : Z) (s : Scheduler) :
  _gather_scheduling_data db clock client_id preferred_date days_flexibility s
  = (fst (_gather_scheduling_data db clock client_id preferred_date days_flexibility
            new_scheduler), s).
Proof.
  unfold _gather_scheduling_data. cbv zeta. destruct (get_client_plan db client_id); reflexivity.
Qed.

Lemma gather_scheduling_data_result (client_id : Z) (preferred_date : option datetime)
    (days_flexibility : Z) :
  hoare (fun _ => True)
        (_gather_scheduling_data db clock client_id preferred_date days_flexibility)
        (fun sd _ =>
           fst (_gather_scheduling_data db clock client_id preferred_date days_flexibility
                  new_scheduler) = Return sd).
Proof.
  intros s _. rewrite gather_scheduling_data_pure.
  destruct (fst _) as [sd | e]; [reflexivity | exact I].
Qed.

Lemma partial_attempt_outside (client_id : Z) (sd : SchedulingData) (original k : Z) :
  hoare (fun _ => True) (partial_attempt db clock cp_solve client_id sd original k)
        (fun r _ => match r with
                    | Some result =>
                        chosen_outside (unavailable (now clock) sd) sd (suggested_slots result)
                    | None => True
                    end).
Proof.
  unfold partial_attempt.
  do 3 (eapply hoare_bind; [apply hoare_any |]; intros ?; cbv beta).
  eapply hoare_bind; [apply recovery_constraints_force |]. intros ?. cbv beta.
  eapply hoare_bind; [apply hoare_keeps, explain_grows |]. intros ?. cbv beta.
  eapply hoare_bind.
  { apply hoare_builder;
      [apply current_time_constraints_grow | apply current_time_constraints_force]. }
  intros ?. cbv beta.
  eapply hoare_bind; [apply hoare_keeps, preference_constraints_grow |]. intros ?. cbv beta.
  eapply hoare_bind; [apply hoare_keeps, define_objective_grows |]. intros ?. cbv beta.
  eapply hoare_bind; [apply solve_model_answered |]. intros solver_result.
  destruct (_ || _); [| apply hoare_ret; intros s _; exact I].
  eapply hoare_bind; [apply (extract_suggestions_outside db cp_solve solver_ok) |].
  intros suggestions. cbv beta. apply hoare_pure. intros Hl.
  eapply hoare_bind; [apply hoare_any |]. intros ?. cbv zeta.
  do 2 (eapply hoare_bind; [apply hoare_any |]; intros ?).
  apply hoare_ret. intros s _. exact Hl.
Qed.

Lemma partial_loop_outside (client_id : Z) (sd : SchedulingData) (original : Z)
    (counts : list Z) :
  hoare (fun _ => True) (partial_loop db clock cp_solve client_id sd original counts)
        (fun r _ => match r with
                    | Some result =>
                        chosen_outside (unavailable (now clock) sd) sd (suggested_slots result)
                    | None => True
                    end).
Proof.
  induction counts as [| k rest IH]; simpl.
  - apply hoare_ret. intros s _. exact I.
  - eapply hoare_bind.
    + apply hoare_try_except; [apply partial_attempt_outside |].
      intros e. apply hoare_ret. intros s _. exact I.
    + intros [result |].
      * apply hoare_ret. intros s H. exact H.
      * eapply hoare_weaken; [| exact IH |].
        -- intros s _. exact I.
        -- intros r s H. exact H.
Qed.

Lemma try_partial_solutions_outside (client_id : Z) (sd : SchedulingData) (original : Z) :
  hoare (fun _ => True) (_try_partial_solutions db clock cp_solve client_id sd original)
        (fun r _ => chosen_outside (unavailable (now clock) sd) sd (suggested_slots r)
                    /\ (original <= 1 -> suggested_slots r = [])).
Proof.
  unfold _try_partial_solutions.
  destruct (Z_le_gt_dec original 1) as [Hle | Hgt].
  - rewrite range_down_nil by lia. cbn [partial_loop]. rewrite bind_ret_l.
    eapply hoare_weaken; [| apply hoare_returns, detailed_failure_analysis_empty |].
    + intros s H. exact H.
    + cbv beta. intros r s Hr. rewrite Hr. split; [apply chosen_outside_nil | reflexivity].
  - eapply hoare_bind; [apply partial_loop_outside |].
    intros [result |].
    + apply hoare_ret. intros s H. split; [exact H | lia].
    + eapply hoare_weaken; [| apply hoare_returns, detailed_failure_analysis_empty |].
      * intros s _. exact I.
      * cbv beta. intros r s Hr. rewrite Hr. split; [apply chosen_outside_nil | reflexivity].
Qed.

(** Whatever the path, a suggestion stands for a candidate that the request
    does not rule out. *)
Lemma suggest_optimal_bookings_outside (client_id num_sessions : Z)
    (preferred_date : option datetime) (days_flexibility : Z)
    (excluded_slot_ids : option (list Z)) :
  hoare (fun _ => True)
        (suggest_optimal_bookings db clock cp_solve client_id num_sessions preferred_date
           days_flexibility excluded_slot_ids)
        (fun r _ =>
           suggestions_outside
             (ruled_out (now clock)
                (match excluded_slot_ids with Some l => l | None => [] end) num_sessions)
             (fst (_gather_scheduling_data db clock client_id preferred_date days_flexibility
                     new_scheduler))
             (suggested_slots r)).
Proof.
  unfold suggest_optimal_bookings.
  apply hoare_try_except;
    [| intros e; apply hoare_ret; intros s _; apply suggestions_outside_nil].
  eapply hoare_bind; [apply gather_scheduling_data_result |]. intros sd. cbv beta.
  apply hoare_pure. intros Hsd. rewrite Hsd. unfold suggestions_outside.
  destruct (available_slots sd) as [| slot0 slots] eqn:Eslots;
    [apply hoare_ret; intros s _; apply chosen_outside_nil |].
  destruct (_ <=? 0) eqn:Equota; [apply hoare_ret; intros s _; apply chosen_outside_nil |].
  cbv zeta.
  set (excluded := match excluded_slot_ids with Some l => l | None => [] end).
  set (n' := if num_sessions >? _ then _ else num_sessions).
  assert (Hn' : num_sessions <= 1 -> n' <= 1).
  { subst n'. apply Z.leb_gt in Equota. destruct (num_sessions >? _) eqn:E; [| tauto].
    apply Z.gtb_lt in E. lia. }
  do 4 (eapply hoare_bind; [apply hoare_any |]; intros ?; cbv beta).
  eapply hoare_bind; [apply recovery_constraints_force |]. intros ?. cbv beta.
  eapply hoare_bind; [apply hoare_keeps, explain_grows |]. intros ?. cbv beta.
  eapply hoare_bind.
  { apply hoare_builder;
      [apply current_time_constraints_grow | apply current_time_constraints_force]. }
  intros ?. cbv beta.
  eapply hoare_bind; [apply hoare_keeps, weekly_quota_constraints_grow |]. intros ?. cbv beta.
  eapply hoare_bind.
  { apply hoare_builder;
      [apply excluded_slots_constraints_grow | apply excluded_slots_constraints_force]. }
  intros ?. cbv beta.
  eapply hoare_bind; [apply hoare_keeps, preference_constraints_grow |]. intros ?. cbv beta.
  eapply hoare_bind; [apply hoare_keeps, define_objective_grows |]. intros ?. cbv beta.
  eapply hoare_bind; [apply solve_model_answered |]. intros solver_result.
  destruct (String.eqb _ _).
  - eapply hoare_weaken; [| apply try_partial_solutions_outside |].
    + intros s _. exact I.
    + cbv beta. intros r s [Hout Hnone].
      destruct (Z_le_gt_dec num_sessions 1) as [Hle | Hgt].
      * rewrite (Hnone (Hn' Hle)). apply chosen_outside_nil.
      * eapply chosen_outside_weaken; [| exact Hout].
        intros x [H | [H _]]; [exact H | lia].
  - eapply hoare_bind; [apply (extract_suggestions_outside db cp_solve solver_ok) |].
    intros suggestions. cbv beta. apply hoare_pure. intros Hl.
    do 2 (eapply hoare_bind; [apply hoare_any |]; intros ?).
    apply hoare_ret. intros s _. simpl.
    eapply chosen_outside_weaken; [| exact Hl].
    intros x [H | [_ H]]; [left; exact H | right; exact H].
Qed.

End Paths.

Lemma best_assignment_In (m : CpModel) (l : list (list (Z * bool))) (a : list (Z * bool)) :
  best_assignment m l = Some a -> In a l.
Proof.
  revert a. induction l as [| b l IH]; simpl; intros a H; [discriminate H |].
  destruct (best_assignment m l) as [c |].
  - destruct (objective_of b m <? objective_of c m); inversion H; subst.
    + right. apply IH. reflexivity.
    + left. reflexivity.
  - inversion H. left. reflexivity.
Qed.

(** The reference solver is one of the solvers the assumption allows. *)
Lemma reference_solve_correct : answers_correctly reference_solve.
Proof.
  intros m. unfold reference_solve.
  destruct (best_assignment m _) as [a |] eqn:E; simpl; [| reflexivity].
  apply best_assignment_In, filter_In in E. apply E.
Qed.

(** The recovery check against bookings and the past-time check resolve a
    slot as the rule does, when they resolve it at all. *)
Lemma current_time_slot_datetime_by_rule (current_time : datetime) (sd : SchedulingData)
    (x : ScheduleSlot.t) (slot_datetime : datetime) :
  current_time_slot_datetime current_time sd x = Return slot_datetime ->
  slot_datetime = resolved_by_rule (fst (time_window sd)) current_time x.
Proof.
  unfold current_time_slot_datetime, resolved_by_rule, replace_hour, at_hour, delta,
    combine_min.
  cbv zeta.
  set (start_date := fst (time_window sd)).
  set (d := (ScheduleSlot.day_of_week x - weekday start_date) mod 7).
  assert (Hd : 0 <= d < 7) by (apply Z.mod_pos_bound; lia).
  destruct (d =? 0) eqn:Ed.
  - apply Z.eqb_eq in Ed. rewrite Ed, Z.add_0_r, Z.eqb_refl. simpl andb.
    destruct ((0 <=? ScheduleSlot.start_hour x) && (ScheduleSlot.start_hour x <=? 23));
      [| discriminate].
    destruct (_ <=? current_time); intros H; inversion H; lia.
  - apply Z.eqb_neq in Ed.
    replace (date_of start_date + d =? date_of start_date) with false
      by (symmetry; apply Z.eqb_neq; lia).
    simpl andb. intros H. inversion H. lia.
Qed.

Lemma recovery_slot_datetime_by_rule (current_time : datetime) (sd : SchedulingData)
    (x : ScheduleSlot.t) (slot_datetime : datetime) :
  recovery_slot_datetime current_time sd x = Return slot_datetime ->
  slot_datetime = resolved_by_rule (fst (time_window sd)) current_time x.
Proof. apply current_time_slot_datetime_by_rule. Qed.

Lemma outside_unavailable_bookable (current_time : datetime) (sd : SchedulingData)
    (x : ScheduleSlot.t) :
  ~ unavailable current_time sd x ->
  bookable_by_rule (fst (time_window sd)) current_time (existing_bookings sd) x.
Proof.
  intros Hn. unfold bookable_by_rule. cbv zeta.
  assert (Hnow : ~ not_after current_time sd x) by (intros H; apply Hn; right; exact H).
  unfold not_after in Hnow.
  destruct (current_time_slot_datetime current_time sd x) as [dt | e] eqn:E;
    [| exfalso; apply Hnow; exact I].
  pose proof (current_time_slot_datetime_by_rule _ _ _ _ E) as Hrule.
  rewrite <- Hrule. split; [lia |].
  intros b Hb Hrecent.
  assert (Hwin : ~ in_window_of current_time sd b x).
  { intros H. apply Hn. left. exists b. auto. }
  unfold in_window_of in Hwin.
  change (recovery_slot_datetime current_time sd x)
    with (current_time_slot_datetime current_time sd x) in Hwin.
  rewrite E in Hwin. lia.
Qed.

(** When the engine returns suggestions, each of them stands for a candidate
    slot whose date-time by the rule is strictly later than the current time
    and outside the recovery window of every recent booking of the client:
    this holds on the main path and on the retries with fewer sessions. *)
Theorem suggested_slots_bookable_by_rule :
  forall (db : Database) (clock : Clock) (cp_solve : CpModel -> SolverResponse)
         (client_id num_sessions : Z) (preferred_date : option datetime)
         (days_flexibility : Z) (excluded_slot_ids : option (list Z))
         (s s' : Scheduler) (r : SchedulingResult) (g : Suggestion.t),
    answers_correctly cp_solve ->
    suggest_optimal_bookings db clock cp_solve client_id num_sessions preferred_date
      days_flexibility excluded_slot_ids s = (Return r, s') ->
    In g (suggested_slots r) ->
    let start_date := match preferred_date with Some d => d | None => now clock end in
    exists x,
      In x (get_available_slots_for_client db client_id start_date)
      /\ Suggestion.slot_id g = ScheduleSlot.id x
      /\ Suggestion.day_of_week g = ScheduleSlot.day_of_week x
      /\ Suggestion.hour g = ScheduleSlot.start_hour x
      /\ bookable_by_rule start_date (now clock)
           (_get_client_recent_bookings db client_id start_date) x.
Proof.
  intros db clock cp_solve client_id num_sessions preferred_date days_flexibility
    excluded_slot_ids s s' r g Hok Hrun Hg start_date.
  pose proof (suggest_optimal_bookings_outside db clock cp_solve Hok client_id num_sessions
                preferred_date days_flexibility excluded_slot_ids s I) as Hout.
  rewrite Hrun in Hout. unfold suggestions_outside, _gather_scheduling_data in Hout.
  cbv zeta in Hout. fold (datetime_now clock) in start_date.
  destruct (get_client_plan db client_id) as [plan |]; simpl in Hout;
    [| rewrite Hout in Hg; destruct Hg].
  destruct (Hout g Hg) as (x & Hx & (Hid & Hday & Hhour & _) & Hn).
  exists x. split; [exact Hx |]. split; [exact Hid |]. split; [exact Hday |].
  split; [exact Hhour |].
  match type of Hn with
  | ~ ruled_out _ _ _ ?sd _ => apply (outside_unavailable_bookable (now clock) sd x)
  end.
  intros H. apply Hn. left. exact H.
Qed.

(** Thursday 10:00 is suggested on Wednesday at 09:00: it resolves to the
    next day. *)
Lemma suggested_slots_bookable_by_rule_witness :
  let db := studio two_slots [] in
  let run := suggest_optimal_bookings db (clock_at 9) reference_solve 18 1 None 7 None
               new_scheduler in
  exists r g,
    fst run = Return r
    /\ In g (suggested_slots r)
    /\ exists x,
         In x two_slots
         /\ Suggestion.slot_id g = ScheduleSlot.id x
         /\ Suggestion.day_of_week g = ScheduleSlot.day_of_week x
         /\ Suggestion.hour g = ScheduleSlot.start_hour x
         /\ bookable_by_rule (now (clock_at 9)) (now (clock_at 9)) [] x.
Proof.
  cbv zeta. eexists. eexists.
  split; [vm_compute; reflexivity |].
  split; [left; reflexivity |].
  eapply (suggested_slots_bookable_by_rule (studio two_slots []) (clock_at 9) reference_solve
            18 1 None 7 None new_scheduler).
  - apply reference_solve_correct.
  - vm_compute. reflexivity.
  - left. reflexivity.
Defined.

Lemma single_session_none_excluded (current_time : datetime) (excluded : list Z)
    (gathered : outcome SchedulingData) (l : list Suggestion.t) (g : Suggestion.t) :
  suggestions_outside (ruled_out current_time excluded 1) gathered l ->
  In g l -> ~ In (Suggestion.slot_id g) excluded.
Proof.
  destruct gathered as [sd | e]; simpl; [| intros -> []].
  intros H Hg Hin. destruct (H g Hg) as (x & _ & (Hid & _) & Hn).
  apply Hn. right. split; [lia |]. unfold is_excluded. rewrite <- Hid.
  apply contains_In, Hin.
Qed.

Lemma checked_session_found (clock : Clock) (failed token : string) (user : Z)
    (table : SessionTable) (session : SuggestionSession.t) :
  checked_session clock failed token user table = HttpOk session ->
  find_session token table = Some session.
Proof.
  unfold checked_session. destruct (find_session token table) as [found |]; [| discriminate].
  destruct (negb _); [discriminate |]. destruct (_ >? _); [discriminate |].
  intros H. inversion H. reflexivity.
Qed.

(** "Replace one" asks for a single session, so its answer comes from the
    path without retry: given a solver that answers correctly, the slot it
    returns is neither the slot being replaced nor a slot of the session's
    history. *)
Theorem replace_one_never_repeats :
  forall (db : Database) (clock : Clock) (cp_solve : CpModel -> SolverResponse)
         (token : string) (slot_id user : Z) (table table' : SessionTable)
         (response : IndividualResponse),
    answers_correctly cp_solve ->
    re_suggest_individual_slot db clock cp_solve token slot_id user table
    = (HttpOk response, table') ->
    exists session,
      find_session token table = Some session
      /\ ind_new_slot_id response <> slot_id
      /\ ~ In (ind_new_slot_id response)
              (SuggestionSession.get_all_suggested_slots session).
Proof.
  intros db clock cp_solve token slot_id user table table' response Hok Hrun.
  unfold re_suggest_individual_slot in Hrun.
  destruct (checked_session clock _ token user table) as [session | code detail] eqn:Echeck;
    [| discriminate Hrun].
  apply checked_session_found in Echeck. exists session. split; [exact Echeck |].
  destruct (find _ (SuggestionSession.suggestions_json session)); [| discriminate Hrun].
  set (history := SuggestionSession.get_all_suggested_slots session) in *.
  set (excluded := if contains slot_id history then history
                   else list_append history slot_id) in *.
  unfold run_scheduler in Hrun.
  pose proof (suggest_optimal_bookings_outside db clock cp_solve Hok
                (SuggestionSession.client_id session) 1
                (option_map combine_min (SuggestionSession.preferred_date session))
                (SuggestionSession.days_flexibility session) (Some excluded)
                new_scheduler I) as Hout.
  destruct (suggest_optimal_bookings _ _ _ _ _ _ _ _ new_scheduler) as [[result | e] s'];
    simpl in Hrun; [| discriminate Hrun].
  destruct (suggested_slots result) as [| new_suggestion others] eqn:Eslots;
    [discriminate Hrun |].
  inversion Hrun; subst response table'. simpl.
  assert (Hnew : ~ In (Suggestion.slot_id new_suggestion) excluded).
  { eapply single_session_none_excluded; [exact Hout | left; reflexivity]. }
  assert (Hin : forall x, x = slot_id \/ In x history -> In x excluded).
  { intros x Hx. subst excluded. destruct (contains slot_id history) eqn:Ec.
    - destruct Hx as [-> | Hx]; [apply contains_In, Ec | exact Hx].
    - unfold list_append. apply in_or_app.
      destruct Hx as [-> | Hx]; [right; left; reflexivity | left; exact Hx]. }
  split.
  - intros E. apply Hnew, Hin. left. exact E.
  - intros H. apply Hnew, Hin. right. exact H.
Qed.

(** A session opened for one session gets slot 1; replacing it yields slot 2. *)
Lemma replace_one_never_repeats_witness :
  let db := studio two_slots [] in
  let opened := suggest_optimal_booking db (clock_at 9) reference_solve "tok" 18 None 7 1 [] in
  exists response table',
    re_suggest_individual_slot db (clock_at 9) reference_solve "tok" 1 18 (snd opened)
    = (HttpOk response, table')
    /\ ind_new_slot_id response = 2
    /\ exists session,
         find_session "tok" (snd opened) = Some session
         /\ ind_new_slot_id response <> 1
         /\ ~ In (ind_new_slot_id response)
                 (SuggestionSession.get_all_suggested_slots session).
Proof.
  cbv zeta. eexists. eexists.
  split; [vm_compute; reflexivity |].
  split; [reflexivity |].
  eapply (replace_one_never_repeats (studio two_slots []) (clock_at 9) reference_solve
            "tok" 1 18).
  - apply reference_solve_correct.
  - vm_compute. reflexivity.
Defined.

(** ** The results of the retries *)

Lemma In_range_down (hi k : Z) : In k (range_down hi) -> 1 <= k <= hi.
Proof.
  unfold range_down. rewrite in_map_iff. intros (n & <- & Hn).
  apply in_rev, in_seq in Hn. lia.
Qed.

Section Retries.

Variable db : Database.
Variable clock : Clock.
Variable cp_solve : CpModel -> SolverResponse.

Lemma solve_model_confidence :
  returns (_solve_model cp_solve)
          (fun sr => (sr_status sr = "OPTIMAL" -> sr_confidence sr = 1%Q)
                     /\ (sr_status sr = "FEASIBLE" -> sr_confidence sr = (8 # 10)%Q)).
Proof.
  intros s sr s' H. unfold _solve_model, bind, get_self, set_self, ret in H. simpl in H.
  inversion H. simpl. destruct (status (cp_solve (model s))); simpl;
    split; intros E; first [reflexivity | discriminate E].
Qed.

Lemma partial_attempt_shape (client_id : Z) (sd : SchedulingData) (original k : Z) :
  returns (partial_attempt db clock cp_solve client_id sd original k)
          (fun r => match r with
                    | Some result => partial_result_for original k result
                    | None => True
                    end).
Proof.
  unfold partial_attempt.
  do 8 (apply returns_bind; intros ?).
  eapply returns_bind_with; [apply solve_model_confidence |].
  intros sr [Hopt Hfeas]. cbv beta in Hopt, Hfeas.
  destruct (String.eqb (sr_status sr) "OPTIMAL") eqn:Eo; simpl orb.
  - apply String.eqb_eq in Eo.
    do 4 (apply returns_bind; intros ?). apply returns_ret.
    split; [reflexivity |]. split; [exists 1%Q; simpl; rewrite (Hopt Eo); auto |].
    split; [reflexivity |]. eexists. eexists. reflexivity.
  - destruct (String.eqb (sr_status sr) "FEASIBLE") eqn:Ef; [| apply returns_ret; exact I].
    apply String.eqb_eq in Ef.
    do 4 (apply returns_bind; intros ?). apply returns_ret.
    split; [reflexivity |]. split; [exists (8 # 10)%Q; simpl; rewrite (Hfeas Ef); auto |].
    split; [reflexivity |]. eexists. eexists. reflexivity.
Qed.

Lemma partial_loop_shape (client_id : Z) (sd : SchedulingData) (original : Z)
    (counts : list Z) (s : Scheduler) :
  exists r s',
    partial_loop db clock cp_solve client_id sd original counts s = (Return r, s')
    /\ match r with
       | Some result => exists k, In k counts /\ partial_result_for original k result
       | None => True
       end.
Proof.
  revert s. induction counts as [| k rest IH]; intros s; simpl.
  - exists None, s. split; [reflexivity | exact I].
  - unfold bind at 1, try_except.
    pose proof (partial_attempt_shape client_id sd original k s) as Hshape.
    destruct (partial_attempt db clock cp_solve client_id sd original k s)
      as [[[result |] | e] s1].
    + exists (Some result), s1. split; [reflexivity |].
      exists k. split; [left; reflexivity | exact (Hshape _ _ eq_refl)].
    + destruct (IH s1) as (r & s' & Hrun & Hr). exists r, s'. split; [exact Hrun |].
      destruct r as [result |]; [| exact I].
      destruct Hr as (k' & Hk' & Hres). exists k'. split; [right; exact Hk' | exact Hres].
    + simpl. destruct (IH s1) as (r & s' & Hrun & Hr). exists r, s'. split; [exact Hrun |].
      destruct r as [result |]; [| exact I].
      destruct Hr as (k' & Hk' & Hres). exists k'. split; [right; exact Hk' | exact Hres].
Qed.

Lemma detailed_failure_analysis_outcome (client_id : Z) (sd : SchedulingData) (n : Z)
    (s : Scheduler) :
  match _create_detailed_failure_analysis clock client_id sd n s with
  | (Return r, _) => failure_analysis_result r
  | (Raise e, _) => exists msg, e = TypeError msg
  end.
Proof.
  unfold _create_detailed_failure_analysis. cbv zeta.
  unfold bind at 1.
  match goal with
  | |- context [match ?m s with _ => _ end] =>
      assert (H : match m s with
                  | (Return _, s') => s' = s
                  | (Raise e, _) => exists msg, e = TypeError msg
                  end);
      [| destruct (m s) as [[l | e] s1]; [| exact H] ]
  end.
  - destruct (client_preference sd) as [pref |]; [| reflexivity].
    destruct (ClientPreference.preferred_start_hour pref); [| reflexivity].
    destruct (map ScheduleSlot.start_hour (available_slots sd)); [reflexivity |].
    destruct (ClientPreference.is_flexible pref); [reflexivity |].
    destruct (ClientPreference.preferred_end_hour pref); [| eexists; reflexivity].
    destruct (_ || _); [reflexivity |]. destruct (_ <? _); reflexivity.
  - unfold bind, get_self, ret. simpl. repeat split.
Qed.

End Retries.

(** Whatever the retries meet, [_try_partial_solutions] ends in one of three
    ways. It returns a partial result for some [k] with [1 <= k < original]:
    status PARTIAL_SOLUTION_k, the confidence of the solve (1.0 or 0.8) times
    [k / original], and diagnostics that begin with the warning. Or it
    returns the detailed failure analysis: no suggestion, confidence 0. Or
    the failure analysis raises the [TypeError] of a strict preference that
    has a start hour and no end hour. *)
Theorem try_partial_solutions_outcome :
  forall (db : Database) (clock : Clock) (cp_solve : CpModel -> SolverResponse)
         (client_id : Z) (sd : SchedulingData) (original : Z) (s : Scheduler),
    match _try_partial_solutions db clock cp_solve client_id sd original s with
    | (Return r, _) =>
        (exists k, 1 <= k < original /\ partial_result_for original k r)
        \/ failure_analysis_result r
    | (Raise e, _) => exists msg, e = TypeError msg
    end.
Proof.
  intros db clock cp_solve client_id sd original s.
  unfold _try_partial_solutions, bind.
  destruct (partial_loop_shape db clock cp_solve client_id sd original
              (range_down (original - 1)) s) as (r & s1 & Hrun & Hr).
  rewrite Hrun. destruct r as [result |].
  - simpl. left. destruct Hr as (k & Hk & Hres). exists k. split; [| exact Hres].
    apply In_range_down in Hk. lia.
  - pose proof (detailed_failure_analysis_outcome clock client_id sd original s1) as H.
    destruct (_create_detailed_failure_analysis clock client_id sd original s1)
      as [[r | e] s2]; [right; exact H | exact H].
Qed.

(** The recovery check against bookings and the past-time check resolve a
    slot to the same date-time, which is the one the rule gives; they raise
    only on a start hour that is not an hour of the day. *)
Theorem checks_resolve_by_rule :
  forall (current_time : datetime) (sd : SchedulingData) (x : ScheduleSlot.t),
    recovery_slot_datetime current_time sd x = current_time_slot_datetime current_time sd x
    /\ match current_time_slot_datetime current_time sd x with
       | Return slot_datetime =>
           slot_datetime = resolved_by_rule (fst (time_window sd)) current_time x
       | Raise _ => ~ (0 <= ScheduleSlot.start_hour x <= 23)
       end.
Proof.
  intros current_time sd x. split; [reflexivity |].
  destruct (current_time_slot_datetime current_time sd x) as [dt | e] eqn:E.
  - apply (current_time_slot_datetime_by_rule _ _ _ _ E).
  - unfold current_time_slot_datetime, replace_hour in E. cbv zeta in E.
    destruct (_ =? 0); [| discriminate E].
    destruct ((0 <=? ScheduleSlot.start_hour x) && (ScheduleSlot.start_hour x <=? 23))
      eqn:Eh; [discriminate E |].
    apply andb_false_iff in Eh. destruct Eh as [Eh | Eh]; apply Z.leb_gt in Eh; lia.
Qed.

(** ** Where the suggestions of a result come from *)

Lemma suggestion_key_le_spec (a b : Suggestion.t) :
  suggestion_key_le a b = true <-> by_hour_then_day a b.
Proof.
  unfold suggestion_key_le, by_hour_then_day.
  rewrite orb_true_iff, andb_true_iff, Z.ltb_lt, Z.eqb_eq, Z.leb_le. reflexivity.
Qed.

Lemma suggestion_key_le_total (a b : Suggestion.t) :
  suggestion_key_le a b = false -> by_hour_then_day b a.
Proof.
  unfold suggestion_key_le, by_hour_then_day.
  rewrite orb_false_iff, andb_false_iff, Z.ltb_ge, Z.eqb_neq, Z.leb_gt.
  intros [H1 [H2 | H2]]; lia.
Qed.

Lemma by_hour_then_day_trans (a b c : Suggestion.t) :
  by_hour_then_day a b -> by_hour_then_day b c -> by_hour_then_day a c.
Proof. unfold by_hour_then_day. lia. Qed.

Lemma insert_suggestion_perm (x : Suggestion.t) (l : list Suggestion.t) :
  Permutation (insert_suggestion x l) (x :: l).
Proof.
  induction l as [| y l IH]; simpl; [reflexivity |].
  destruct (suggestion_key_le x y); [reflexivity |].
  rewrite IH. apply perm_swap.
Qed.

Lemma sort_suggestions_perm (l : list Suggestion.t) : Permutation (sort_suggestions l) l.
Proof.
  induction l as [| x l IH]; simpl; [reflexivity |].
  rewrite insert_suggestion_perm. apply perm_skip, IH.
Qed.

Lemma insert_suggestion_sorted (x : Suggestion.t) (l : list Suggestion.t) :
  StronglySorted by_hour_then_day l ->
  StronglySorted by_hour_then_day (insert_suggestion x l).
Proof.
  induction 1 as [| y l Hl IH Hy]; simpl.
  - constructor; constructor.
  - destruct (suggestion_key_le x y) eqn:E.
    + apply suggestion_key_le_spec in E. constructor.
      * constructor; assumption.
      * constructor; [exact E |].
        eapply Forall_impl; [| exact Hy]. intros z Hz.
        eapply by_hour_then_day_trans; eassumption.
    + apply suggestion_key_le_total in E. constructor; [exact IH |].
      rewrite Forall_forall. intros z Hz.
      apply (Permutation_in _ (insert_suggestion_perm x l)) in Hz.
      destruct Hz as [<- | Hz]; [exact E |].
      rewrite Forall_forall in Hy. apply Hy, Hz.
Qed.

Lemma sort_suggestions_sorted (l : list Suggestion.t) :
  StronglySorted by_hour_then_day (sort_suggestions l).
Proof.
  induction l as [| x l IH]; simpl; [constructor | apply insert_suggestion_sorted, IH].
Qed.

Lemma firstn_sorted {A : Type} (R : A -> A -> Prop) (n : nat) (l : list A) :
  StronglySorted R l -> StronglySorted R (firstn n l).
Proof.
  intros H. revert n. induction H as [| x l Hl IH Hx]; intros [| n]; simpl;
    try constructor.
  - apply IH.
  - rewrite Forall_forall in *. intros y Hy. apply Hx. eapply In_firstn. exact Hy.
Qed.

Lemma firstn_NoDup {A : Type} (n : nat) (l : list A) : NoDup l -> NoDup (firstn n l).
Proof.
  intros H. revert n. induction H as [| x l Hx Hl IH]; intros [| n]; simpl;
    try constructor.
  - intros Hin. apply Hx. eapply In_firstn. exact Hin.
  - apply IH.
Qed.

Lemma filter_map_NoDup {A : Type} (f : A -> Z) (p : A -> bool) (l : list A) :
  NoDup (map f l) -> NoDup (map f (filter p l)).
Proof.
  induction l as [| x l IH]; simpl; [intros; constructor |].
  intros H. inversion H as [| y ys Hx Hl]; subst.
  destruct (p x); simpl; [| apply IH, Hl].
  constructor; [| apply IH, Hl].
  intros Hin. apply Hx. apply in_map_iff in Hin. destruct Hin as (z & Hz & Hin).
  apply in_map_iff. exists z. split; [exact Hz |]. apply filter_In in Hin. apply Hin.
Qed.

Lemma extracted_sorted (response : SolverResponse) (sd : SchedulingData)
    (l : list Suggestion.t) :
  extracted_from response sd l -> StronglySorted by_hour_then_day l.
Proof.
  intros (all & -> & _). apply firstn_sorted, sort_suggestions_sorted.
Qed.

Lemma extracted_NoDup (response : SolverResponse) (sd : SchedulingData)
    (l : list Suggestion.t) :
  NoDup (map ScheduleSlot.id (available_slots sd)) ->
  extracted_from response sd l -> NoDup (map Suggestion.slot_id l).
Proof.
  intros Hids (all & -> & Hall).
  rewrite <- firstn_map. apply firstn_NoDup.
  apply (Permutation_NoDup (l := map Suggestion.slot_id all)).
  - apply Permutation_map, Permutation_sym, sort_suggestions_perm.
  - rewrite Hall. apply filter_map_NoDup, Hids.
Qed.

Lemma selected_count (response : SolverResponse) (slots : list ScheduleSlot.t) :
  len (filter (is_selected response) slots)
  = sum_Z (map (value_in (solution response)) (map ScheduleSlot.id slots)).
Proof.
  unfold len. induction slots as [| x slots IH]; [reflexivity |].
  cbn [filter map sum_Z fold_right]. fold (sum_Z (map (value_in (solution response))
                                                     (map ScheduleSlot.id slots))).
  rewrite <- IH. unfold is_selected at 1, value_in at 1.
  destruct (lookup_value (ScheduleSlot.id x) (solution response)) as [[|] |];
    cbn [List.length]; lia.
Qed.

Lemma extracted_count (cp_solve : CpModel -> SolverResponse) (k : Z) (sd : SchedulingData)
    (l : list Suggestion.t) :
  answers_correctly cp_solve ->
  solved_for cp_solve k sd l -> len l = Z.min k 5.
Proof.
  intros Hok (m & Hasks & Hstatus & all & -> & Hall).
  assert (Hsat : satisfies (solution (cp_solve m)) m = true).
  { specialize (Hok m). destruct Hstatus as [E | E]; rewrite E in Hok; exact Hok. }
  unfold satisfies in Hsat. rewrite forallb_forall in Hsat.
  specialize (Hsat _ Hasks). simpl in Hsat. apply Z.eqb_eq in Hsat.
  rewrite <- selected_count in Hsat.
  assert (Hlen : len all = k).
  { rewrite <- Hsat. unfold len. rewrite <- (length_map Suggestion.slot_id all), Hall.
    rewrite length_map. reflexivity. }
  unfold len in *. rewrite length_firstn.
  rewrite (Permutation_length (sort_suggestions_perm all)).
  unfold max_suggestions. lia.
Qed.

Lemma str_inj (a b : Z) : str a = str b -> a = b.
Proof.
  unfold str. intros H.
  assert (Hisi : forall z, NilZero.int_of_string (NilZero.string_of_int (Z.to_int z))
                           = Some (Z.to_int z)).
  { intros z. apply NilZero.isi; destruct z; simpl; try discriminate;
      intros E; inversion E as [E'];
      apply (f_equal Pos.of_uint) in E'; rewrite DecimalPos.Unsigned.of_to in E';
      discriminate E'. }
  pose proof (Hisi a) as Ha. rewrite H, Hisi in Ha. inversion Ha as [E].
  apply (f_equal Z.of_int) in E. rewrite !DecimalZ.of_to in E. symmetry. exact E.
Qed.

Lemma asks_for_grows (sd : SchedulingData) (k : Z) (s s' : Scheduler) :
  asks_for sd k (model s) -> model_grows s s' -> asks_for sd k (model s').
Proof.
  unfold asks_for. intros H [_ [more Hm]]. rewrite Hm. apply in_or_app. left. exact H.
Qed.

Lemma hoare_asks {A : Type} (sd : SchedulingData) (k : Z) (m : M A) :
  always model_grows m ->
  hoare (fun s => asks_for sd k (model s)) m (fun _ s => asks_for sd k (model s)).
Proof.
  intros Hgrow. eapply hoare_always; [exact Hgrow |].
  intros s s' H Hg. eapply asks_for_grows; eassumption.
Qed.

Lemma create_model_asks (sd : SchedulingData) (k : Z) :
  hoare (fun _ => True) (_create_model sd k) (fun _ s => asks_for sd k (model s)).
Proof. intros s _. left. reflexivity. Qed.

Section Provenance.

Variable db : Database.
Variable clock : Clock.
Variable cp_solve : CpModel -> SolverResponse.

Lemma solve_model_asked (sd : SchedulingData) (k : Z) :
  hoare (fun s => asks_for sd k (model s)) (_solve_model cp_solve)
        (fun sr s =>
           exists m,
             solver s = Some (cp_solve m)
             /\ (asks_for sd k m
                 /\ sr_status sr = status_map_get status_map (status (cp_solve m)) "UNKNOWN")).
Proof.
  intros s Hs. unfold _solve_model, bind, get_self, set_self, ret. simpl.
  exists (model s). split; [reflexivity |]. split; [exact Hs | reflexivity].
Qed.

Lemma extract_suggestions_from (sd : SchedulingData) (sr : SolveResult)
    (response : SolverResponse) :
  hoare (fun s => solver s = Some response) (_extract_suggestions db sd sr)
        (fun l _ =>
           (String.eqb (sr_status sr) "NO_SOLUTION" || String.eqb (sr_status sr) "INVALID"
            = true /\ l = [])
           \/ extracted_from response sd l).
Proof.
  unfold _extract_suggestions.
  destruct (_ || _) eqn:Eexit; [apply hoare_ret; intros s _; left; auto |].
  eapply hoare_bind with
    (R := fun all _ =>
            map Suggestion.slot_id all
            = map ScheduleSlot.id (filter (is_selected response) (available_slots sd))).
  - eapply hoare_weaken;
      [| apply hoare_for_fold with
           (Inv := fun done acc s =>
                     solver s = Some response
                     /\ map Suggestion.slot_id acc
                        = map ScheduleSlot.id (filter (is_selected response) done))
       |].
    + intros s Hs. split; [exact Hs | reflexivity].
    + intros done x acc Hx.
      eapply hoare_bind; [apply hoare_get_self |]. intros s0. cbv beta.
      intros s [-> [Hsolver Hacc]]. rewrite Hsolver.
      unfold bind, lift, solver_Value.
      rewrite filter_app, map_app. cbn [filter]. unfold is_selected at 2.
      destruct (lookup_value (ScheduleSlot.id x) (solution response)) as [b |] eqn:E;
        [| exact I].
      destruct b; simpl; (split; [exact Hsolver |]).
      * unfold list_append. rewrite map_app, Hacc. reflexivity.
      * rewrite app_nil_r. exact Hacc.
    + intros all s [_ H]. exact H.
  - intros all. apply hoare_ret. intros s Hall. right. exists all.
    split; [reflexivity | exact Hall].
Qed.

(** What the status text tells about the status of the answer. *)
Lemma status_text_of_solution (st : CpSolverStatus) :
  String.eqb (status_map_get status_map st "UNKNOWN") "OPTIMAL"
  || String.eqb (status_map_get status_map st "UNKNOWN") "FEASIBLE" = true ->
  st = OPTIMAL \/ st = FEASIBLE.
Proof. destruct st; simpl; intros H; auto; discriminate H. Qed.

Lemma partial_status_differs (k : Z) (text : string) :
  In text ["OPTIMAL"; "FEASIBLE"; "TIMEOUT"; "INVALID"; "NO_SOLUTION"; "NO_AVAILABILITY";
           "WEEKLY_QUOTA_EXCEEDED"; "NO_SOLUTION_DETAILED"] ->
  text <> ("PARTIAL_SOLUTION_" ++ str k)%string.
Proof.
  simpl. intros H E.
  repeat (destruct H as [H | H]; [subst text; discriminate E |]). exact H.
Qed.

Lemma partial_status_inj (k k' : Z) :
  ("PARTIAL_SOLUTION_" ++ str k)%string = ("PARTIAL_SOLUTION_" ++ str k')%string -> k = k'.
Proof. simpl. intros E. inversion E as [E']. apply str_inj, E'. Qed.

Lemma partial_attempt_provenance (client_id : Z) (sd : SchedulingData) (original k : Z) :
  hoare (fun _ => True) (partial_attempt db clock cp_solve client_id sd original k)
        (fun r _ => match r with
                    | Some result =>
                        solver_status result = ("PARTIAL_SOLUTION_" ++ str k)%string
                        /\ solved_for cp_solve k sd (suggested_slots result)
                    | None => True
                    end).
Proof.
  unfold partial_attempt.
  eapply hoare_bind; [apply hoare_any |]. intros ?. cbv beta.
  eapply hoare_bind; [apply create_model_asks |]. intros ?. cbv beta.
  eapply hoare_bind; [apply hoare_asks, explain_grows |]. intros ?. cbv beta.
  eapply hoare_bind; [apply hoare_asks, recovery_constraints_grow |]. intros ?. cbv beta.
  eapply hoare_bind; [apply hoare_asks, explain_grows |]. intros ?. cbv beta.
  eapply hoare_bind; [apply hoare_asks, current_time_constraints_grow |]. intros ?. cbv beta.
  eapply hoare_bind; [apply hoare_asks, preference_constraints_grow |]. intros ?. cbv beta.
  eapply hoare_bind; [apply hoare_asks, define_objective_grows |]. intros ?. cbv beta.
  eapply hoare_bind; [apply solve_model_asked |]. intros sr. cbv beta.
  apply hoare_exists. intros m. apply hoare_pure_and. intros [Hasks Htext].
  destruct (_ || _) eqn:Estatus; [| apply hoare_ret; intros s _; exact I].
  rewrite Htext in Estatus.
  pose proof (status_text_of_solution _ Estatus) as Hst.
  eapply hoare_bind; [apply extract_suggestions_from |].
  intros suggestions. cbv beta. apply hoare_pure. intros Hl.
  eapply hoare_bind; [apply hoare_any |]. intros ?. cbv zeta.
  do 2 (eapply hoare_bind; [apply hoare_any |]; intros ?).
  apply hoare_ret. intros s _. split; [reflexivity |]. simpl.
  exists m. split; [exact Hasks |]. split; [exact Hst |].
  destruct Hl as [[Hexit _] | Hl]; [| exact Hl].
  rewrite Htext in Hexit. destruct Hst as [E | E]; rewrite E in Hexit; discriminate Hexit.
Qed.

Lemma partial_loop_provenance (client_id : Z) (sd : SchedulingData) (original : Z)
    (counts : list Z) :
  hoare (fun _ => True) (partial_loop db clock cp_solve client_id sd original counts)
        (fun r _ => match r with
                    | Some result =>
                        exists k, In k counts
                                  /\ solver_status result = ("PARTIAL_SOLUTION_" ++ str k)%string
                                  /\ solved_for cp_solve k sd (suggested_slots result)
                    | None => True
                    end).
Proof.
  induction counts as [| k rest IH]; simpl.
  - apply hoare_ret. intros s _. exact I.
  - eapply hoare_bind.
    + apply hoare_try_except; [apply partial_attempt_provenance |].
      intros e. apply hoare_ret. intros s _. exact I.
    + intros [result |].
      * apply hoare_ret. intros s [H1 H2]. exists k. auto.
      * eapply hoare_weaken; [| exact IH |].
        -- intros s _. exact I.
        -- intros [result |] s H; [| exact I].
           destruct H as (k' & Hk' & H). exists k'. auto.
Qed.

Lemma detailed_failure_analysis_status (client_id : Z) (sd : SchedulingData) (n : Z) :
  returns (_create_detailed_failure_analysis clock client_id sd n)
          (fun r => solver_status r = "NO_SOLUTION_DETAILED" /\ suggested_slots r = []).
Proof.
  unfold _create_detailed_failure_analysis.
  do 2 (apply returns_bind; intros). apply returns_ret. split; reflexivity.
Qed.

Lemma try_partial_solutions_provenance (client_id : Z) (sd : SchedulingData) (original : Z) :
  hoare (fun _ => True) (_try_partial_solutions db clock cp_solve client_id sd original)
        (fun r _ => provenance cp_solve original sd r).
Proof.
  unfold _try_partial_solutions.
  eapply hoare_bind; [apply partial_loop_provenance |].
  intros [result |].
  - apply hoare_ret. intros s (k & Hk & Hstatus & Hsolved).
    right. left. exists k. apply In_range_down in Hk. split; [lia | auto].
  - eapply hoare_weaken; [| apply hoare_returns, detailed_failure_analysis_status |].
    + intros s _. exact I.
    + cbv beta. intros r s [Hstatus Hnone]. right. right. rewrite Hstatus.
      split; [discriminate |]. split; [discriminate |].
      split; [intros k; apply partial_status_differs; simpl; tauto | left; exact Hnone].
Qed.

Lemma plain_result_provenance (n : Z) (sd : SchedulingData) (r : SchedulingResult) :
  solver_status r <> "OPTIMAL" -> solver_status r <> "FEASIBLE" ->
  (forall k, solver_status r <> ("PARTIAL_SOLUTION_" ++ str k)%string) ->
  suggested_slots r = [] ->
  provenance cp_solve n sd r.
Proof. intros H1 H2 H3 H4. right. right. auto. Qed.

Lemma suggest_optimal_bookings_provenance (client_id num_sessions : Z)
    (preferred_date : option datetime) (days_flexibility : Z)
    (excluded_slot_ids : option (list Z)) :
  hoare (fun _ => True)
        (suggest_optimal_bookings db clock cp_solve client_id num_sessions preferred_date
           days_flexibility excluded_slot_ids)
        (fun r _ =>
           result_provenance cp_solve num_sessions
             (fst (_gather_scheduling_data db clock client_id preferred_date days_flexibility
                     new_scheduler))
             r).
Proof.
  unfold suggest_optimal_bookings.
  apply hoare_try_except.
  2:{ intros e. apply hoare_ret. intros s _. unfold result_provenance.
      destruct (fst _) as [sd | e']; [| reflexivity].
      apply plain_result_provenance; first [reflexivity | simpl; discriminate]. }
  eapply hoare_bind; [apply gather_scheduling_data_result |]. intros sd. cbv beta.
  apply hoare_pure. intros Hsd. rewrite Hsd. unfold result_provenance.
  destruct (available_slots sd) as [| slot0 slots] eqn:Eslots.
  { apply hoare_ret. intros s _.
    apply plain_result_provenance; first [reflexivity | simpl; discriminate]. }
  destruct (_ <=? 0) eqn:Equota.
  { apply hoare_ret. intros s _.
    apply plain_result_provenance; first [reflexivity | simpl; discriminate]. }
  cbv zeta.
  set (remaining := getattr_sessions_per_week (client_plan sd) 3
                    - _count_current_week_bookings sd) in *.
  set (n' := if num_sessions >? remaining then remaining else num_sessions).
  assert (Hn' : sessions_solved_for num_sessions sd = n').
  { unfold sessions_solved_for. fold remaining. subst n'.
    destruct (num_sessions >? remaining) eqn:E;
      [apply Z.gtb_lt in E | rewrite Z.gtb_ltb in E; apply Z.ltb_ge in E]; lia. }
  rewrite Hn'.
  do 2 (eapply hoare_bind; [apply hoare_any |]; intros ?; cbv beta).
  eapply hoare_bind; [apply create_model_asks |]. intros ?. cbv beta.
  eapply hoare_bind; [apply hoare_asks, explain_grows |]. intros ?. cbv beta.
  eapply hoare_bind; [apply hoare_asks, recovery_constraints_grow |]. intros ?. cbv beta.
  eapply hoare_bind; [apply hoare_asks, explain_grows |]. intros ?. cbv beta.
  eapply hoare_bind; [apply hoare_asks, current_time_constraints_grow |]. intros ?. cbv beta.
  eapply hoare_bind; [apply hoare_asks, weekly_quota_constraints_grow |]. intros ?. cbv beta.
  eapply hoare_bind; [apply hoare_asks, excluded_slots_constraints_grow |]. intros ?. cbv beta.
  eapply hoare_bind; [apply hoare_asks, preference_constraints_grow |]. intros ?. cbv beta.
  eapply hoare_bind; [apply hoare_asks, define_objective_grows |]. intros ?. cbv beta.
  eapply hoare_bind; [apply solve_model_asked |]. intros sr. cbv beta.
  apply hoare_exists. intros m. apply hoare_pure_and. intros [Hasks Htext].
  destruct (String.eqb (sr_status sr) "NO_SOLUTION") eqn:Eno.
  { eapply hoare_weaken; [| apply try_partial_solutions_provenance |].
    - intros s _. exact I.
    - intros r s H. exact H. }
  eapply hoare_bind; [apply extract_suggestions_from |].
  intros suggestions. cbv beta. apply hoare_pure. intros Hl.
  do 2 (eapply hoare_bind; [apply hoare_any |]; intros ?).
  apply hoare_ret. intros s _. unfold provenance. simpl.
  rewrite Htext in *.
  destruct (status (cp_solve m)) eqn:Est; simpl in *.
  - right. right. split; [discriminate |]. split; [discriminate |].
    split; [intros k; apply partial_status_differs; simpl; tauto |].
    destruct Hl as [[_ ->] | Hl]; [left; reflexivity | right; eexists; exact Hl].
  - right. right. split; [discriminate |]. split; [discriminate |].
    split; [intros k; apply partial_status_differs; simpl; tauto |].
    destruct Hl as [[_ ->] | Hl]; [left; reflexivity | right; eexists; exact Hl].
  - left. split; [right; reflexivity |]. exists m. rewrite Est.
    split; [exact Hasks |]. split; [right; reflexivity |].
    destruct Hl as [[Hexit _] | Hl]; [discriminate Hexit | exact Hl].
  - discriminate Eno.
  - left. split; [left; reflexivity |]. exists m. rewrite Est.
    split; [exact Hasks |]. split; [left; reflexivity |].
    destruct Hl as [[Hexit _] | Hl]; [discriminate Hexit | exact Hl].
Qed.

End Provenance.

(** A result whose status is OPTIMAL or FEASIBLE carries as many suggestions
    as sessions were solved for (the request, cut to what is left of the
    weekly quota), up to the five the extractor keeps; a result whose status
    is PARTIAL_SOLUTION_k carries [k] of them, up to five, and [k] is at least
    1 and less than the number first solved for. *)
Theorem solved_results_hold_the_sessions_solved_for :
  forall (db : Database) (clock : Clock) (cp_solve : CpModel -> SolverResponse)
         (client_id num_sessions : Z) (preferred_date : option datetime)
         (days_flexibility : Z) (excluded_slot_ids : option (list Z))
         (s s' : Scheduler) (r : SchedulingResult) (sd : SchedulingData),
    answers_correctly cp_solve ->
    fst (_gather_scheduling_data db clock client_id preferred_date days_flexibility
           new_scheduler) = Return sd ->
    suggest_optimal_bookings db clock cp_solve client_id num_sessions preferred_date
      days_flexibility excluded_slot_ids s = (Return r, s') ->
    (solver_status r = "OPTIMAL" \/ solver_status r = "FEASIBLE" ->
     len (suggested_slots r) = Z.min (sessions_solved_for num_sessions sd) 5)
    /\ (forall k, solver_status r = ("PARTIAL_SOLUTION_" ++ str k)%string ->
                  1 <= k < sessions_solved_for num_sessions sd
                  /\ len (suggested_slots r) = Z.min k 5).
Proof.
  intros db clock cp_solve client_id num_sessions preferred_date days_flexibility
    excluded_slot_ids s s' r sd Hok Hsd Hrun.
  pose proof (suggest_optimal_bookings_provenance db clock cp_solve client_id num_sessions
                preferred_date days_flexibility excluded_slot_ids s I) as Hprov.
  rewrite Hrun, Hsd in Hprov. simpl in Hprov.
  destruct Hprov as [[Hstatus Hsolved] | [(k0 & Hk0 & Hstatus & Hsolved) | (Hn1 & Hn2 & Hn3 & _)]].
  - split.
    + intros _. apply (extracted_count cp_solve _ sd _ Hok Hsolved).
    + intros k E. exfalso. rewrite E in Hstatus.
      destruct Hstatus as [H | H]; simpl in H; discriminate H.
  - split.
    + intros H. exfalso. rewrite Hstatus in H. destruct H as [H | H]; simpl in H; discriminate H.
    + intros k E. rewrite Hstatus in E. apply partial_status_inj in E. subst k0.
      split; [exact Hk0 | apply (extracted_count cp_solve _ sd _ Hok Hsolved)].
  - split.
    + intros [H | H]; contradiction.
    + intros k E. exfalso. exact (Hn3 k E).
Qed.

(** Two sessions asked for, two candidates, nothing booked: the answer is
    OPTIMAL and carries two suggestions. *)
Lemma solved_results_hold_the_sessions_solved_for_witness :
  let run := suggest_optimal_bookings (studio two_slots []) (clock_at 9) reference_solve
               18 2 None 7 None new_scheduler in
  exists r,
    fst run = Return r
    /\ solver_status r = "OPTIMAL"
    /\ len (suggested_slots r) = 2.
Proof.
  cbv zeta. eexists.
  split; [vm_compute; reflexivity |].
  split; [reflexivity |].
  edestruct (solved_results_hold_the_sessions_solved_for
               (studio two_slots []) (clock_at 9) reference_solve 18 2 None 7 None
               new_scheduler) as [Hfull _].
  - apply reference_solve_correct.
  - vm_compute. reflexivity.
  - vm_compute. reflexivity.
  - exact (Hfull (or_introl eq_refl)).
Defined.

(** Every call returns a result whose suggestions are listed by hour, and by
    day of the week within an hour. *)
Theorem suggested_slots_listed_by_hour_then_day :
  forall (db : Database) (clock : Clock) (cp_solve : CpModel -> SolverResponse)
         (client_id num_sessions : Z) (preferred_date : option datetime)
         (days_flexibility : Z) (excluded_slot_ids : option (list Z)) (s : Scheduler),
  exists r s',
    suggest_optimal_bookings db clock cp_solve client_id num_sessions preferred_date
      days_flexibility excluded_slot_ids s = (Return r, s')
    /\ StronglySorted by_hour_then_day (suggested_slots r).
Proof.
  intros db clock cp_solve client_id num_sessions preferred_date days_flexibility
    excluded_slot_ids s.
  destruct (suggest_optimal_bookings_total db clock cp_solve client_id num_sessions
              preferred_date days_flexibility excluded_slot_ids s) as (r & s' & Hrun).
  exists r, s'. split; [exact Hrun |].
  pose proof (suggest_optimal_bookings_provenance db clock cp_solve client_id num_sessions
                preferred_date days_flexibility excluded_slot_ids s I) as Hprov.
  rewrite Hrun in Hprov. unfold result_provenance in Hprov.
  destruct (fst _) as [sd | e]; [| rewrite Hprov; constructor].
  destruct Hprov as [[_ (m & _ & _ & H)] | [(k & _ & _ & m & _ & _ & H)
                                           | (_ & _ & _ & [H | [response H]])]];
    first [ apply (extracted_sorted _ _ _ H) | rewrite H; constructor ].
Qed.

(** The candidates of the gathered data are the slots the query returns. *)
Lemma gathered_available_slots (db : Database) (clock : Clock) (client_id : Z)
    (preferred_date : option datetime) (days_flexibility : Z) (sd : SchedulingData) :
  fst (_gather_scheduling_data db clock client_id preferred_date days_flexibility
         new_scheduler) = Return sd ->
  available_slots sd
  = get_available_slots_for_client db client_id
      (match preferred_date with Some d => d | None => now clock end).
Proof.
  unfold _gather_scheduling_data, datetime_now. cbv zeta.
  destruct (get_client_plan db client_id); simpl; intros H; inversion H. reflexivity.
Qed.

(** When the candidate slots have different ids, as the rows of a table
    have, no slot is suggested twice in one result. *)
Theorem suggested_slots_are_distinct :
  forall (db : Database) (clock : Clock) (cp_solve : CpModel -> SolverResponse)
         (client_id num_sessions : Z) (preferred_date : option datetime)
         (days_flexibility : Z) (excluded_slot_ids : option (list Z))
         (s s' : Scheduler) (r : SchedulingResult),
    NoDup (map ScheduleSlot.id
             (get_available_slots_for_client db client_id
                (match preferred_date with Some d => d | None => now clock end))) ->
    suggest_optimal_bookings db clock cp_solve client_id num_sessions preferred_date
      days_flexibility excluded_slot_ids s = (Return r, s') ->
    NoDup (map Suggestion.slot_id (suggested_slots r)).
Proof.
  intros db clock cp_solve client_id num_sessions preferred_date days_flexibility
    excluded_slot_ids s s' r Hids Hrun.
  pose proof (suggest_optimal_bookings_provenance db clock cp_solve client_id num_sessions
                preferred_date days_flexibility excluded_slot_ids s I) as Hprov.
  rewrite Hrun in Hprov. unfold result_provenance in Hprov.
  destruct (fst _) as [sd | e] eqn:Hsd; [| rewrite Hprov; constructor].
  apply gathered_available_slots in Hsd. rewrite <- Hsd in Hids.
  destruct Hprov as [[_ (m & _ & _ & H)] | [(k & _ & _ & m & _ & _ & H)
                                           | (_ & _ & _ & [H | [response H]])]];
    first [ apply (extracted_NoDup _ _ _ Hids H) | rewrite H; constructor ].
Qed.

Lemma suggested_slots_are_distinct_witness :
  let run := suggest_optimal_bookings (studio two_slots []) (clock_at 9) reference_solve
               18 2 None 7 None new_scheduler in
  exists r,
    fst run = Return r
    /\ map Suggestion.slot_id (suggested_slots r) = [1; 2]
    /\ NoDup (map Suggestion.slot_id (suggested_slots r)).
Proof.
  cbv zeta. eexists.
  split; [vm_compute; reflexivity |].
  split; [reflexivity |].
  eapply (suggested_slots_are_distinct (studio two_slots []) (clock_at 9) reference_solve
            18 2 None 7 None new_scheduler).
  - simpl. repeat constructor; simpl; intuition discriminate.
  - vm_compute. reflexivity.
Defined.

(** ** Sessions across the routes *)

Lemma history_members (session : SuggestionSession.t) (ids : list Z) (x : Z) :
  In x (SuggestionSession.get_all_suggested_slots
          (SuggestionSession.add_to_suggested_history session ids))
  <-> In x (SuggestionSession.get_all_suggested_slots session) \/ In x ids.
Proof.
  unfold SuggestionSession.get_all_suggested_slots,
    SuggestionSession.add_to_suggested_history. simpl.
  rewrite history_loop, in_app_iff.
  destruct (first_seen_spec
              (match SuggestionSession.all_suggested_slots_json session with
               | Some slots => slots
               | None => []
               end) ids) as [_ Hin].
  rewrite Hin.
  destruct (in_dec Z.eq_dec x
              (match SuggestionSession.all_suggested_slots_json session with
               | Some slots => slots
               | None => []
               end)); tauto.
Qed.

Lemma truthy_slot_ids_In (suggestions : list Suggestion.t) (x : Z) :
  In x (truthy_slot_ids suggestions)
  <-> x <> 0 /\ exists g, In g suggestions /\ Suggestion.slot_id g = x.
Proof.
  unfold truthy_slot_ids. rewrite filter_In, in_map_iff, negb_true_iff, Z.eqb_neq.
  split.
  - intros [(g & Hg & Hin) Hx]. split; [exact Hx |]. exists g. auto.
  - intros [Hx (g & Hin & Hg)]. split; [exists g; auto | exact Hx].
Qed.

Lemma find_session_found (token : string) (table : SessionTable)
    (session : SuggestionSession.t) :
  find_session token table = Some session ->
  In session table
  /\ SuggestionSession.session_token session = token
  /\ SuggestionSession.is_active session = true.
Proof.
  unfold find_session. intros H. apply find_some in H. destruct H as [Hin H].
  apply andb_true_iff in H. destruct H as [Ht Ha]. apply String.eqb_eq in Ht. auto.
Qed.

Lemma find_session_appended (token other : string) (table : SessionTable)
    (session : SuggestionSession.t) :
  SuggestionSession.session_token session = token ->
  SuggestionSession.is_active session = true ->
  find_session other (list_append table session)
  = match find_session other table with
    | Some found => Some found
    | None => if String.eqb token other then Some session else None
    end.
Proof.
  intros Ht Ha. unfold find_session, list_append.
  induction table as [| s table IH]; simpl.
  - rewrite Ht, Ha, andb_true_r. reflexivity.
  - destruct (String.eqb (SuggestionSession.session_token s) other
              && SuggestionSession.is_active s); [reflexivity | exact IH].
Qed.

Lemma find_session_committed (token other : string) (table : SessionTable)
    (old updated : SuggestionSession.t) :
  find_session token table = Some old ->
  SuggestionSession.session_token updated = token ->
  SuggestionSession.is_active updated = true ->
  find_session other (commit_session token updated table)
  = if String.eqb token other then Some updated else find_session other table.
Proof.
  intros Hfind Ht Ha. unfold find_session in *.
  induction table as [| s table IH]; simpl in *; [discriminate Hfind |].
  destruct (String.eqb (SuggestionSession.session_token s) token
            && SuggestionSession.is_active s) eqn:E.
  - apply andb_true_iff in E. destruct E as [Es Eact]. apply String.eqb_eq in Es.
    simpl. rewrite Ht, Ha, Es, Eact, !andb_true_r.
    destruct (String.eqb token other); reflexivity.
  - simpl. specialize (IH Hfind).
    destruct (String.eqb (SuggestionSession.session_token s) other
              && SuggestionSession.is_active s) eqn:E'.
    + apply andb_true_iff in E'. destruct E' as [Es Eact]. apply String.eqb_eq in Es.
      destruct (String.eqb token other) eqn:Et; [| reflexivity].
      apply String.eqb_eq in Et. subst other.
      rewrite Es, String.eqb_refl, Eact in E. discriminate E.
    + exact IH.
Qed.

(** [POST /suggestions/booking] that answers 200 has stored a session under
    its token: the client's, with the suggestions of the response, an empty
    history and an expiry one hour after the local time of the call. The
    sessions stored under other tokens are as before. The token is fresh, as
    a [uuid4] is. *)
Theorem suggest_optimal_booking_opens_a_session :
  forall (db : Database) (clock : Clock) (cp_solve : CpModel -> SolverResponse)
         (token : string) (client_id : Z) (preferred_date : option date)
         (days_flexibility num_sessions : Z) (table table' : SessionTable)
         (response : SuggestionResponse),
    find_session token table = None ->
    suggest_optimal_booking db clock cp_solve token client_id preferred_date
      days_flexibility num_sessions table = (HttpOk response, table') ->
    exists session,
      find_session token table' = Some session
      /\ SuggestionSession.client_id session = client_id
      /\ SuggestionSession.suggestions_json session = resp_suggestions response
      /\ SuggestionSession.get_all_suggested_slots session = []
      /\ SuggestionSession.expires_at session = now clock + delta 0 1
      /\ resp_session_token response = token
      /\ (forall other, other <> token ->
                        find_session other table' = find_session other table).
Proof.
  intros db clock cp_solve token client_id preferred_date days_flexibility num_sessions
    table table' response Hfresh Hrun.
  unfold suggest_optimal_booking in Hrun.
  destruct (negb _); [discriminate Hrun |].
  destruct (run_scheduler _ _ _ _ _ _ _ _) as [result | e]; [| discriminate Hrun].
  inversion Hrun; subst response table'. clear Hrun.
  eexists. split.
  - rewrite (find_session_appended token token); [| reflexivity | reflexivity].
    rewrite Hfresh, String.eqb_refl. reflexivity.
  - simpl. repeat split.
    intros other Hother.
    rewrite (find_session_appended token other); [| reflexivity | reflexivity].
    destruct (find_session other table); [reflexivity |].
    destruct (String.eqb token other) eqn:E; [| reflexivity].
    apply String.eqb_eq in E. congruence.
Qed.

Lemma suggest_optimal_booking_opens_a_session_witness :
  let opened := suggest_optimal_booking (studio two_slots []) (clock_at 9) reference_solve
                  "tok" 18 None 7 1 [] in
  exists response session,
    fst opened = HttpOk response
    /\ find_session "tok" (snd opened) = Some session
    /\ map Suggestion.slot_id (SuggestionSession.suggestions_json session) = [1].
Proof.
  cbv zeta.
  edestruct (suggest_optimal_booking_opens_a_session (studio two_slots []) (clock_at 9)
               reference_solve "tok" 18 None 7 1 [])
    as (session & Hfind & _ & Hsugg & _).
  - reflexivity.
  - vm_compute. reflexivity.
  - eexists. exists session.
    split; [vm_compute; reflexivity |].
    split; [exact Hfind |].
    rewrite Hsugg. reflexivity.
Defined.

(** The expiry of a session is its local creation time plus one hour, and
    the session routes compare it with the UTC time of the later call: the
    owner of a session opened at [clock] is let in at [clock'] exactly when
    the UTC time of [clock'] is not after the local time of [clock] plus one
    hour. *)
Theorem session_accepted_until_local_creation_plus_one_hour :
  forall (db : Database) (clock clock' : Clock) (cp_solve : CpModel -> SolverResponse)
         (token failed : string) (client_id : Z) (preferred_date : option date)
         (days_flexibility num_sessions : Z) (table table' : SessionTable)
         (response : SuggestionResponse),
    find_session token table = None ->
    suggest_optimal_booking db clock cp_solve token client_id preferred_date
      days_flexibility num_sessions table = (HttpOk response, table') ->
    ((exists session, checked_session clock' failed token client_id table' = HttpOk session)
     <-> utcnow clock' <= now clock + delta 0 1).
Proof.
  intros db clock clock' cp_solve token failed client_id preferred_date days_flexibility
    num_sessions table table' response Hfresh Hrun.
  unfold suggest_optimal_booking in Hrun.
  destruct (negb _); [discriminate Hrun |].
  destruct (run_scheduler _ _ _ _ _ _ _ _) as [result | e]; [| discriminate Hrun].
  inversion Hrun; subst response table'. clear Hrun.
  unfold checked_session.
  rewrite (find_session_appended token token); [| reflexivity | reflexivity].
  rewrite Hfresh, String.eqb_refl. simpl. rewrite Z.eqb_refl. simpl.
  destruct (utcnow clock' >? now clock + delta 0 1) eqn:E.
  - apply Z.gtb_lt in E. split; [intros [session H]; discriminate H | lia].
  - rewrite Z.gtb_ltb in E. apply Z.ltb_ge in E. split; [intros _; exact E |].
    intros _. eexists. reflexivity.
Qed.

(** A server whose local time is five hours behind UTC: the session opened
    at 09:00 local time is refused at that same instant. *)
Lemma session_accepted_until_local_creation_plus_one_hour_witness :
  let clock := {| now := at_hour wednesday 9; utcnow := at_hour wednesday 14;
                  solve_time_ms := 0 |} in
  let opened := suggest_optimal_booking (studio two_slots []) clock reference_solve
                  "tok" 18 None 7 1 [] in
  ~ exists session,
      checked_session clock "failed" "tok" 18 (snd opened) = HttpOk session.
Proof.
  cbv zeta. intros H.
  eapply (session_accepted_until_local_creation_plus_one_hour (studio two_slots [])
            {| now := at_hour wednesday 9; utcnow := at_hour wednesday 14;
               solve_time_ms := 0 |}
            {| now := at_hour wednesday 9; utcnow := at_hour wednesday 14;
               solve_time_ms := 0 |}
            reference_solve "tok" "failed" 18 None 7 1 []) in H.
  - vm_compute in H. apply H. reflexivity.
  - reflexivity.
  - vm_compute. reflexivity.
Defined.

Lemma history_NoDup (session : SuggestionSession.t) (ids : list Z) :
  NoDup (SuggestionSession.get_all_suggested_slots session) ->
  NoDup (SuggestionSession.get_all_suggested_slots
           (SuggestionSession.add_to_suggested_history session ids)).
Proof.
  unfold SuggestionSession.get_all_suggested_slots,
    SuggestionSession.add_to_suggested_history. simpl.
  rewrite history_loop. intros Hb.
  destruct (first_seen_spec
              (match SuggestionSession.all_suggested_slots_json session with
               | Some slots => slots
               | None => []
               end) ids) as [Hnd Hin].
  apply NoDup_app; [exact Hb | exact Hnd |].
  intros x Hx Hx'. apply Hin in Hx'. tauto.
Qed.

(** A session route that answers with an error has changed no session; the
    two re-suggestion routes answer every error, the 404, 403 and 410 of
    their own checks included, with status 500. *)
Theorem failed_session_calls_change_nothing :
  forall (db : Database) (clock : Clock) (cp_solve : CpModel -> SolverResponse)
         (token : string) (table : SessionTable) (code : Z) (detail : string),
    (forall client_id preferred_date days_flexibility num_sessions,
        fst (suggest_optimal_booking db clock cp_solve token client_id preferred_date
               days_flexibility num_sessions table) = HttpError code detail ->
        snd (suggest_optimal_booking db clock cp_solve token client_id preferred_date
               days_flexibility num_sessions table) = table
        /\ (code = 422 \/ code = 500))
    /\ (forall user,
          fst (re_suggest_session_based db clock cp_solve token user table)
          = HttpError code detail ->
          snd (re_suggest_session_based db clock cp_solve token user table) = table
          /\ code = 500)
    /\ (forall slot_id user,
          fst (re_suggest_individual_slot db clock cp_solve token slot_id user table)
          = HttpError code detail ->
          snd (re_suggest_individual_slot db clock cp_solve token slot_id user table) = table
          /\ code = 500).
Proof.
  intros db clock cp_solve token table code detail.
  split; [| split].
  - intros client_id preferred_date days_flexibility num_sessions.
    unfold suggest_optimal_booking.
    destruct (negb _); [simpl; intros H; inversion H; auto |].
    destruct (run_scheduler _ _ _ _ _ _ _ _); simpl; intros H; inversion H; auto.
  - intros user. unfold re_suggest_session_based, checked_session.
    destruct (find_session token table) as [session |];
      [| simpl; intros H; inversion H; auto].
    destruct (negb _); [simpl; intros H; inversion H; auto |].
    destruct (_ >? _); [simpl; intros H; inversion H; auto |].
    destruct (run_scheduler _ _ _ _ _ _ _ _); simpl; intros H; inversion H; auto.
  - intros slot_id user. unfold re_suggest_individual_slot, checked_session.
    destruct (find_session token table) as [session |];
      [| simpl; intros H; inversion H; auto].
    destruct (negb _); [simpl; intros H; inversion H; auto |].
    destruct (_ >? _); [simpl; intros H; inversion H; auto |].
    destruct (find _ _); [| simpl; intros H; inversion H; auto].
    destruct (run_scheduler _ _ _ _ _ _ _ _) as [result | e];
      [| simpl; intros H; inversion H; auto].
    destruct (suggested_slots result); simpl; intros H; inversion H; auto.
Qed.

(** "Re-suggest all" that answers 200 leaves the session with the suggestions
    of its response, and with a history that holds exactly the ids it held
    before, the non-zero ids of the suggestions the session showed before the
    call and the non-zero ids of the new suggestions; a history without
    duplicates stays without duplicates, and the other sessions are as they
    were. *)
Theorem re_suggest_session_based_extends_the_history :
  forall (db : Database) (clock : Clock) (cp_solve : CpModel -> SolverResponse)
         (token : string) (user : Z) (table table' : SessionTable)
         (response : SuggestionResponse),
    re_suggest_session_based db clock cp_solve token user table = (HttpOk response, table') ->
    exists before after,
      find_session token table = Some before
      /\ find_session token table' = Some after
      /\ SuggestionSession.suggestions_json after = resp_suggestions response
      /\ (forall x,
            In x (SuggestionSession.get_all_suggested_slots after)
            <-> In x (SuggestionSession.get_all_suggested_slots before)
                \/ In x (truthy_slot_ids (SuggestionSession.suggestions_json before))
                \/ In x (truthy_slot_ids (resp_suggestions response)))
      /\ (NoDup (SuggestionSession.get_all_suggested_slots before) ->
          NoDup (SuggestionSession.get_all_suggested_slots after))
      /\ SuggestionSession.client_id after = SuggestionSession.client_id before
      /\ SuggestionSession.expires_at after = SuggestionSession.expires_at before
      /\ (forall other, other <> token ->
                        find_session other table' = find_session other table).
Proof.
  intros db clock cp_solve token user table table' response Hrun.
  unfold re_suggest_session_based in Hrun.
  destruct (checked_session clock _ token user table) as [before | code detail] eqn:Echeck;
    [| discriminate Hrun].
  apply checked_session_found in Echeck.
  destruct (find_session_found _ _ _ Echeck) as (_ & Htoken & Hactive).
  destruct (run_scheduler _ _ _ _ _ _ _ _) as [result | e]; [| discriminate Hrun].
  set (shown := SuggestionSession.add_to_suggested_history before
                  (truthy_slot_ids (SuggestionSession.suggestions_json before))) in *.
  set (extended := match suggested_slots result with
                   | [] => shown
                   | _ => SuggestionSession.add_to_suggested_history shown
                            (truthy_slot_ids (suggested_slots result))
                   end) in *.
  inversion Hrun; subst response table'. clear Hrun.
  assert (Hmem : forall x,
             In x (SuggestionSession.get_all_suggested_slots extended)
             <-> In x (SuggestionSession.get_all_suggested_slots before)
                 \/ In x (truthy_slot_ids (SuggestionSession.suggestions_json before))
                 \/ In x (truthy_slot_ids (suggested_slots result))).
  { intros x. subst extended. destruct (suggested_slots result) as [| g l] eqn:E.
    - subst shown. rewrite history_members. simpl. tauto.
    - rewrite history_members. subst shown. rewrite history_members. tauto. }
  assert (Hnd : NoDup (SuggestionSession.get_all_suggested_slots before) ->
                NoDup (SuggestionSession.get_all_suggested_slots extended)).
  { intros H. subst extended. destruct (suggested_slots result);
      [| apply history_NoDup]; apply history_NoDup, H. }
  assert (Hsame : SuggestionSession.session_token extended = token
                  /\ SuggestionSession.is_active extended = true
                  /\ SuggestionSession.client_id extended = SuggestionSession.client_id before
                  /\ SuggestionSession.expires_at extended
                     = SuggestionSession.expires_at before).
  { subst extended. destruct (suggested_slots result); simpl; auto. }
  destruct Hsame as (Ht & Ha & Hc & He).
  exists before. eexists.
  split; [exact Echeck |].
  split.
  { rewrite (find_session_committed token token table before);
      [| exact Echeck | exact Ht | exact Ha].
    rewrite String.eqb_refl. reflexivity. }
  simpl. split; [reflexivity |].
  split; [exact Hmem |].
  split; [exact Hnd |].
  split; [exact Hc |].
  split; [exact He |].
  intros other Hother.
  rewrite (find_session_committed token other table before); [| exact Echeck | exact Ht | exact Ha].
  destruct (String.eqb token other) eqn:E; [| reflexivity].
  apply String.eqb_eq in E. congruence.
Qed.

(** A session opened for one session gets slot 1; "re-suggest all" answers
    with slot 2 and the history becomes [1; 2]. *)
Lemma re_suggest_session_based_extends_the_history_witness :
  let db := studio two_slots [] in
  let opened := suggest_optimal_booking db (clock_at 9) reference_solve "tok" 18 None 7 1 [] in
  let again := re_suggest_session_based db (clock_at 9) reference_solve "tok" 18
                 (snd opened) in
  exists response after,
    fst again = HttpOk response
    /\ find_session "tok" (snd again) = Some after
    /\ SuggestionSession.get_all_suggested_slots after = [1; 2].
Proof.
  cbv zeta.
  edestruct (re_suggest_session_based_extends_the_history (studio two_slots []) (clock_at 9)
               reference_solve "tok" 18
               (snd (suggest_optimal_booking (studio two_slots []) (clock_at 9)
                       reference_solve "tok" 18 None 7 1 [])))
    as (before & after & _ & Hafter & _).
  - vm_compute. reflexivity.
  - eexists. exists after.
    split; [vm_compute; reflexivity |].
    split; [exact Hafter |].
    vm_compute in Hafter. inversion Hafter. reflexivity.
Defined.

(** "Replace one" that answers 200, given a solver that answers correctly:
    the session keeps as many suggestions as it had, none of them has the
    replaced slot id any more, the suggestions for other slots stay where
    they were, the new suggestion is among them, and the history gains
    exactly the new slot id. *)
Theorem replace_one_updates_the_session :
  forall (db : Database) (clock : Clock) (cp_solve : CpModel -> SolverResponse)
         (token : string) (slot_id user : Z) (table table' : SessionTable)
         (response : IndividualResponse),
    answers_correctly cp_solve ->
    re_suggest_individual_slot db clock cp_solve token slot_id user table
    = (HttpOk response, table') ->
    exists before after,
      find_session token table = Some before
      /\ find_session token table' = Some after
      /\ List.length (SuggestionSession.suggestions_json after)
         = List.length (SuggestionSession.suggestions_json before)
      /\ (forall g, In g (SuggestionSession.suggestions_json after) ->
                    Suggestion.slot_id g <> slot_id)
      /\ (forall i g, nth_error (SuggestionSession.suggestions_json before) i = Some g ->
                      Suggestion.slot_id g <> slot_id ->
                      nth_error (SuggestionSession.suggestions_json after) i = Some g)
      /\ In (ind_suggestion response) (SuggestionSession.suggestions_json after)
      /\ (forall x,
            In x (SuggestionSession.get_all_suggested_slots after)
            <-> In x (SuggestionSession.get_all_suggested_slots before)
                \/ x = ind_new_slot_id response).
Proof.
  intros db clock cp_solve token slot_id user table table' response Hok Hrun.
  unfold re_suggest_individual_slot in Hrun.
  destruct (checked_session clock _ token user table) as [before | code detail] eqn:Echeck;
    [| discriminate Hrun].
  apply checked_session_found in Echeck.
  destruct (find_session_found _ _ _ Echeck) as (_ & Htoken & Hactive).
  destruct (find _ (SuggestionSession.suggestions_json before)) as [target |] eqn:Etarget;
    [| discriminate Hrun].
  set (history := SuggestionSession.get_all_suggested_slots before) in *.
  set (excluded := if contains slot_id history then history
                   else list_append history slot_id) in *.
  unfold run_scheduler in Hrun.
  pose proof (suggest_optimal_bookings_outside db clock cp_solve Hok
                (SuggestionSession.client_id before) 1
                (option_map combine_min (SuggestionSession.preferred_date before))
                (SuggestionSession.days_flexibility before) (Some excluded)
                new_scheduler I) as Hout.
  destruct (suggest_optimal_bookings _ _ _ _ _ _ _ _ new_scheduler) as [[result | e] s'];
    simpl in Hrun; [| discriminate Hrun].
  destruct (suggested_slots result) as [| new_suggestion others] eqn:Eslots;
    [discriminate Hrun |].
  inversion Hrun; subst response table'. clear Hrun. simpl.
  assert (Hnew : Suggestion.slot_id new_suggestion <> slot_id).
  { intros E.
    apply (single_session_none_excluded _ excluded _ _ new_suggestion Hout);
      [left; reflexivity |].
    rewrite E. subst excluded. destruct (contains slot_id history) eqn:Ec.
    - apply contains_In, Ec.
    - unfold list_append. apply in_or_app. right. left. reflexivity. }
  exists before. eexists.
  split; [exact Echeck |].
  split.
  { rewrite (find_session_committed token token table before);
      [| exact Echeck | exact Htoken | exact Hactive].
    rewrite String.eqb_refl. reflexivity. }
  simpl. split; [apply length_map |].
  split.
  { intros g Hg. apply in_map_iff in Hg. destruct Hg as (g0 & Hg0 & _).
    destruct (Suggestion.slot_id g0 =? slot_id) eqn:E; subst g; [exact Hnew |].
    apply Z.eqb_neq, E. }
  split.
  { intros i g Hi Hg. rewrite nth_error_map, Hi. simpl.
    apply Z.eqb_neq in Hg. rewrite Hg. reflexivity. }
  split.
  { apply find_some in Etarget. destruct Etarget as [Hin Hid].
    apply in_map_iff. exists target. rewrite Hid. auto. }
  intros x.
  change (In x (SuggestionSession.get_all_suggested_slots
                  (SuggestionSession.add_to_suggested_history before
                     [Suggestion.slot_id new_suggestion]))
          <-> In x history \/ x = Suggestion.slot_id new_suggestion).
  rewrite history_members. simpl. subst history. intuition.
Qed.

(** A session opened for two sessions shows slots 1 and 2; replacing slot 1
    needs a third candidate. *)
Lemma replace_one_updates_the_session_witness :
  let db := studio [slot 1 3 10; slot 2 5 10; slot 3 6 10] [] in
  let opened := suggest_optimal_booking db (clock_at 9) reference_solve "tok" 18 None 7 2 [] in
  let replaced := re_suggest_individual_slot db (clock_at 9) reference_solve "tok" 1 18
                    (snd opened) in
  exists response after,
    fst replaced = HttpOk response
    /\ find_session "tok" (snd replaced) = Some after
    /\ List.length (SuggestionSession.suggestions_json after) = 2%nat.
Proof.
  cbv zeta.
  edestruct (replace_one_updates_the_session
               (studio [slot 1 3 10; slot 2 5 10; slot 3 6 10] []) (clock_at 9)
               reference_solve "tok" 1 18
               (snd (suggest_optimal_booking
                       (studio [slot 1 3 10; slot 2 5 10; slot 3 6 10] []) (clock_at 9)
                       reference_solve "tok" 18 None 7 2 [])))
    as (before & after & Hbefore & Hafter & Hlen & _).
  - apply reference_solve_correct.
  - vm_compute. reflexivity.
  - eexists. exists after.
    split; [vm_compute; reflexivity |].
    split; [exact Hafter |].
    rewrite Hlen. vm_compute in Hbefore. inversion Hbefore. reflexivity.
Defined.

(** ** The candidate query *)

Lemma insert_by_perm {A : Type} (le : A -> A -> bool) (x : A) (l : list A) :
  Permutation (insert_by le x l) (x :: l).
Proof.
  induction l as [| y l IH]; simpl; [reflexivity |].
  destruct (le x y); [reflexivity |].
  rewrite IH. apply perm_swap.
Qed.

Lemma sort_by_perm {A : Type} (le : A -> A -> bool) (l : list A) :
  Permutation (sort_by le l) l.
Proof.
  induction l as [| x l IH]; simpl; [reflexivity |].
  rewrite insert_by_perm. apply perm_skip, IH.
Qed.

Lemma sort_by_In {A : Type} (le : A -> A -> bool) (l : list A) (x : A) :
  In x (sort_by le l) <-> In x l.
Proof.
  split; apply Permutation_in; [| apply Permutation_sym]; apply sort_by_perm.
Qed.

(** A sort by an integer key keeps the order the list had among elements of
    equal key. *)
Lemma insert_by_key_sorted {A : Type} (key : A -> Z) (R : A -> A -> Prop) (x : A)
    (l : list A) :
  StronglySorted (key_then key R) l -> Forall (R x) l ->
  StronglySorted (key_then key R) (insert_by (fun a b => key a <=? key b) x l).
Proof.
  induction 1 as [| y l Hl IH Hy]; intros Hx; simpl.
  - constructor; constructor.
  - inversion Hx as [| y' l' Hxy Hxl]; subst.
    destruct (key x <=? key y) eqn:E.
    + apply Z.leb_le in E. constructor; [constructor; assumption |].
      constructor.
      * destruct (Z.eq_dec (key x) (key y)); [right; auto | left; lia].
      * rewrite Forall_forall in *. intros z Hz.
        specialize (Hy z Hz). specialize (Hxl z Hz).
        assert (Hyz : key y <= key z) by (destruct Hy as [H | [H _]]; lia).
        destruct (Z.eq_dec (key x) (key z)); [right; auto | left; lia].
    + apply Z.leb_gt in E. constructor; [apply IH, Hxl |].
      rewrite Forall_forall in *. intros z Hz.
      apply (Permutation_in _ (insert_by_perm _ x l)) in Hz.
      destruct Hz as [<- | Hz]; [left; exact E | apply Hy, Hz].
Qed.

Lemma sort_by_key_sorted {A : Type} (key : A -> Z) (R : A -> A -> Prop) (l : list A) :
  StronglySorted R l ->
  StronglySorted (key_then key R) (sort_by (fun a b => key a <=? key b) l).
Proof.
  induction 1 as [| x l Hl IH Hx]; simpl; [constructor |].
  apply insert_by_key_sorted; [exact IH |].
  rewrite Forall_forall in *. intros z Hz. apply Hx.
  apply sort_by_In in Hz. exact Hz.
Qed.

Lemma by_day_then_hour_spec (a b : ScheduleSlot.t) :
  schedule_crud.by_day_then_hour a b = true <-> day_then_hour a b.
Proof.
  unfold schedule_crud.by_day_then_hour, day_then_hour.
  rewrite orb_true_iff, andb_true_iff, Z.ltb_lt, Z.eqb_eq, Z.leb_le. reflexivity.
Qed.

Lemma by_day_then_hour_total (a b : ScheduleSlot.t) :
  schedule_crud.by_day_then_hour a b = false -> day_then_hour b a.
Proof.
  unfold schedule_crud.by_day_then_hour, day_then_hour.
  rewrite orb_false_iff, andb_false_iff, Z.ltb_ge, Z.eqb_neq, Z.leb_gt.
  intros [H1 [H2 | H2]]; lia.
Qed.

Lemma day_then_hour_trans (a b c : ScheduleSlot.t) :
  day_then_hour a b -> day_then_hour b c -> day_then_hour a c.
Proof. unfold day_then_hour. intros H1 H2. lia. Qed.

Lemma insert_by_day_sorted (x : ScheduleSlot.t) (l : list ScheduleSlot.t) :
  StronglySorted day_then_hour l ->
  StronglySorted day_then_hour (insert_by schedule_crud.by_day_then_hour x l).
Proof.
  induction 1 as [| y l Hl IH Hy]; simpl.
  - constructor; constructor.
  - destruct (schedule_crud.by_day_then_hour x y) eqn:E.
    + apply by_day_then_hour_spec in E. constructor; [constructor; assumption |].
      constructor; [exact E |].
      eapply Forall_impl; [| exact Hy]. intros z Hz.
      eapply day_then_hour_trans; eassumption.
    + apply by_day_then_hour_total in E. constructor; [exact IH |].
      rewrite Forall_forall in *. intros z Hz.
      apply (Permutation_in _ (insert_by_perm _ x l)) in Hz.
      destruct Hz as [<- | Hz]; [exact E | apply Hy, Hz].
Qed.

Lemma sort_by_day_sorted (l : list ScheduleSlot.t) :
  StronglySorted day_then_hour (sort_by schedule_crud.by_day_then_hour l).
Proof.
  induction l as [| x l IH]; simpl; [constructor | apply insert_by_day_sorted, IH].
Qed.

Lemma filter_sorted {A : Type} (R : A -> A -> Prop) (p : A -> bool) (l : list A) :
  StronglySorted R l -> StronglySorted R (filter p l).
Proof.
  induction 1 as [| x l Hl IH Hx]; simpl; [constructor |].
  destruct (p x); [| exact IH]. constructor; [exact IH |].
  rewrite Forall_forall in *. intros z Hz. apply Hx. apply filter_In in Hz. apply Hz.
Qed.

Lemma available_slots_spec :
  forall (db : Tables) (client_id : Z) (week_start : datetime) (x : ScheduleSlot.t),
    In x (schedule_crud.get_available_slots_for_client db client_id week_start)
    <-> exists plan,
          schedule_crud.get_client_plan db client_id = Some plan
          /\ In (SlotRow.mk x true) (schedule_slots db)
          /\ ScheduleSlot.coach_id x = ClientPlan.assigned_coach_id plan
          /\ (let slot_datetime :=
                week_start + delta (ScheduleSlot.day_of_week x) (ScheduleSlot.start_hour x) in
              week_start <= slot_datetime < week_start + delta 7 0
              /\ schedule_crud.booking_count db (ScheduleSlot.id x) slot_datetime
                 < ScheduleSlot.capacity x)
          /\ preference_admits (schedule_crud.get_client_preference db client_id)
                               (ScheduleSlot.start_hour x).
Proof.
  intros db client_id week_start x.
  unfold schedule_crud.get_available_slots_for_client.
  destruct (schedule_crud.get_client_plan db client_id) as [plan |];
    [| split; [intros [] | intros (plan & H & _); discriminate H]].
  cbv zeta.
  set (dt := week_start + delta (ScheduleSlot.day_of_week x) (ScheduleSlot.start_hour x)).
  assert (Hbase :
    In x (filter (fun slot =>
                    if (week_start + delta (ScheduleSlot.day_of_week slot)
                                           (ScheduleSlot.start_hour slot) <? week_start)
                       || (week_start + delta (ScheduleSlot.day_of_week slot)
                                              (ScheduleSlot.start_hour slot)
                           >=? week_start + delta 7 0)
                    then false
                    else schedule_crud.booking_count db (ScheduleSlot.id slot)
                           (week_start + delta (ScheduleSlot.day_of_week slot)
                                               (ScheduleSlot.start_hour slot))
                         <? ScheduleSlot.capacity slot)
                 (schedule_crud.get_schedule_slots db None
                    (Some (ClientPlan.assigned_coach_id plan)) true))
    <-> In (SlotRow.mk x true) (schedule_slots db)
        /\ ScheduleSlot.coach_id x = ClientPlan.assigned_coach_id plan
        /\ (week_start <= dt < week_start + delta 7 0
            /\ schedule_crud.booking_count db (ScheduleSlot.id x) dt
               < ScheduleSlot.capacity x)).
  { rewrite filter_In. unfold schedule_crud.get_schedule_slots. cbv zeta.
    rewrite sort_by_In, in_map_iff. fold dt.
    split.
    - intros [(r & Hr & Hin) Hkeep]. apply filter_In in Hin. destruct Hin as [Hin Hcoach].
      apply filter_In in Hin. destruct Hin as [Hin Hactive].
      destruct r as [slot active]. simpl in *. subst slot active.
      apply Z.eqb_eq in Hcoach.
      split; [exact Hin |]. split; [exact Hcoach |].
      destruct ((dt <? week_start) || (dt >=? week_start + delta 7 0)) eqn:E;
        [discriminate Hkeep |].
      apply orb_false_iff in E. destruct E as [E1 E2].
      apply Z.ltb_ge in E1. rewrite Z.geb_leb in E2. apply Z.leb_gt in E2.
      apply Z.ltb_lt in Hkeep. lia.
    - intros (Hin & Hcoach & Hweek & Hroom). split.
      + exists (SlotRow.mk x true). split; [reflexivity |].
        apply filter_In. split; [| simpl; apply Z.eqb_eq, Hcoach].
        apply filter_In. split; [exact Hin | reflexivity].
      + replace ((dt <? week_start) || (dt >=? week_start + delta 7 0)) with false.
        * apply Z.ltb_lt, Hroom.
        * symmetry. apply orb_false_iff. split; [apply Z.ltb_ge; lia |].
          rewrite Z.geb_leb. apply Z.leb_gt. lia. }
  unfold preference_admits.
  destruct (schedule_crud.get_client_preference db client_id) as [pref |].
  2:{ rewrite Hbase. split.
      - intros (H1 & H2 & H3). exists plan. auto.
      - intros (plan' & E & H1 & H2 & H3 & _). inversion E; subst plan'. auto. }
  destruct (ClientPreference.preferred_start_hour pref) as [a |].
  2:{ rewrite Hbase. split.
      - intros (H1 & H2 & H3). exists plan. auto.
      - intros (plan' & E & H1 & H2 & H3 & _). inversion E; subst plan'. auto. }
  destruct (ClientPreference.preferred_end_hour pref) as [b |].
  2:{ rewrite Hbase. split.
      - intros (H1 & H2 & H3). exists plan. auto.
      - intros (plan' & E & H1 & H2 & H3 & _). inversion E; subst plan'. auto. }
  destruct (ClientPreference.is_flexible pref).
  - rewrite sort_by_In, filter_In, Hbase, andb_true_iff, Z.geb_leb, !Z.leb_le. split.
    + intros [(H1 & H2 & H3) H4]. exists plan. auto.
    + intros (plan' & E & H1 & H2 & H3 & H4). inversion E; subst plan'. auto.
  - rewrite filter_In, Hbase, andb_true_iff, Z.geb_leb, !Z.leb_le. split.
    + intros [(H1 & H2 & H3) H4]. exists plan. auto.
    + intros (plan' & E & H1 & H2 & H3 & H4). inversion E; subst plan'. auto.
Qed.

(** The slots the query offers a client are exactly the active slots of the
    client's coach that lie in the week counted from [week_start], have
    fewer bookings in their hour than their capacity, and start at an hour
    the client's preference admits. A client without a plan is offered
    nothing. *)
Theorem offered_slots_are_the_free_slots_of_the_coach :
  forall (db : Tables) (client_id : Z) (week_start : datetime) (x : ScheduleSlot.t),
    In x (schedule_crud.get_available_slots_for_client db client_id week_start)
    <-> exists plan,
          schedule_crud.get_client_plan db client_id = Some plan
          /\ In (SlotRow.mk x true) (schedule_slots db)
          /\ ScheduleSlot.coach_id x = ClientPlan.assigned_coach_id plan
          /\ (let slot_datetime :=
                week_start + delta (ScheduleSlot.day_of_week x) (ScheduleSlot.start_hour x) in
              week_start <= slot_datetime < week_start + delta 7 0
              /\ schedule_crud.booking_count db (ScheduleSlot.id x) slot_datetime
                 < ScheduleSlot.capacity x)
          /\ preference_admits (schedule_crud.get_client_preference db client_id)
                               (ScheduleSlot.start_hour x).
Proof. exact available_slots_spec. Qed.

(** The offered slots come by day of the week, then by hour; under a
    flexible preference with both bounds, the slots inside the window come
    first and the slots of the two adjacent hours after them, each group by
    day, then by hour. *)
Theorem offered_slots_order :
  forall (db : Tables) (client_id : Z) (week_start : datetime),
    match flexible_window (schedule_crud.get_client_preference db client_id) with
    | Some (a, b) =>
        StronglySorted (key_then (schedule_crud.preference_score a b) day_then_hour)
          (schedule_crud.get_available_slots_for_client db client_id week_start)
    | None =>
        StronglySorted day_then_hour
          (schedule_crud.get_available_slots_for_client db client_id week_start)
    end.
Proof.
  intros db client_id week_start.
  unfold schedule_crud.get_available_slots_for_client, flexible_window.
  destruct (schedule_crud.get_client_plan db client_id) as [plan |].
  2:{ destruct (schedule_crud.get_client_preference db client_id) as [pref |];
        [| constructor].
      destruct (ClientPreference.preferred_start_hour pref),
               (ClientPreference.preferred_end_hour pref); try constructor.
      destruct (ClientPreference.is_flexible pref); constructor. }
  cbv zeta.
  match goal with
  | |- context [filter ?p (schedule_crud.get_schedule_slots db None ?c true)] =>
      set (available := filter p (schedule_crud.get_schedule_slots db None c true))
  end.
  assert (Hsorted : StronglySorted day_then_hour available).
  { apply filter_sorted. unfold schedule_crud.get_schedule_slots. apply sort_by_day_sorted. }
  destruct (schedule_crud.get_client_preference db client_id) as [pref |];
    [| exact Hsorted].
  destruct (ClientPreference.preferred_start_hour pref) as [a |]; [| exact Hsorted].
  destruct (ClientPreference.preferred_end_hour pref) as [b |]; [| exact Hsorted].
  destruct (ClientPreference.is_flexible pref).
  - apply sort_by_key_sorted, filter_sorted, Hsorted.
  - apply filter_sorted, Hsorted.
Qed.

Lemma get_slot_by_id_of_row (db : Tables) (x : ScheduleSlot.t) (active : bool) :
  NoDup (map (fun r => ScheduleSlot.id (SlotRow.slot r)) (schedule_slots db)) ->
  In (SlotRow.mk x active) (schedule_slots db) ->
  schedule_crud.get_slot_by_id db (ScheduleSlot.id x) = Some x.
Proof.
  unfold schedule_crud.get_slot_by_id.
  induction (schedule_slots db) as [| r rows IH]; simpl; [intros _ [] |].
  intros Hnd [-> | Hin].
  - simpl. rewrite Z.eqb_refl. reflexivity.
  - inversion Hnd as [| i ids Hr Hrows]; subst.
    destruct (ScheduleSlot.id (SlotRow.slot r) =? ScheduleSlot.id x) eqn:E.
    + exfalso. apply Hr. apply Z.eqb_eq in E. rewrite E.
      apply in_map_iff. exists (SlotRow.mk x active). auto.
    + apply IH; assumption.
Qed.

(** When slot ids are unique, as primary keys are, the two queries agree:
    every slot offered to a client has, by [get_slot_occupancy] for the same
    week, an occupancy below its capacity. *)
Theorem offered_slots_have_room :
  forall (db : Tables) (client_id : Z) (week_start : datetime) (x : ScheduleSlot.t),
    NoDup (map (fun r => ScheduleSlot.id (SlotRow.slot r)) (schedule_slots db)) ->
    In x (schedule_crud.get_available_slots_for_client db client_id week_start) ->
    schedule_crud.get_slot_occupancy db (ScheduleSlot.id x) week_start
    < ScheduleSlot.capacity x.
Proof.
  intros db client_id week_start x Hnd Hin.
  apply available_slots_spec in Hin.
  destruct Hin as (plan & _ & Hrow & _ & Hweek & _). cbv zeta in Hweek.
  unfold schedule_crud.get_slot_occupancy.
  rewrite (get_slot_by_id_of_row db x true Hnd Hrow). cbv zeta.
  destruct Hweek as [Hweek Hroom].
  replace ((_ <? week_start) || (_ >=? week_start + delta 7 0)) with false;
    [exact Hroom |].
  symmetry. apply orb_false_iff. split; [apply Z.ltb_ge; lia |].
  rewrite Z.geb_leb. apply Z.leb_gt. lia.
Qed.

(** Slot 1 (Thursday 10:00) of the gym is offered to client 18; nobody has
    booked it. *)
Lemma offered_slots_have_room_witness :
  In (slot 1 3 10)
     (schedule_crud.get_available_slots_for_client gym 18 (combine_min wednesday))
  /\ schedule_crud.get_slot_occupancy gym 1 (combine_min wednesday) < 10.
Proof.
  assert (Hin : In (slot 1 3 10)
                   (schedule_crud.get_available_slots_for_client gym 18
                      (combine_min wednesday)))
    by (vm_compute; left; reflexivity).
  split; [exact Hin |].
  apply (offered_slots_have_room gym 18 (combine_min wednesday) (slot 1 3 10)).
  - simpl. repeat constructor; simpl; intuition discriminate.
  - exact Hin.
Defined.

(** ** The engine over the tables *)

Lemma hoare_to_returns {A : Type} (m : M A) (Q : A -> Prop) :
  hoare (fun _ => True) m (fun a _ => Q a) -> returns m Q.
Proof. intros H s a s' E. specialize (H s I). rewrite E in H. exact H. Qed.

Section ListsOfResults.

Variable db : Database.
Variable clock : Clock.
Variable cp_solve : CpModel -> SolverResponse.

(** A property of suggestion lists that the empty list has and that every
    list the extractor returns has. *)
Variable Q : SchedulingData -> list Suggestion.t -> Prop.
Hypothesis Q_nil : forall sd, Q sd [].
Hypothesis Q_extract : forall sd sr, returns (_extract_suggestions db sd sr) (Q sd).

Lemma partial_attempt_list (client_id : Z) (sd : SchedulingData) (original k : Z) :
  returns (partial_attempt db clock cp_solve client_id sd original k)
          (fun r => match r with
                    | Some res => Q sd (suggested_slots res)
                    | None => True
                    end).
Proof.
  unfold partial_attempt.
  do 9 (apply returns_bind; intros).
  destruct (_ || _); [| apply returns_ret; exact I].
  eapply returns_bind_with; [apply Q_extract |].
  intros suggestions HQ.
  do 3 (apply returns_bind; intros).
  apply returns_ret. exact HQ.
Qed.

Lemma partial_loop_list (client_id : Z) (sd : SchedulingData) (original : Z)
    (counts : list Z) :
  returns (partial_loop db clock cp_solve client_id sd original counts)
          (fun r => match r with
                    | Some res => Q sd (suggested_slots res)
                    | None => True
                    end).
Proof.
  induction counts as [| k rest IH]; simpl.
  - apply returns_ret. exact I.
  - eapply returns_bind_with.
    + apply returns_try_except; [apply partial_attempt_list |].
      intros e. apply returns_ret. exact I.
    + intros [res |] H; [apply returns_ret; exact H | exact IH].
Qed.

Lemma try_partial_solutions_list (client_id : Z) (sd : SchedulingData) (original : Z) :
  returns (_try_partial_solutions db clock cp_solve client_id sd original)
          (fun r => Q sd (suggested_slots r)).
Proof.
  unfold _try_partial_solutions.
  eapply returns_bind_with; [apply partial_loop_list |].
  intros [res |] H; [apply returns_ret; exact H |].
  intros s r s' Hrun.
  rewrite (detailed_failure_analysis_empty clock client_id sd original s r s' Hrun).
  apply Q_nil.
Qed.

Lemma suggest_optimal_bookings_list (client_id num_sessions : Z)
    (preferred_date : option datetime) (days_flexibility : Z)
    (excluded_slot_ids : option (list Z)) :
  returns (suggest_optimal_bookings db clock cp_solve client_id num_sessions
             preferred_date days_flexibility excluded_slot_ids)
          (fun r =>
             match fst (_gather_scheduling_data db clock client_id preferred_date
                          days_flexibility new_scheduler) with
             | Return sd => Q sd (suggested_slots r)
             | Raise _ => suggested_slots r = []
             end).
Proof.
  unfold suggest_optimal_bookings.
  apply returns_try_except.
  - eapply returns_bind_with;
      [apply hoare_to_returns, (gather_scheduling_data_result db clock) |].
    intros sd Hsd. cbv beta in Hsd. rewrite Hsd.
    destruct (available_slots sd) as [| slot0 slots].
    + apply returns_ret. apply Q_nil.
    + destruct (_ <=? 0).
      * apply returns_ret. apply Q_nil.
      * do 12 (apply returns_bind; intros).
        destruct (String.eqb _ _); [apply try_partial_solutions_list |].
        eapply returns_bind_with; [apply Q_extract |].
        intros suggestions HQ.
        do 2 (apply returns_bind; intros).
        apply returns_ret. exact HQ.
  - intros e. apply returns_ret.
    destruct (fst _); [apply Q_nil | reflexivity].
Qed.

End ListsOfResults.

(** Every suggestion the extractor returns was built for a candidate. *)
Lemma extract_suggestions_built (db : Database) (sd : SchedulingData) (sr : SolveResult) :
  returns (_extract_suggestions db sd sr)
          (fun l => forall g, In g l ->
                      exists x, In x (available_slots sd) /\ built_for sd x g).
Proof.
  intros s l s' Hrun.
  destruct (solver s) as [response |] eqn:Esolver.
  - assert (H : hoare (fun s0 => solver s0 = Some response) (_extract_suggestions db sd sr)
                      (fun l0 _ => forall g, In g l0 ->
                                     exists x, In x (available_slots sd) /\ built_for sd x g)).
    { unfold _extract_suggestions.
      destruct (_ || _); [apply hoare_ret; intros s0 _ g [] |].
      eapply hoare_bind with
        (R := fun l0 _ => forall g, In g l0 ->
                            exists x, In x (available_slots sd) /\ built_for sd x g).
      - eapply hoare_weaken;
          [| apply hoare_for_fold with
               (Inv := fun (_ : list ScheduleSlot.t) acc s0 =>
                         solver s0 = Some response
                         /\ forall g, In g acc ->
                              exists x, In x (available_slots sd) /\ built_for sd x g)
           |].
        + intros s0 Hs0. split; [exact Hs0 | intros g []].
        + intros done x acc Hx.
          eapply hoare_bind; [apply hoare_get_self |]. intros s0. cbv beta.
          intros s1 [-> [Hsolver Hacc]]. rewrite Hsolver.
          unfold bind, lift, solver_Value.
          destruct (lookup_value (ScheduleSlot.id x) (solution response)) as [b |];
            [| exact I].
          destruct b; simpl; (split; [exact Hsolver |]); [| exact Hacc].
          intros g Hg. unfold list_append in Hg. apply in_app_or in Hg.
          destruct Hg as [Hg | [<- | []]]; [apply Hacc, Hg |].
          exists x. split; [exact Hx |]. repeat split.
        + intros l0 s0 [_ H]. exact H.
      - intros l0. apply hoare_ret. intros s0 Hl0 g Hg.
        apply Hl0, In_sort_suggestions, (In_firstn _ _ _ Hg). }
    specialize (H s Esolver). rewrite Hrun in H. exact H.
  - unfold _extract_suggestions in Hrun.
    destruct (_ || _); [inversion Hrun; intros g [] |].
    destruct (available_slots sd) as [| x rest].
    + inversion Hrun. intros g [].
    + cbn [for_fold] in Hrun. unfold bind, get_self in Hrun. cbv beta iota in Hrun.
      rewrite Esolver in Hrun. discriminate Hrun.
Qed.

(** Over the tables, whatever the solver answers: every suggestion names an
    active slot of the coach the client's plan assigns, carries that slot's
    day, hour and capacity, and starts at an hour the client's preference
    admits. A strict preference is thus a bound on what can be suggested,
    and a flexible one bounds it to one hour around the window. *)
Theorem suggestions_name_offered_slots :
  forall (db : Tables) (clock : Clock) (cp_solve : CpModel -> SolverResponse)
         (client_id num_sessions : Z) (preferred_date : option datetime)
         (days_flexibility : Z) (excluded_slot_ids : option (list Z))
         (s s' : Scheduler) (r : SchedulingResult) (g : Suggestion.t),
    suggest_optimal_bookings (database_of db) clock cp_solve client_id num_sessions
      preferred_date days_flexibility excluded_slot_ids s = (Return r, s') ->
    In g (suggested_slots r) ->
    exists x plan,
      schedule_crud.get_client_plan db client_id = Some plan
      /\ In (SlotRow.mk x true) (schedule_slots db)
      /\ ScheduleSlot.coach_id x = ClientPlan.assigned_coach_id plan
      /\ Suggestion.slot_id g = ScheduleSlot.id x
      /\ Suggestion.coach_id g = ClientPlan.assigned_coach_id plan
      /\ Suggestion.day_of_week g = ScheduleSlot.day_of_week x
      /\ Suggestion.hour g = ScheduleSlot.start_hour x
      /\ Suggestion.capacity_available g = ScheduleSlot.capacity x
      /\ preference_admits (schedule_crud.get_client_preference db client_id)
                           (Suggestion.hour g).
Proof.
  intros db clock cp_solve client_id num_sessions preferred_date days_flexibility
    excluded_slot_ids s s' r g Hrun Hg.
  pose proof (suggest_optimal_bookings_list (database_of db) clock cp_solve
                (fun sd l => forall g, In g l ->
                               exists x, In x (available_slots sd) /\ built_for sd x g)
                (fun sd g0 H => match H with end)
                (extract_suggestions_built (database_of db))
                client_id num_sessions preferred_date days_flexibility excluded_slot_ids
                s r s' Hrun) as Hlist.
  cbv beta in Hlist.
  destruct (fst _) as [sd | e] eqn:Hsd; [| rewrite Hlist in Hg; destruct Hg].
  destruct (Hlist g Hg) as (x & Hx & (Hid & Hday & Hhour & _) & Hcoach & Hcap).
  rewrite (gathered_available_slots _ _ _ _ _ _ Hsd) in Hx. simpl in Hx.
  apply available_slots_spec in Hx.
  destruct Hx as (plan & Hplan & Hrow & Hc & _ & Hpref).
  exists x, plan. rewrite Hhour, Hcoach, Hc. auto 10.
Qed.

(** Over the gym's tables, one session asked for on Wednesday at 09:00: the
    suggestion names slot 1, Thursday 10:00 with coach 7. *)
Lemma suggestions_name_offered_slots_witness :
  let run := suggest_optimal_bookings (database_of gym) (clock_at 9) reference_solve
               18 1 None 7 None new_scheduler in
  exists r g,
    fst run = Return r
    /\ suggested_slots r = [g]
    /\ exists x plan,
         schedule_crud.get_client_plan gym 18 = Some plan
         /\ In (SlotRow.mk x true) (schedule_slots gym)
         /\ ScheduleSlot.coach_id x = ClientPlan.assigned_coach_id plan
         /\ Suggestion.slot_id g = ScheduleSlot.id x
         /\ Suggestion.coach_id g = ClientPlan.assigned_coach_id plan
         /\ Suggestion.day_of_week g = ScheduleSlot.day_of_week x
         /\ Suggestion.hour g = ScheduleSlot.start_hour x
         /\ Suggestion.capacity_available g = ScheduleSlot.capacity x
         /\ preference_admits (schedule_crud.get_client_preference gym 18)
                              (Suggestion.hour g).
Proof.
  cbv zeta. eexists. eexists.
  split; [vm_compute; reflexivity |].
  split; [reflexivity |].
  eapply (suggestions_name_offered_slots gym (clock_at 9) reference_solve 18 1 None 7 None
            new_scheduler).
  - vm_compute. reflexivity.
  - left. reflexivity.
Defined.

(** ** Booking the selected suggestions *)

Lemma replace_hour_at_midnight (d : date) (h : Z) (dt : datetime) :
  replace_hour (combine_min d) h = Return dt ->
  0 <= h <= 23 /\ dt = at_hour d h /\ date_of dt = d.
Proof.
  unfold replace_hour, at_hour, date_of, combine_min.
  destruct ((0 <=? h) && (h <=? 23)) eqn:E; [| discriminate].
  apply andb_true_iff in E. destruct E as [E1 E2].
  apply Z.leb_le in E1. apply Z.leb_le in E2.
  rewrite Z.div_mul by (unfold us_per_day; lia).
  intros H. inversion H. split; [lia |]. split; [reflexivity |].
  symmetry. apply Z.div_unique with (r := h * us_per_hour);
    unfold us_per_day, us_per_hour; lia.
Qed.

Lemma same_day_range (d : date) (x : datetime) :
  combine_min d <= x < combine_min d + delta 1 0 <-> date_of x = d.
Proof.
  unfold combine_min, delta, date_of.
  assert (HU : 0 < us_per_day) by (unfold us_per_day; lia).
  split.
  - intros H. symmetry. apply Z.div_unique with (r := x - d * us_per_day); lia.
  - intros <-. pose proof (Z.mul_div_le x us_per_day HU).
    pose proof (Z.mul_succ_div_gt x us_per_day HU). lia.
Qed.

Lemma find_none_Forall {A : Type} (p : A -> bool) (l : list A) :
  find p l = None -> Forall (fun x => p x = false) l.
Proof.
  intros H. rewrite Forall_forall. intros x Hx. apply (find_none _ _ H _ Hx).
Qed.

(** One turn of the loop either records a failure or books. *)
Lemma book_one_spec (session : SuggestionSession.t) (suggestions : list Suggestion.t)
    (slot_rows : list SlotRow.t) (rows : list BookingRow.t)
    (successful : list BookedSuggestion) (failed : list FailedBooking) (slot_id : Z) :
  (exists failure,
      book_one session suggestions slot_rows (rows, successful, failed) slot_id
      = (rows, successful, failed ++ [failure]))
  \/ (exists new entry,
        book_one session suggestions slot_rows (rows, successful, failed) slot_id
        = (rows ++ [new], successful ++ [entry], failed)
        /\ books session suggestions slot_rows rows slot_id new entry).
Proof.
  unfold book_one.
  destruct (find (fun s => Suggestion.slot_id s =? slot_id) suggestions)
    as [suggestion |] eqn:Esugg; [| left; eexists; reflexivity].
  destruct (replace_hour _ _) as [booking_datetime | e] eqn:Ehour;
    [| left; eexists; reflexivity].
  destruct (find _ slot_rows) as [slot_row |] eqn:Eslot; [| left; eexists; reflexivity].
  destruct (find (fun r =>
                    match BookingRow.slot_id r with
                    | Some i => i =? slot_id
                    | None => false
                    end
                    && (Booking.date (BookingRow.booking r) =? booking_datetime)
                    && pending_or_confirmed (Booking.status (BookingRow.booking r)))
                 rows) as [existing |] eqn:Eexisting; [left; eexists; reflexivity |].
  cbv zeta.
  match goal with
  | |- context [match find ?p rows with _ => _ end] =>
      destruct (find p rows) as [same_day |] eqn:Eday; [left; eexists; reflexivity |]
  end.
  right. eexists. eexists. split; [reflexivity |].
  apply find_some in Esugg. destruct Esugg as [Hin Hid]. apply Z.eqb_eq in Hid.
  apply find_some in Eslot. destruct Eslot as [Hslot_in Hslot_id].
  apply Z.eqb_eq in Hslot_id.
  apply replace_hour_at_midnight in Ehour. destruct Ehour as (Hh & Hdt & Hdate).
  exists suggestion.
  split; [exact Hin |]. split; [exact Hid |]. split; [exact Hh |].
  split; [exists slot_row; auto |].
  split; [unfold Suggestion.resolved_datetime; rewrite Hdt; reflexivity |].
  split; [reflexivity |]. split; [reflexivity |].
  split; [simpl; unfold Suggestion.resolved_datetime; exact Hdt |].
  split; [reflexivity |].
  split.
  - apply find_none_Forall in Eexisting.
    eapply Forall_impl; [| exact Eexisting]. cbv beta.
    intros r Hr (Ha & _ & (i & Hi & Hi') & Hd). simpl in Hi', Hd.
    inversion Hi'; subst i. rewrite Hi, Z.eqb_refl, Hd in Hr.
    unfold active_row in Ha. rewrite Ha, Z.eqb_refl in Hr. discriminate Hr.
  - apply find_none_Forall in Eday.
    eapply Forall_impl; [| exact Eday]. cbv beta.
    intros r Hr (Hc & _ & Ha & _ & Hd). simpl in Hd. rewrite Hdate in Hd.
    apply same_day_range in Hd. rewrite Hdate in Hr.
    rewrite Hc, Z.eqb_refl in Hr. unfold active_row in Ha. rewrite Ha in Hr.
    replace (Booking.date (BookingRow.booking r)
             >=? combine_min (Suggestion.date_suggestion suggestion)) with true in Hr
      by (symmetry; rewrite Z.geb_leb; apply Z.leb_le; lia).
    replace (Booking.date (BookingRow.booking r)
             <? combine_min (Suggestion.date_suggestion suggestion) + delta 1 0)
      with true in Hr by (symmetry; apply Z.ltb_lt; lia).
    discriminate Hr.
Qed.

Lemma book_loop_spec (session : SuggestionSession.t) (suggestions : list Suggestion.t)
    (slot_rows : list SlotRow.t) (selected : list Z) :
  forall rows successful failed,
  exists created entries failures,
    fold_left (book_one session suggestions slot_rows) selected (rows, successful, failed)
    = (rows ++ created, successful ++ entries, failed ++ failures)
    /\ booked_all session suggestions slot_rows rows created entries
    /\ List.length created = List.length entries
    /\ (List.length entries + List.length failures = List.length selected)%nat.
Proof.
  induction selected as [| slot_id rest IH]; intros rows successful failed;
    cbn [fold_left].
  - exists [], [], []. rewrite !app_nil_r.
    split; [reflexivity |]. split; [constructor |]. split; reflexivity.
  - destruct (book_one_spec session suggestions slot_rows rows successful failed slot_id)
      as [[failure E] | (new & entry & E & Hbooks)]; rewrite E.
    + destruct (IH rows successful (failed ++ [failure]))
        as (created & entries & failures & Hrun & Hall & Hlen & Hcount).
      exists created, entries, (failure :: failures).
      rewrite Hrun, <- app_assoc. simpl.
      split; [reflexivity |]. split; [exact Hall |]. split; [exact Hlen | lia].
    + destruct (IH (rows ++ [new]) (successful ++ [entry]) failed)
        as (created & entries & failures & Hrun & Hall & Hlen & Hcount).
      exists (new :: created), (entry :: entries), failures.
      rewrite Hrun, <- !app_assoc. simpl.
      split; [reflexivity |].
      split; [econstructor; eassumption |]. split; [lia | lia].
Qed.

Lemma ForallOrdPairs_snoc {A : Type} (R : A -> A -> Prop) (l : list A) (x : A) :
  ForallOrdPairs R l -> Forall (fun a => R a x) l -> ForallOrdPairs R (l ++ [x]).
Proof.
  induction 1 as [| a l Ha Hl IH]; intros Hx; simpl.
  - constructor; constructor.
  - inversion Hx as [| a' l' Hax Hlx]; subst.
    constructor; [| apply IH, Hlx].
    apply Forall_app. split; [exact Ha | constructor; [exact Hax | constructor]].
Qed.

Lemma booked_all_apart (session : SuggestionSession.t) (suggestions : list Suggestion.t)
    (slot_rows : list SlotRow.t) (rows created : list BookingRow.t)
    (entries : list BookedSuggestion) :
  booked_all session suggestions slot_rows rows created entries ->
  (no_slot_clash rows -> no_slot_clash (rows ++ created))
  /\ (one_booking_a_day (SuggestionSession.client_id session) rows ->
      one_booking_a_day (SuggestionSession.client_id session) (rows ++ created)).
Proof.
  induction 1 as [rows | rows slot_id new entry created entries Hbooks Hall IH].
  - rewrite app_nil_r. auto.
  - destruct Hbooks as (suggestion & _ & _ & _ & _ & _ & _ & _ & _ & _ & Hslot & Hday).
    destruct IH as [IH1 IH2].
    replace (rows ++ new :: created) with ((rows ++ [new]) ++ created)
      by (rewrite <- app_assoc; reflexivity).
    split; intros H.
    + apply IH1. apply ForallOrdPairs_snoc; assumption.
    + apply IH2. apply ForallOrdPairs_snoc; assumption.
Qed.

(** What a 200 of [book_selected_suggestions] says of the call. *)
Lemma book_selected_suggestions_spec (clock : Clock) (token : string) (selected : list Z)
    (current_user : CurrentUser) (sessions : SessionTable) (db db' : Tables)
    (response : BookingResponse) :
  book_selected_suggestions clock token selected current_user sessions db
  = (HttpOk response, db') ->
  exists session created,
    find_session token sessions = Some session
    /\ (user_role current_user = CLIENT ->
        SuggestionSession.client_id session = user_id current_user)
    /\ utcnow clock <= SuggestionSession.expires_at session
    /\ (forall sid, In sid selected ->
                    In sid (map Suggestion.slot_id
                              (SuggestionSession.suggestions_json session)))
    /\ db' = with_booking_rows db (booking_rows db ++ created)
    /\ booked_all session (SuggestionSession.suggestions_json session) (schedule_slots db)
                  (booking_rows db) created (successful_bookings response)
    /\ total_requested response = len selected
    /\ total_successful response = len created
    /\ total_successful response + total_failed response = total_requested response.
Proof.
  unfold book_selected_suggestions.
  destruct (find_session token sessions) as [session |]; [| discriminate].
  destruct (UserRole_eqb (user_role current_user) CLIENT
            && negb (SuggestionSession.client_id session =? user_id current_user))
    eqn:Eaccess; [discriminate |].
  destruct (utcnow clock >? SuggestionSession.expires_at session) eqn:Eexp; [discriminate |].
  cbv zeta.
  destruct (filter _ selected) as [| bad others] eqn:Einvalid; [| discriminate].
  destruct (book_loop_spec session (SuggestionSession.suggestions_json session)
              (schedule_slots db) selected (booking_rows db) [] [])
    as (created & entries & failures & Hrun & Hall & Hlen & Hcount).
  rewrite Hrun. simpl app. intros H. inversion H; subst response db'. clear H. simpl.
  exists session, created.
  split; [reflexivity |].
  split.
  { intros Hrole. rewrite Hrole in Eaccess. simpl in Eaccess.
    apply negb_false_iff, Z.eqb_eq in Eaccess. exact Eaccess. }
  split; [rewrite Z.gtb_ltb in Eexp; apply Z.ltb_ge in Eexp; exact Eexp |].
  split.
  { intros sid Hsid.
    destruct (contains sid (map Suggestion.slot_id
                              (SuggestionSession.suggestions_json session))) eqn:Ec;
      [apply contains_In, Ec |].
    assert (Hbad : In sid (filter (fun sid0 =>
                      negb (contains sid0 (map Suggestion.slot_id
                              (SuggestionSession.suggestions_json session)))) selected))
      by (apply filter_In; rewrite Ec; auto).
    rewrite Einvalid in Hbad. destruct Hbad. }
  split.
  { destruct entries as [| entry entries]; [| reflexivity].
    destruct created; [rewrite app_nil_r; reflexivity | discriminate Hlen]. }
  split; [exact Hall |].
  split; [reflexivity |].
  unfold len. split; [rewrite Hlen; reflexivity | lia].
Qed.

Lemma booked_all_rows (session : SuggestionSession.t) (suggestions : list Suggestion.t)
    (slot_rows : list SlotRow.t) (rows created : list BookingRow.t)
    (entries : list BookedSuggestion) :
  booked_all session suggestions slot_rows rows created entries ->
  Forall (fun new =>
            exists suggestion,
              In suggestion suggestions
              /\ BookingRow.slot_id new = Some (Suggestion.slot_id suggestion)
              /\ (exists r, In r slot_rows
                            /\ ScheduleSlot.id (SlotRow.slot r)
                               = Suggestion.slot_id suggestion)
              /\ BookingRow.booking new
                 = {| Booking.client_id := SuggestionSession.client_id session;
                      Booking.coach_id := Suggestion.coach_id suggestion;
                      Booking.date := Suggestion.resolved_datetime suggestion;
                      Booking.status := "pending" |}
              /\ BookingRow.ai_generated new = true
              /\ 0 <= Suggestion.hour suggestion <= 23)
         created.
Proof.
  induction 1 as [rows | rows slot_id new entry created entries Hbooks Hall IH];
    constructor; [| exact IH].
  destruct Hbooks as (suggestion & Hin & Hid & Hh & Hslot & Hnew & _).
  exists suggestion. subst new slot_id. simpl. auto 10.
Qed.

(** A 200 of [POST /bookings/book-selected] accounts for every selected slot
    id once, as a success or as a failure; it leaves the rows the bookings
    table had, in place and unchanged, and adds one row for each success;
    the other tables are as they were. *)
Theorem booking_accounts_for_every_selected_slot :
  forall (clock : Clock) (token : string) (selected : list Z) (current_user : CurrentUser)
         (sessions : SessionTable) (db db' : Tables) (response : BookingResponse),
    book_selected_suggestions clock token selected current_user sessions db
    = (HttpOk response, db') ->
    exists created,
      booking_rows db' = booking_rows db ++ created
      /\ total_requested response = len selected
      /\ total_successful response = len created
      /\ total_successful response = len (successful_bookings response)
      /\ total_failed response = len (failed_bookings response)
      /\ total_successful response + total_failed response = total_requested response
      /\ schedule_slots db' = schedule_slots db
      /\ client_plans db' = client_plans db
      /\ client_preferences db' = client_preferences db
      /\ users db' = users db.
Proof.
  intros clock token selected current_user sessions db db' response Hrun.
  assert (Hlens : total_successful response = len (successful_bookings response)
                  /\ total_failed response = len (failed_bookings response)).
  { unfold book_selected_suggestions in Hrun.
    destruct (find_session token sessions); [| discriminate Hrun].
    destruct (_ && _); [discriminate Hrun |].
    destruct (_ >? _); [discriminate Hrun |]. cbv zeta in Hrun.
    destruct (filter _ selected); [| discriminate Hrun].
    destruct (fold_left _ _ _) as [[rows successful] failed].
    inversion Hrun. simpl. auto. }
  destruct (book_selected_suggestions_spec _ _ _ _ _ _ _ _ Hrun)
    as (session & created & _ & _ & _ & _ & -> & _ & H1 & H2 & H3).
  exists created. simpl. destruct Hlens. auto 12.
Qed.

(** Client 18 books the slot the engine suggested. *)
Lemma booking_accounts_for_every_selected_slot_witness :
  let opened := suggest_optimal_booking (database_of gym) (clock_at 9) reference_solve
                  "tok" 18 None 7 1 [] in
  let booked := book_selected_suggestions (clock_at 9) "tok" [1]
                  {| user_id := 18; user_role := CLIENT |} (snd opened) gym in
  exists response created,
    fst booked = HttpOk response
    /\ total_successful response = 1
    /\ booking_rows (snd booked) = booking_rows gym ++ created.
Proof.
  cbv zeta.
  edestruct (booking_accounts_for_every_selected_slot (clock_at 9) "tok" [1]
               {| user_id := 18; user_role := CLIENT |}
               (snd (suggest_optimal_booking (database_of gym) (clock_at 9) reference_solve
                       "tok" 18 None 7 1 []))
               gym)
    as (created & Hrows & _).
  - vm_compute. reflexivity.
  - eexists. exists created.
    split; [vm_compute; reflexivity |].
    split; [reflexivity |].
    exact Hrows.
Defined.

(** Every row a 200 of [POST /bookings/book-selected] adds is a pending,
    AI-generated booking of the client of the session, for a slot id that was
    selected, is among the suggestions of the session and exists in the slot
    table, with the coach of that suggestion, at the date of the suggestion
    and its hour, which is an hour of the day. A user with the client role
    books on a session of their own only. *)
Theorem booked_rows_come_from_the_session :
  forall (clock : Clock) (token : string) (selected : list Z) (current_user : CurrentUser)
         (sessions : SessionTable) (db db' : Tables) (response : BookingResponse),
    book_selected_suggestions clock token selected current_user sessions db
    = (HttpOk response, db') ->
    exists session created,
      find_session token sessions = Some session
      /\ (user_role current_user = CLIENT ->
          SuggestionSession.client_id session = user_id current_user)
      /\ utcnow clock <= SuggestionSession.expires_at session
      /\ (forall sid, In sid selected ->
                      In sid (map Suggestion.slot_id
                                (SuggestionSession.suggestions_json session)))
      /\ booking_rows db' = booking_rows db ++ created
      /\ Forall (fun new =>
                   exists suggestion,
                     In suggestion (SuggestionSession.suggestions_json session)
                     /\ BookingRow.slot_id new = Some (Suggestion.slot_id suggestion)
                     /\ (exists r, In r (schedule_slots db)
                                   /\ ScheduleSlot.id (SlotRow.slot r)
                                      = Suggestion.slot_id suggestion)
                     /\ BookingRow.booking new
                        = {| Booking.client_id := SuggestionSession.client_id session;
                             Booking.coach_id := Suggestion.coach_id suggestion;
                             Booking.date := Suggestion.resolved_datetime suggestion;
                             Booking.status := "pending" |}
                     /\ BookingRow.ai_generated new = true
                     /\ 0 <= Suggestion.hour suggestion <= 23)
                created.
Proof.
  intros clock token selected current_user sessions db db' response Hrun.
  destruct (book_selected_suggestions_spec _ _ _ _ _ _ _ _ Hrun)
    as (session & created & Hfind & Hrole & Hexp & Hsel & -> & Hall & _).
  exists session, created.
  split; [exact Hfind |]. split; [exact Hrole |]. split; [exact Hexp |].
  split; [exact Hsel |]. split; [reflexivity |].
  apply (booked_all_rows _ _ _ _ _ _ Hall).
Qed.

Lemma booked_rows_come_from_the_session_witness :
  let opened := suggest_optimal_booking (database_of gym) (clock_at 9) reference_solve
                  "tok" 18 None 7 1 [] in
  let booked := book_selected_suggestions (clock_at 9) "tok" [1]
                  {| user_id := 18; user_role := CLIENT |} (snd opened) gym in
  exists response session created,
    fst booked = HttpOk response
    /\ find_session "tok" (snd opened) = Some session
    /\ booking_rows (snd booked) = booking_rows gym ++ created.
Proof.
  cbv zeta.
  edestruct (booked_rows_come_from_the_session (clock_at 9) "tok" [1]
               {| user_id := 18; user_role := CLIENT |}
               (snd (suggest_optimal_booking (database_of gym) (clock_at 9) reference_solve
                       "tok" 18 None 7 1 []))
               gym)
    as (session & created & Hfind & _ & _ & _ & Hrows & _).
  - vm_compute. reflexivity.
  - eexists. exists session, created.
    split; [vm_compute; reflexivity |].
    split; [exact Hfind | exact Hrows].
Defined.

(** [POST /bookings/book-selected] keeps active bookings apart. If no two
    pending or confirmed bookings shared a slot and a date-time before the
    call, none do after it; and if the client of the session had no two
    pending or confirmed bookings on one day before the call, the client has
    none after it. *)
Theorem booking_keeps_bookings_apart :
  forall (clock : Clock) (token : string) (selected : list Z) (current_user : CurrentUser)
         (sessions : SessionTable) (db db' : Tables) (response : BookingResponse)
         (session : SuggestionSession.t),
    find_session token sessions = Some session ->
    book_selected_suggestions clock token selected current_user sessions db
    = (HttpOk response, db') ->
    (no_slot_clash (booking_rows db) -> no_slot_clash (booking_rows db'))
    /\ (one_booking_a_day (SuggestionSession.client_id session) (booking_rows db) ->
        one_booking_a_day (SuggestionSession.client_id session) (booking_rows db')).
Proof.
  intros clock token selected current_user sessions db db' response session Hfind Hrun.
  destruct (book_selected_suggestions_spec _ _ _ _ _ _ _ _ Hrun)
    as (session' & created & Hfind' & _ & _ & _ & -> & Hall & _).
  rewrite Hfind in Hfind'. inversion Hfind'; subst session'.
  apply (booked_all_apart _ _ _ _ _ _ Hall).
Qed.

(** Slot 1 selected twice: the second booking is refused, and the table
    holds no two active bookings of a slot at one time. *)
Lemma booking_keeps_bookings_apart_witness :
  let opened := suggest_optimal_booking (database_of gym) (clock_at 9) reference_solve
                  "tok" 18 None 7 1 [] in
  let booked := book_selected_suggestions (clock_at 9) "tok" [1; 1]
                  {| user_id := 18; user_role := CLIENT |} (snd opened) gym in
  exists response,
    fst booked = HttpOk response
    /\ total_successful response = 1
    /\ map failed_reason (failed_bookings response) = ["Slot already booked"]
    /\ no_slot_clash (booking_rows (snd booked)).
Proof.
  cbv zeta. eexists.
  split; [vm_compute; reflexivity |].
  split; [reflexivity |].
  split; [reflexivity |].
  eapply (booking_keeps_bookings_apart (clock_at 9) "tok" [1; 1]
            {| user_id := 18; user_role := CLIENT |}
            (snd (suggest_optimal_booking (database_of gym) (clock_at 9) reference_solve
                    "tok" 18 None 7 1 []))
            gym).
  - vm_compute. reflexivity.
  - vm_compute. reflexivity.
  - unfold no_slot_clash. simpl. constructor; constructor.
Defined.

(** The errors of [POST /bookings/book-selected] change nothing, and each
    has its own status: 404 when no active session has the token, 403 when a
    user with the client role names a session of another client, 410 when
    the session's expiry is before the UTC time of the call, 400 when a
    selected slot id is not among the suggestions of the session. *)
Theorem booking_errors :
  forall (clock : Clock) (token : string) (selected : list Z) (current_user : CurrentUser)
         (sessions : SessionTable) (db : Tables),
    match book_selected_suggestions clock token selected current_user sessions db with
    | (HttpOk _, _) => True
    | (HttpError code detail, db') =>
        db' = db
        /\ match find_session token sessions with
           | None => code = 404
           | Some session =>
               if UserRole_eqb (user_role current_user) CLIENT
                  && negb (SuggestionSession.client_id session =? user_id current_user)
               then code = 403
               else if utcnow clock >? SuggestionSession.expires_at session
               then code = 410
               else code = 400
                    /\ exists sid,
                         In sid selected
                         /\ ~ In sid (map Suggestion.slot_id
                                        (SuggestionSession.suggestions_json session))
           end
    end.
Proof.
  intros clock token selected current_user sessions db.
  unfold book_selected_suggestions.
  destruct (find_session token sessions) as [session |]; [| auto].
  destruct (_ && _); [auto |].
  destruct (_ >? _); [auto |]. cbv zeta.
  destruct (filter _ selected) as [| bad others] eqn:Einvalid.
  - destruct (fold_left _ _ _) as [[rows successful] failed]. exact I.
  - split; [reflexivity |]. split; [reflexivity |].
    assert (Hbad : In bad (bad :: others)) by (left; reflexivity).
    rewrite <- Einvalid in Hbad. apply filter_In in Hbad. destruct Hbad as [Hsel Hc].
    exists bad. split; [exact Hsel |]. intros Hin. apply contains_In in Hin.
    rewrite Hin in Hc. discriminate Hc.
Qed.

(** ** Seeding the weekly schedule *)

Lemma In_range (start stop k : Z) : In k (range start stop) <-> start <= k < stop.
Proof.
  unfold range. rewrite in_map_iff. split.
  - intros (n & <- & Hn). apply in_seq in Hn. lia.
  - intros Hk. exists (Z.to_nat (k - start)). split; [lia |].
    apply in_seq. lia.
Qed.

Lemma fold_left_inv {A B : Type} (f : A -> B -> A) (I : A -> Prop) (l : list B) :
  (forall a b, In b l -> I a -> I (f a b)) ->
  forall a, I a -> I (fold_left f l a).
Proof.
  induction l as [| b l IH]; intros Hstep a Ha; simpl; [exact Ha |].
  apply IH.
  - intros a' b' Hb'. apply Hstep. right. exact Hb'.
  - apply Hstep; [left; reflexivity | exact Ha].
Qed.

Lemma fold_left_reaches {A B : Type} (f : A -> B -> A) (P : A -> Prop) (l : list B) (b : B) :
  In b l ->
  (forall a, P (f a b)) ->
  (forall a b', In b' l -> P a -> P (f a b')) ->
  forall a, P (fold_left f l a).
Proof.
  induction l as [| x l IH]; intros Hb Hdoes Hkeeps a; simpl; [destruct Hb |].
  destruct Hb as [-> | Hb].
  - apply fold_left_inv.
    + intros a' b' Hb'. apply Hkeeps. right. exact Hb'.
    + apply Hdoes.
  - apply IH; [exact Hb | exact Hdoes |].
    intros a' b' Hb'. apply Hkeeps. right. exact Hb'.
Qed.

Lemma slot_at_key (day hour coach : Z) (r : SlotRow.t) :
  schedule_crud.slot_at day hour coach r = true <-> slot_key r = (day, hour, coach).
Proof.
  unfold schedule_crud.slot_at, slot_key. rewrite !andb_true_iff, !Z.eqb_eq. split.
  - intros [[-> ->] ->]. reflexivity.
  - intros H. inversion H. auto.
Qed.

Lemma find_slot_at (day hour coach : Z) (rows : list SlotRow.t) :
  match find (schedule_crud.slot_at day hour coach) rows with
  | Some _ => In (day, hour, coach) (map slot_key rows)
  | None => ~ In (day, hour, coach) (map slot_key rows)
  end.
Proof.
  destruct (find _ rows) as [r |] eqn:Efind.
  - apply find_some in Efind. destruct Efind as [Hin Hat].
    apply slot_at_key in Hat. rewrite <- Hat. apply in_map. exact Hin.
  - intros Hin. apply in_map_iff in Hin. destruct Hin as (r & Hkey & Hin).
    apply (find_none _ _ Efind) in Hin. apply slot_at_key in Hkey.
    rewrite Hkey in Hin. discriminate Hin.
Qed.

Section SeedingFacts.

Variable new_slot_id : list SlotRow.t -> Z.

(** One turn of the innermost loop adds nothing, or one active slot of
    capacity 10 at a free place outside the lunch break. *)
Lemma seed_hour_spec (coach day hour : Z) (rows : list SlotRow.t) :
  schedule_crud.seed_hour new_slot_id coach day rows hour = rows
  \/ (~ (12 <= hour <= 13)
      /\ ~ In (day, hour, coach) (map slot_key rows)
      /\ schedule_crud.seed_hour new_slot_id coach day rows hour
         = rows ++ [SlotRow.mk {| ScheduleSlot.id := new_slot_id rows;
                                  ScheduleSlot.day_of_week := day;
                                  ScheduleSlot.start_hour := hour;
                                  ScheduleSlot.coach_id := coach;
                                  ScheduleSlot.capacity := 10 |} true]).
Proof.
  unfold schedule_crud.seed_hour.
  destruct ((hour >=? 12) && (hour <=? 13)) eqn:Elunch; [left; reflexivity |].
  pose proof (find_slot_at day hour coach rows) as Hfind.
  destruct (find _ rows); [left; reflexivity |].
  right. split; [| split; [exact Hfind | reflexivity]].
  apply andb_false_iff in Elunch. lia.
Qed.

(** What every turn keeps is kept by the whole loop; the turns are those of
    the coaches of the list with both shift hours, the days 0 to 6 and the
    hours of the shift. *)
Lemma seed_rows_inv (I : list SlotRow.t -> Prop) (coaches : list UserRow.t) :
  (forall u shift_start shift_end day hour rows,
      In u coaches ->
      UserRow.shift_start_hour u = Some shift_start ->
      UserRow.shift_end_hour u = Some shift_end ->
      0 <= day <= 6 ->
      shift_start <= hour <= shift_end ->
      I rows ->
      I (schedule_crud.seed_hour new_slot_id (UserRow.id u) day rows hour)) ->
  forall rows, I rows ->
               I (fold_left (schedule_crud.seed_coach new_slot_id) coaches rows).
Proof.
  intros Hstep. apply fold_left_inv. intros rows u Hu Hrows.
  unfold schedule_crud.seed_coach.
  destruct (UserRow.shift_start_hour u) as [shift_start |] eqn:Estart; [| exact Hrows].
  destruct (UserRow.shift_end_hour u) as [shift_end |] eqn:Eend; [| exact Hrows].
  apply fold_left_inv; [| exact Hrows]. intros rows1 day Hday Hrows1.
  apply fold_left_inv; [| exact Hrows1]. intros rows2 hour Hhour Hrows2.
  apply In_range in Hday. apply In_range in Hhour.
  apply (Hstep u shift_start shift_end); auto; lia.
Qed.

Lemma seed_hour_keeps (coach day hour : Z) (rows : list SlotRow.t) (key : Z * Z * Z) :
  In key (map slot_key rows) ->
  In key (map slot_key (schedule_crud.seed_hour new_slot_id coach day rows hour)).
Proof.
  intros Hin. destruct (seed_hour_spec coach day hour rows) as [-> | (_ & _ & ->)];
    [exact Hin |].
  rewrite map_app. apply in_or_app. left. exact Hin.
Qed.

Lemma seed_hour_reaches (coach day hour : Z) (rows : list SlotRow.t) :
  ~ (12 <= hour <= 13) ->
  In (day, hour, coach)
     (map slot_key (schedule_crud.seed_hour new_slot_id coach day rows hour)).
Proof.
  intros Hopen. unfold schedule_crud.seed_hour.
  destruct ((hour >=? 12) && (hour <=? 13)) eqn:Elunch.
  - apply andb_true_iff in Elunch. lia.
  - pose proof (find_slot_at day hour coach rows) as Hfind.
    destruct (find _ rows); [exact Hfind |].
    simpl. unfold list_append. rewrite map_app. apply in_or_app. right. left. reflexivity.
Qed.

Lemma seed_coach_keeps (u : UserRow.t) (rows : list SlotRow.t) (key : Z * Z * Z) :
  In key (map slot_key rows) ->
  In key (map slot_key (schedule_crud.seed_coach new_slot_id rows u)).
Proof.
  intros Hin. unfold schedule_crud.seed_coach.
  destruct (UserRow.shift_start_hour u); [| exact Hin].
  destruct (UserRow.shift_end_hour u); [| exact Hin].
  apply (fold_left_inv _ (fun rows => In key (map slot_key rows))); [| exact Hin].
  intros rows1 day _ Hrows1.
  apply (fold_left_inv _ (fun rows => In key (map slot_key rows))); [| exact Hrows1].
  intros rows2 hour _ Hrows2. apply seed_hour_keeps. exact Hrows2.
Qed.

Lemma seed_coach_reaches (u : UserRow.t) (rows : list SlotRow.t)
    (shift_start shift_end day hour : Z) :
  UserRow.shift_start_hour u = Some shift_start ->
  UserRow.shift_end_hour u = Some shift_end ->
  0 <= day <= 6 ->
  open_hour shift_start shift_end hour ->
  In (day, hour, UserRow.id u)
     (map slot_key (schedule_crud.seed_coach new_slot_id rows u)).
Proof.
  intros Hstart Hend Hday [Hshift Hopen]. unfold schedule_crud.seed_coach.
  rewrite Hstart, Hend.
  set (P := fun rows => In (day, hour, UserRow.id u) (map slot_key rows)).
  apply (fold_left_reaches _ P _ day).
  - apply In_range. lia.
  - intros rows1. apply (fold_left_reaches _ P _ hour).
    + apply In_range. lia.
    + intros rows2. apply seed_hour_reaches. exact Hopen.
    + intros rows2 hour2 _. apply seed_hour_keeps.
  - intros rows1 day2 _ Hin. apply (fold_left_inv _ P); [| exact Hin].
    intros rows2 hour2 _. apply seed_hour_keeps.
Qed.

Lemma seed_rows_reach (coaches : list UserRow.t) (rows : list SlotRow.t) (u : UserRow.t)
    (shift_start shift_end day hour : Z) :
  In u coaches ->
  UserRow.shift_start_hour u = Some shift_start ->
  UserRow.shift_end_hour u = Some shift_end ->
  0 <= day <= 6 ->
  open_hour shift_start shift_end hour ->
  In (day, hour, UserRow.id u)
     (map slot_key (fold_left (schedule_crud.seed_coach new_slot_id) coaches rows)).
Proof.
  intros Hu Hstart Hend Hday Hopen.
  apply (fold_left_reaches _
           (fun rows => In (day, hour, UserRow.id u) (map slot_key rows)) _ u Hu).
  - intros rows1. apply (seed_coach_reaches u rows1 shift_start shift_end); assumption.
  - intros rows1 u' _. apply seed_coach_keeps.
Qed.

(** Where every place of the loop holds a slot, the loop adds nothing. *)
Lemma seed_rows_full (coaches : list UserRow.t) (rows : list SlotRow.t) :
  (forall u shift_start shift_end day hour,
      In u coaches ->
      UserRow.shift_start_hour u = Some shift_start ->
      UserRow.shift_end_hour u = Some shift_end ->
      0 <= day <= 6 ->
      open_hour shift_start shift_end hour ->
      In (day, hour, UserRow.id u) (map slot_key rows)) ->
  fold_left (schedule_crud.seed_coach new_slot_id) coaches rows = rows.
Proof.
  intros Hfull. apply (seed_rows_inv (fun rows' => rows' = rows)); [| reflexivity].
  intros u shift_start shift_end day hour rows' Hu Hstart Hend Hday Hhour ->.
  destruct (seed_hour_spec (UserRow.id u) day hour rows) as [H | (Hopen & Hfree & _)];
    [exact H |].
  exfalso. apply Hfree. apply (Hfull u shift_start shift_end); auto.
  split; assumption.
Qed.

Lemma coaches_with_shift (db : Tables) (u : UserRow.t) :
  In u (filter (fun u => UserRole_eqb (UserRow.role u) COACH
                         && isnot_None (UserRow.shift_start_hour u)
                         && isnot_None (UserRow.shift_end_hour u))
               (users db))
  <-> In u (users db)
      /\ exists shift_start shift_end,
           UserRow.role u = COACH
           /\ UserRow.shift_start_hour u = Some shift_start
           /\ UserRow.shift_end_hour u = Some shift_end.
Proof.
  rewrite filter_In. split; intros [Hin H]; (split; [exact Hin |]).
  - apply andb_true_iff in H. destruct H as [H Hend].
    apply andb_true_iff in H. destruct H as [Hrole Hstart].
    destruct (UserRow.shift_start_hour u) as [s |]; [| discriminate Hstart].
    destruct (UserRow.shift_end_hour u) as [e |]; [| discriminate Hend].
    exists s, e. destruct (UserRow.role u); try discriminate Hrole. auto.
  - destruct H as (s & e & -> & -> & ->). reflexivity.
Qed.

(** The rows the seeding adds. *)
Lemma seed_rows_grow (db : Tables) (coaches : list UserRow.t) (rows : list SlotRow.t) :
  (forall u, In u coaches -> In u (users db) /\ UserRow.role u = COACH) ->
  exists created,
    fold_left (schedule_crud.seed_coach new_slot_id) coaches rows = rows ++ created
    /\ Forall (seeded_slot db) created
    /\ (forall r, In r created -> ~ In (slot_key r) (map slot_key rows)).
Proof.
  intros Hcoaches.
  apply (seed_rows_inv
           (fun rows' => exists created,
                rows' = rows ++ created
                /\ Forall (seeded_slot db) created
                /\ (forall r, In r created -> ~ In (slot_key r) (map slot_key rows)))).
  - intros u shift_start shift_end day hour rows' Hu Hstart Hend Hday Hhour
           (created & -> & Hall & Hfree).
    destruct (seed_hour_spec (UserRow.id u) day hour (rows ++ created))
      as [-> | (Hopen & Hnew & ->)].
    + exists created. auto.
    + exists (created ++ [SlotRow.mk {| ScheduleSlot.id := new_slot_id (rows ++ created);
                                        ScheduleSlot.day_of_week := day;
                                        ScheduleSlot.start_hour := hour;
                                        ScheduleSlot.coach_id := UserRow.id u;
                                        ScheduleSlot.capacity := 10 |} true]).
      split; [rewrite app_assoc; reflexivity |]. split.
      * apply Forall_app. split; [exact Hall |]. constructor; [| constructor].
        unfold seeded_slot. simpl. split; [reflexivity |]. split; [reflexivity |].
        split; [exact Hday |]. exists shift_start, shift_end.
        split; [| split; assumption].
        exists u. destruct (Hcoaches u Hu) as [Hin Hrole]. auto.
      * intros r Hr. apply in_app_or in Hr. destruct Hr as [Hr | [<- | []]].
        -- apply Hfree. exact Hr.
        -- unfold slot_key at 1. simpl. intros Hin. apply Hnew.
           rewrite map_app. apply in_or_app. left. exact Hin.
  - exists []. rewrite app_nil_r. split; [reflexivity |]. split; [constructor |].
    intros r [].
Qed.

(** The loop keeps the places of the slots apart. *)
Lemma seed_rows_unique (coaches : list UserRow.t) (rows : list SlotRow.t) :
  NoDup (map slot_key rows) ->
  NoDup (map slot_key (fold_left (schedule_crud.seed_coach new_slot_id) coaches rows)).
Proof.
  apply (seed_rows_inv (fun rows => NoDup (map slot_key rows))).
  intros u shift_start shift_end day hour rows' _ _ _ _ _ Hnodup.
  destruct (seed_hour_spec (UserRow.id u) day hour rows') as [-> | (_ & Hnew & ->)];
    [exact Hnodup |].
  rewrite map_app. simpl.
  apply Permutation_NoDup with (l := (day, hour, UserRow.id u) :: map slot_key rows').
  - apply Permutation_cons_append.
  - constructor; assumption.
Qed.

(** The loop keeps the primary keys apart when the database gives fresh
    ones. *)
Lemma seed_rows_ids (coaches : list UserRow.t) (rows : list SlotRow.t) :
  (forall rows, ~ In (new_slot_id rows)
                     (map (fun r => ScheduleSlot.id (SlotRow.slot r)) rows)) ->
  NoDup (map (fun r => ScheduleSlot.id (SlotRow.slot r)) rows) ->
  NoDup (map (fun r => ScheduleSlot.id (SlotRow.slot r))
             (fold_left (schedule_crud.seed_coach new_slot_id) coaches rows)).
Proof.
  intros Hfresh.
  apply (seed_rows_inv
           (fun rows => NoDup (map (fun r => ScheduleSlot.id (SlotRow.slot r)) rows))).
  intros u shift_start shift_end day hour rows' _ _ _ _ _ Hnodup.
  destruct (seed_hour_spec (UserRow.id u) day hour rows') as [-> | (_ & _ & ->)];
    [exact Hnodup |].
  rewrite map_app. simpl.
  apply Permutation_NoDup
    with (l := new_slot_id rows' :: map (fun r => ScheduleSlot.id (SlotRow.slot r)) rows').
  - apply Permutation_cons_append.
  - constructor; [apply Hfresh | exact Hnodup].
Qed.

End SeedingFacts.

(** [seed_weekly_schedule] answers [False] and changes nothing when no coach
    has both shift hours. Otherwise it answers [True] and leaves the rows of
    [schedule_slots] in place, followed by the slots it made; each of these
    is active, of capacity 10, on a day 0 to 6 and at an hour of the shift
    of a coach other than 12 and 13, at a day, hour and coach no row of the
    table had, inactive ones included. The other tables are as they were. *)
Theorem seeding_adds_the_missing_open_hours :
  forall (new_slot_id : list SlotRow.t -> Z) (db : Tables),
    let result := schedule_crud.seed_weekly_schedule new_slot_id db in
    (fst result = false <->
     forall coach shift_start shift_end, ~ has_shift db coach shift_start shift_end)
    /\ (fst result = false -> snd result = db)
    /\ exists created,
         schedule_slots (snd result) = schedule_slots db ++ created
         /\ Forall (seeded_slot db) created
         /\ (forall r, In r created ->
                       ~ In (slot_key r) (map slot_key (schedule_slots db)))
         /\ booking_rows (snd result) = booking_rows db
         /\ client_plans (snd result) = client_plans db
         /\ client_preferences (snd result) = client_preferences db
         /\ users (snd result) = users db.
Proof.
  intros new_slot_id db. cbv zeta. unfold schedule_crud.seed_weekly_schedule.
  pose proof (coaches_with_shift db) as Hcoaches.
  destruct (filter _ (users db)) as [| u coaches] eqn:Efilter.
  - simpl. split; [| split; [reflexivity |]].
    + split; [| reflexivity]. intros _ coach s e (u & Hin & _ & Hrole & Hs & He).
      apply (proj2 (Hcoaches u)). split; [exact Hin | eauto].
    + exists []. rewrite app_nil_r. repeat split; auto.
  - cbn [fst snd]. split; [| split; [discriminate |]].
    + split; [discriminate |]. intros Hnone. exfalso.
      destruct (proj1 (Hcoaches u) (or_introl eq_refl)) as (Hin & s & e & Hrole & Hs & He).
      apply (Hnone (UserRow.id u) s e). exists u. auto.
    + destruct (seed_rows_grow new_slot_id db (u :: coaches) (schedule_slots db))
        as (created & Hrows & Hall & Hfree).
      * intros u' Hu'. apply Hcoaches in Hu'.
        destruct Hu' as (Hin & s & e & Hrole & _). auto.
      * exists created. simpl. rewrite <- Hrows. auto 10.
Qed.

(** After a seeding that answers [True], the table holds a slot for every
    coach with a shift, every day 0 to 6 and every hour of the shift other
    than 12 and 13. *)
Theorem seeding_covers_every_shift :
  forall (new_slot_id : list SlotRow.t -> Z) (db db' : Tables)
         (coach shift_start shift_end day hour : Z),
    schedule_crud.seed_weekly_schedule new_slot_id db = (true, db') ->
    has_shift db coach shift_start shift_end ->
    0 <= day <= 6 ->
    open_hour shift_start shift_end hour ->
    exists r,
      In r (schedule_slots db')
      /\ ScheduleSlot.day_of_week (SlotRow.slot r) = day
      /\ ScheduleSlot.start_hour (SlotRow.slot r) = hour
      /\ ScheduleSlot.coach_id (SlotRow.slot r) = coach.
Proof.
  intros new_slot_id db db' coach shift_start shift_end day hour Hrun
         (u & Hin & Hid & Hrole & Hstart & Hend) Hday Hopen.
  unfold schedule_crud.seed_weekly_schedule in Hrun.
  pose proof (proj2 (coaches_with_shift db u)) as Hu.
  destruct (filter _ (users db)) as [| u0 coaches] eqn:Efilter; [discriminate Hrun |].
  inversion Hrun as [Hdb']. simpl.
  pose proof (seed_rows_reach new_slot_id (u0 :: coaches) (schedule_slots db) u
                shift_start shift_end day hour) as Hreach.
  rewrite in_map_iff in Hreach. destruct Hreach as (r & Hkey & Hr); auto.
  - apply Hu. split; [exact Hin |]. eauto.
  - exists r. split; [exact Hr |]. unfold slot_key in Hkey. inversion Hkey. subst coach. auto.
Qed.

(** Coach 7 of the gym works 10 to 15: after the seeding there is a slot on
    Thursday at 14:00. *)
Lemma seeding_covers_every_shift_witness :
  exists r,
    In r (schedule_slots (snd (schedule_crud.seed_weekly_schedule next_id gym)))
    /\ ScheduleSlot.day_of_week (SlotRow.slot r) = 3
    /\ ScheduleSlot.start_hour (SlotRow.slot r) = 14
    /\ ScheduleSlot.coach_id (SlotRow.slot r) = 7.
Proof.
  apply (seeding_covers_every_shift next_id gym
           (snd (schedule_crud.seed_weekly_schedule next_id gym)) 7 10 15 3 14).
  - vm_compute. reflexivity.
  - eexists. split; [left; reflexivity |]. repeat split.
  - lia.
  - unfold open_hour. lia.
Defined.

(** Seeding a seeded database adds nothing: the second call gives the
    answer and the tables of the first. *)
Theorem seeding_twice_is_seeding_once :
  forall (new_slot_id : list SlotRow.t -> Z) (db : Tables),
    schedule_crud.seed_weekly_schedule new_slot_id
      (snd (schedule_crud.seed_weekly_schedule new_slot_id db))
    = schedule_crud.seed_weekly_schedule new_slot_id db.
Proof.
  intros new_slot_id db. unfold schedule_crud.seed_weekly_schedule.
  destruct (filter _ (users db)) as [| u coaches] eqn:Efilter.
  - simpl. rewrite Efilter. reflexivity.
  - cbn [snd with_schedule_slots users schedule_slots]. rewrite Efilter.
    f_equal. unfold with_schedule_slots. cbn [schedule_slots booking_rows client_plans
                                              client_preferences users].
    f_equal. apply seed_rows_full.
    intros u' s e day hour Hu' Hs He Hday Hopen.
    apply (seed_rows_reach new_slot_id (u :: coaches) (schedule_slots db) u' s e);
      assumption.
Qed.

(** Seeding keeps the slot table well-formed: if no two rows shared a day,
    an hour and a coach before it (the [unique_slot] constraint), none do
    after it; and if the database gives fresh primary keys, rows with
    different keys before have different keys after. *)
Theorem seeding_keeps_slots_unique :
  forall (new_slot_id : list SlotRow.t -> Z) (db : Tables),
    NoDup (map slot_key (schedule_slots db)) ->
    let db' := snd (schedule_crud.seed_weekly_schedule new_slot_id db) in
    NoDup (map slot_key (schedule_slots db'))
    /\ ((forall rows, ~ In (new_slot_id rows)
                           (map (fun r => ScheduleSlot.id (SlotRow.slot r)) rows)) ->
        NoDup (map (fun r => ScheduleSlot.id (SlotRow.slot r)) (schedule_slots db)) ->
        NoDup (map (fun r => ScheduleSlot.id (SlotRow.slot r)) (schedule_slots db'))).
Proof.
  intros new_slot_id db Hkeys. cbv zeta. unfold schedule_crud.seed_weekly_schedule.
  destruct (filter _ (users db)) as [| u coaches]; simpl.
  - split; [exact Hkeys | auto].
  - split; [apply (seed_rows_unique new_slot_id (u :: coaches)); exact Hkeys |].
    intros Hfresh Hids. apply (seed_rows_ids new_slot_id (u :: coaches)); assumption.
Qed.

Lemma seeding_keeps_slots_unique_witness :
  NoDup (map slot_key
             (schedule_slots (snd (schedule_crud.seed_weekly_schedule next_id gym)))).
Proof.
  apply (seeding_keeps_slots_unique next_id gym).
  simpl. repeat constructor; simpl; intuition discriminate.
Defined.
